(** * SuperClaude: settings manager and MorphLLM tool interceptor

    A shallow embedding of
      - [setup/core/settings_manager.py] (class [SettingsManager]) and
      - [SuperClaude/Hooks/morph_tool_interceptor.py] (class
        [MorphToolInterceptor] and [main]),
    with the properties the specification states about them, and with
    further properties of the code: of the reading and updating of the
    settings, of the backups, and of the routing of a tool call.

    Python values that come out of [json.load] are modelled by the tree type
    [json]; a Python [dict] is an association list in insertion order whose
    keys are pairwise distinct; exceptions are explicit results. *)

From Stdlib Require Import ZArith String Ascii List Bool Lia.
From Stdlib Require Import OrderedTypeEx Sorted.
From stdpp Require Import base option list strings gmap fin_maps pretty.

Open Scope Z_scope.
Open Scope string_scope.

(** * The programs *)

(** ** Python values and exceptions *)

Module Py.

(** The values [json.load] produces.  A [JStr] holds the UTF-8 bytes of the
    Python string, with a lone surrogate (which [json.load] accepts in an
    escape, and which no UTF-8 text holds) as the three bytes that the
    same scheme gives its code point; a [JFloat] holds the IEEE-754 bits
    of the number (no modelled code computes with a float). *)
Unset Elimination Schemes.
Inductive json : Type :=
| JNull
| JBool (b : bool)
| JInt (n : Z)
| JFloat (bits : Z)
| JStr (s : string)
| JList (elems : list json)
| JDict (items : list (string * json)).
Set Elimination Schemes.

Definition dict : Type := list (string * json).

(** Induction over [json] trees, with the hypotheses for the elements of a
    list and for the values of a dict. *)
Definition json_ind (P : json -> Prop)
  (HNull : P JNull) (HBool : forall b, P (JBool b)) (HInt : forall n, P (JInt n))
  (HFloat : forall x, P (JFloat x)) (HStr : forall s, P (JStr s))
  (HList : forall l, Forall P l -> P (JList l))
  (HDict : forall d, Forall (fun kv => P (snd kv)) d -> P (JDict d)) :
  forall v, P v :=
  fix F (v : json) : P v :=
    match v with
    | JNull => HNull
    | JBool b => HBool b
    | JInt n => HInt n
    | JFloat x => HFloat x
    | JStr s => HStr s
    | JList l =>
        HList l ((fix G (l : list json) : Forall P l :=
                    match l with
                    | [] => @List.Forall_nil _ P
                    | x :: r => @List.Forall_cons _ P x r (F x) (G r)
                    end) l)
    | JDict d =>
        HDict d ((fix G (d : list (string * json)) : Forall (fun kv => P (snd kv)) d :=
                    match d with
                    | [] => @List.Forall_nil _ _
                    | kv :: r => @List.Forall_cons _ _ kv r (F (snd kv)) (G r)
                    end) d)
    end.

(** The exception classes the modelled code can meet, all of them
    subclasses of [Exception].  ([SystemExit], which is not, is an outcome
    of its own in the model of the hook process below.) *)
Inductive exn : Type :=
| TypeError
| AttributeError
| KeyError
| IndexError
| OverflowError
| ValueError
| JSONDecodeError
| UnicodeDecodeError
| UnicodeEncodeError
| OSError.

Inductive result (A : Type) : Type :=
| Ok (a : A)
| Raise (e : exn).
Arguments Ok {A} a.
Arguments Raise {A} e.

#[global] Instance result_ret : MRet result := fun A a => Ok a.
#[global] Instance result_bind : MBind result :=
  fun A B k r => match r with Ok a => k a | Raise e => Raise e end.

(** *** dict operations *)

Section Dict.
Context {V : Type}.

(** [d.get(k)]: the value stored under [k]. *)
Fixpoint dict_get (k : string) (d : list (string * V)) : option V :=
  match d with
  | [] => None
  | (k', v) :: r => if String.eqb k k' then Some v else dict_get k r
  end.

(** [k in d] *)
Definition dict_has (k : string) (d : list (string * V)) : bool :=
  match dict_get k d with Some _ => true | None => false end.

(** [d[k] = v]: an existing key keeps its position, a new key goes last. *)
Fixpoint dict_set (k : string) (v : V) (d : list (string * V)) : list (string * V) :=
  match d with
  | [] => [(k, v)]
  | (k', v') :: r =>
      if String.eqb k k' then (k, v) :: r else (k', v') :: dict_set k v r
  end.

Definition dict_keys (d : list (string * V)) : list string := map fst d.

End Dict.

(** [name in xs] for a list of strings. *)
Definition str_in (s : string) (xs : list string) : bool :=
  existsb (String.eqb s) xs.

Definition isinstance_str (v : json) : bool :=
  match v with JStr _ => true | _ => false end.
Definition isinstance_dict (v : json) : bool :=
  match v with JDict _ => true | _ => false end.

(** *** Operations of the language on [json] values *)

(** [needle in s] for two strings. *)
Fixpoint str_contains (needle s : string) : bool :=
  if String.prefix needle s then true
  else match s with
       | EmptyString => false
       | String _ r => str_contains needle r
       end.

(** [len(s)]: the number of code points, which is the number of bytes that
    are not continuation bytes ([10xxxxxx]) of the UTF-8 encoding. *)
Fixpoint str_len (s : string) : Z :=
  match s with
  | EmptyString => 0
  | String c r =>
      (if Z.eqb (Z.land (Z.of_N (N_of_ascii c)) 192) 128 then 0 else 1) + str_len r
  end.

(** [k in container], for a string [k]: a key of a dict, an element of a
    list, a substring of a string; [TypeError] for a value that is not
    iterable. *)
Definition py_contains (k : string) (container : json) : result bool :=
  match container with
  | JDict d => Ok (dict_has k d)
  | JList l => Ok (existsb (fun x => match x with JStr s => String.eqb s k | _ => false end) l)
  | JStr s => Ok (str_contains k s)
  | _ => Raise TypeError
  end.

(** [container.get(k, default)]: only a dict has the method. *)
Definition py_get (container : json) (k : string) (default : json) : result json :=
  match container with
  | JDict d => Ok (match dict_get k d with Some v => v | None => default end)
  | _ => Raise AttributeError
  end.

(** [container[k]], for a string [k]. *)
Definition py_getitem (container : json) (k : string) : result json :=
  match container with
  | JDict d => match dict_get k d with Some v => Ok v | None => Raise KeyError end
  | _ => Raise TypeError
  end.

(** [len(v)] *)
Definition py_len (v : json) : result Z :=
  match v with
  | JList l => Ok (Z.of_nat (length l))
  | JDict d => Ok (Z.of_nat (length d))
  | JStr s => Ok (str_len s)
  | _ => Raise TypeError
  end.

(** [v in d] for a dict [d] with the string keys [keys]: the value is
    hashed first, and a list or a dict is unhashable. *)
Definition py_in_keys (v : json) (keys : list string) : result bool :=
  match v with
  | JStr s => Ok (str_in s keys)
  | JList _ | JDict _ => Raise TypeError
  | _ => Ok false
  end.

(** [v in xs] for a list [xs] of strings, and [v == s]: comparisons, which
    never raise. *)
Definition py_in_list (v : json) (xs : list string) : bool :=
  match v with JStr s => str_in s xs | _ => false end.
Definition py_eq_str (v : json) (s : string) : bool :=
  match v with JStr s' => String.eqb s' s | _ => false end.

(** [str(v)], as an f-string renders a value.  It is exact for [None],
    booleans, integers and strings; the text for a float, a list or a dict
    is schematic: no f-string of the hook receives one (lemmas
    [safe_path_is_pathlike] and [intercepted_tool_is_str]). *)
Definition py_str (v : json) : string :=
  match v with
  | JNull => "None"
  | JBool true => "True"
  | JBool false => "False"
  | JInt n => pretty n
  | JStr s => s
  | JFloat _ => "<float>"
  | JList _ => "[...]"
  | JDict _ => "{...}"
  end.

(** Truth value of [v] in a condition. *)
Definition py_truthy (v : json) : bool :=
  match v with
  | JNull => false
  | JBool b => b
  | JInt n => negb (Z.eqb n 0)
  | JFloat bits => negb (Z.eqb bits 0 || Z.eqb bits (2 ^ 63))
  | JStr s => negb (String.eqb s "")
  | JList l => match l with [] => false | _ => true end
  | JDict d => match d with [] => false | _ => true end
  end.

End Py.

Import Py.

(** ** [SettingsManager]: hook configuration format *)

Module HooksFormat.

Definition valid_hook_types : list string :=
  ["preToolUse"; "postToolUse"; "errorHandler"; "notification"; "stop"; "subagentStop"].

(** The inner loop of [_validate_hooks_config]: [for hook in hook_list].
    [true] stands for running off the end of the loop, [false] for one of
    its [return False]. *)
Fixpoint validate_hook_list (hook_list : list json) : bool :=
  match hook_list with
  | [] => true
  | hook :: rest =>
      match hook with
      | JDict h =>
          if negb (dict_has "matcher" h) || negb (dict_has "command" h) then false
          else
            match dict_get "matcher" h, dict_get "command" h with
            | Some m, Some c =>
                if negb (isinstance_str m) || negb (isinstance_str c) then false
                else validate_hook_list rest
            | _, _ => false
            end
      | _ => false
      end
  end.

(** [SettingsManager._validate_hooks_config]: the outer loop over
    [hooks_config.items()]. *)
Fixpoint _validate_hooks_config (hooks_config : dict) : bool :=
  match hooks_config with
  | [] => true
  | (hook_type, hook_list) :: rest =>
      if negb (str_in hook_type valid_hook_types) then false
      else
        match hook_list with
        | JList l =>
            if validate_hook_list l then _validate_hooks_config rest else false
        | _ => false
        end
  end.

(** The format as the specification words it. *)
Definition hook_entry_ok (e : json) : Prop :=
  exists h m c, e = JDict h /\
    dict_get "matcher" h = Some (JStr m) /\ dict_get "command" h = Some (JStr c).

Definition hooks_document_ok (doc : dict) : Prop :=
  forall k v, In (k, v) doc ->
    In k valid_hook_types /\ exists l, v = JList l /\ Forall hook_entry_ok l.

End HooksFormat.

(** ** [SettingsManager._deep_merge] on trees *)

Module DeepMerge.

(** [_deep_merge] read as a function on trees: [copy.deepcopy] is the
    identity there (the model on a heap of objects, where a copy differs
    from its original, follows below in [MergeHeap]).  The recursion is on
    the overlay: the loop [for key, value in overlay.items()] with [result]
    as its accumulator, and the recursive call on [value]. *)
Fixpoint merge_into (base : dict) (overlay : json) {struct overlay} : dict :=
  match overlay with
  | JDict items =>
      (fix loop (result : dict) (items : list (string * json)) {struct items} : dict :=
         match items with
         | [] => result
         | (key, value) :: rest =>
             loop (dict_set key
                     match dict_get key result, value with
                     | Some (JDict rb), JDict _ => JDict (merge_into rb value)
                     | _, _ => value
                     end result) rest
         end) base items
  | _ => base
  end.

Definition _deep_merge (base overlay : dict) : dict := merge_into base (JDict overlay).

(** What one iteration stores under [key]: the recursive merge when both
    sides are dicts, the overlay value otherwise. *)
Definition merged_value (old : option json) (value : json) : json :=
  match old, value with
  | Some (JDict rb), JDict vo => JDict (_deep_merge rb vo)
  | _, _ => value
  end.

(** [value = value[key]] along a dotted path, as [get_setting] walks it. *)
Fixpoint get_path (path : list string) (v : json) : option json :=
  match path with
  | [] => Some v
  | key :: rest =>
      match v with
      | JDict d =>
          match dict_get key d with
          | Some x => get_path rest x
          | None => None
          end
      | _ => None
      end
  end.

(** A tree is a Python value when the keys of each of its dicts are
    pairwise distinct. *)
Fixpoint wf_json (v : json) : bool :=
  match v with
  | JList l => forallb wf_json l
  | JDict d =>
      bool_decide (NoDup (dict_keys d)) && forallb (fun kv => wf_json (snd kv)) d
  | _ => true
  end.

End DeepMerge.


(** ** Examples of a merge *)

Module MergeExamples.

(** Installed settings, and an update that touches one nested object and
    adds a key. *)
Definition example_installed : list (string * json) :=
  [("theme", JStr "dark");
   ("hooks", JDict [("enabled", JBool true)])].

Definition example_update : list (string * json) :=
  [("hooks", JDict [("timeout", JInt 30)]);
   ("version", JStr "3.0.0")].

End MergeExamples.

(** ** [SettingsManager._deep_merge] on a heap of objects

    Dicts and lists are objects with an identity; a value refers to them by
    location.  [copy.deepcopy] allocates new objects and [result[key] = x]
    updates an object in place, so that aliasing and mutation can be told
    apart from copying. *)

Module MergeHeap.

Definition loc : Type := positive.

Inductive pyval : Type :=
| VNone
| VBool (b : bool)
| VInt (n : Z)
| VFloat (bits : Z)
| VStr (s : string)
| VRef (l : loc).

Inductive pyobj : Type :=
| ODict (items : list (string * pyval))
| OList (elems : list pyval).

Abbreviation heap := (gmap loc pyobj).

(** Computations on the heap.  [None] stands for a run that is out of fuel
    or that meets an object of the wrong type (a dangling reference, a
    subscript store into something that is no dict). *)
Definition new_object (o : pyobj) (h : heap) : loc * heap :=
  let l := fresh (dom h) in (l, <[l := o]> h).

(** [y[k] = v] *)
Definition store_item (y : loc) (k : string) (v : pyval) (h : heap) : option heap :=
  match h !! y with
  | Some (ODict items) => Some (<[y := ODict (dict_set k v items)]> h)
  | _ => None
  end.

(** [y.append(v)] *)
Definition list_append (y : loc) (v : pyval) (h : heap) : option heap :=
  match h !! y with
  | Some (OList elems) => Some (<[y := OList (elems ++ [v])]> h)
  | _ => None
  end.

(** [for x in xs: body] *)
Fixpoint for_each {A} (body : A -> heap -> option heap) (xs : list A) (h : heap)
  : option heap :=
  match xs with
  | [] => Some h
  | x :: rest =>
      match body x h with
      | Some h' => for_each body rest h'
      | None => None
      end
  end.

(** [isinstance(v, dict)] *)
Definition is_dict (h : heap) (v : pyval) : bool :=
  match v with
  | VRef l => match h !! l with Some (ODict _) => true | _ => false end
  | _ => false
  end.

(** The body of the loop over the items of a dict that is copied:
    [y[key] = deepcopy(value)]. *)
Definition copy_item (copy : pyval -> heap -> option (pyval * heap)) (y : loc)
  : string * pyval -> heap -> option heap :=
  fun '(key, value) h =>
    '(c, h') ← copy value h;
    store_item y key c h'.

(** The body of the loop over the elements of a list that is copied:
    [y.append(deepcopy(a))]. *)
Definition copy_elem (copy : pyval -> heap -> option (pyval * heap)) (y : loc)
  : pyval -> heap -> option heap :=
  fun a h =>
    '(c, h') ← copy a h;
    list_append y c h'.

(** [copy.deepcopy(v)] on tree-shaped data: an immutable value is returned
    as it is; for a dict, [y = {}] and then [y[key] = deepcopy(value)] for
    each item; for a list, [y = []] and then [y.append(deepcopy(a))].  (The
    memo table of the library function only plays a part for an object that
    is reached along two paths, which [json.load] never builds.) *)
Fixpoint deepcopy (fuel : nat) (v : pyval) (h : heap) : option (pyval * heap) :=
  match v with
  | VRef l =>
      match fuel with
      | O => None
      | S fuel' =>
          match h !! l with
          | Some (ODict items) =>
              let '(y, h0) := new_object (ODict []) h in
              h' ← for_each (copy_item (deepcopy fuel') y) items h0;
              Some (VRef y, h')
          | Some (OList elems) =>
              let '(y, h0) := new_object (OList []) h in
              h' ← for_each (copy_elem (deepcopy fuel') y) elems h0;
              Some (VRef y, h')
          | None => None
          end
      end
  | _ => Some (v, h)
  end.

(** The body of the loop of [_deep_merge], [for key, value in
    overlay.items()], with [r] the location of [result]. *)
Definition merge_item (merge : pyval -> pyval -> heap -> option (pyval * heap))
  (copy : pyval -> heap -> option (pyval * heap)) (r : loc)
  : string * pyval -> heap -> option heap :=
  fun '(key, value) h =>
    match h !! r with
    | Some (ODict ritems) =>
        '(nv, h') ←
          match dict_get key ritems with
          | Some old =>
              if is_dict h old && is_dict h value
              then merge old value h
              else copy value h
          | None => copy value h
          end;
        store_item r key nv h'
    | _ => None
    end.

(** [SettingsManager._deep_merge(base, overlay)].  The items of [overlay]
    are read when the loop starts: the loop stores into [result] and into
    objects allocated after it only, never into [overlay]. *)
Fixpoint _deep_merge (fuel : nat) (base overlay : pyval) (h : heap)
  : option (pyval * heap) :=
  match fuel with
  | O => None
  | S fuel' =>
      '(result, h1) ← deepcopy fuel' base h;
      match result, overlay with
      | VRef r, VRef o =>
          match h1 !! o with
          | Some (ODict oitems) =>
              h2 ← for_each (merge_item (_deep_merge fuel') (deepcopy fuel') r) oitems h1;
              Some (VRef r, h2)
          | _ => None
          end
      | _, _ => None
      end
  end.

(** *** What a value stands for *)

(** [represents h D t v]: in the heap [h], the value [v] is the tree [t],
    and every object the tree is made of lies in [D]. *)
Unset Elimination Schemes.
Inductive represents (h : heap) (D : loc -> Prop) : json -> pyval -> Prop :=
| rep_null : represents h D JNull VNone
| rep_bool b : represents h D (JBool b) (VBool b)
| rep_int n : represents h D (JInt n) (VInt n)
| rep_float x : represents h D (JFloat x) (VFloat x)
| rep_str s : represents h D (JStr s) (VStr s)
| rep_list l ts vs :
    D l -> h !! l = Some (OList vs) ->
    Forall2 (represents h D) ts vs ->
    represents h D (JList ts) (VRef l)
| rep_dict l kts kvs :
    D l -> h !! l = Some (ODict kvs) ->
    Forall2 (fun kt kv => fst kt = fst kv /\ represents h D (snd kt) (snd kv)) kts kvs ->
    represents h D (JDict kts) (VRef l).
Set Elimination Schemes.

Definition anywhere : loc -> Prop := fun _ => True.

(** The objects that did not exist in [h] and exist in [h']. *)
Definition allocated_since (h h' : heap) : loc -> Prop :=
  fun l => h !! l = None /\ is_Some (h' !! l).

(** [reaches h v l]: the object at [l] is [v] itself or is found by
    following references from [v]. *)
Inductive reaches (h : heap) : pyval -> loc -> Prop :=
| reaches_here l : reaches h (VRef l) l
| reaches_item l kvs k v l' :
    h !! l = Some (ODict kvs) -> In (k, v) kvs -> reaches h v l' ->
    reaches h (VRef l) l'
| reaches_elem l vs v l' :
    h !! l = Some (OList vs) -> In v vs -> reaches h v l' ->
    reaches h (VRef l) l'.

(** Nesting depth of containers: the fuel a copy needs. *)
Fixpoint depth (t : json) : nat :=
  match t with
  | JList l => S (fold_right (fun x m => Nat.max (depth x) m) O l)
  | JDict d => S (fold_right (fun kv m => Nat.max (depth (snd kv)) m) O d)
  | _ => O
  end.

(** A small heap for the examples: [base = {"a": {"x": 1, "y": [2]}, "b": 3}] at
    location 1 and [overlay = {"a": {"x": 10, "z": {}}, "c": [4]}] at location 4. *)
Definition example_heap : heap :=
  list_to_map
    [(1%positive, ODict [("a", VRef 2%positive); ("b", VInt 3)]);
     (2%positive, ODict [("x", VInt 1); ("y", VRef 3%positive)]);
     (3%positive, OList [VInt 2]);
     (4%positive, ODict [("a", VRef 5%positive); ("c", VRef 7%positive)]);
     (5%positive, ODict [("x", VInt 10); ("z", VRef 6%positive)]);
     (6%positive, ODict []);
     (7%positive, OList [VInt 4])].

Definition example_base : dict :=
  [("a", JDict [("x", JInt 1); ("y", JList [JInt 2])]); ("b", JInt 3)].
Definition example_overlay : dict :=
  [("a", JDict [("x", JInt 10); ("z", JDict [])]); ("c", JList [JInt 4])].

(** *** The invariants of the loops *)

(** Items related key by key. *)
Definition items_rel (P : json -> pyval -> Prop)
  (kt : string * json) (kv : string * pyval) : Prop :=
  fst kt = fst kv /\ P (snd kt) (snd kv).

Local Open Scope nat_scope.

(** The objects allocated since [h], the container [r] itself apart. *)
Definition inside (h : heap) (r : loc) (hi : heap) : loc -> Prop :=
  fun l => h !! l = None /\ l <> r /\ is_Some (hi !! l).

(** The invariant of a loop that fills the dict at [r], new since [h]: no
    object of [h] has changed, and the items stored so far are the tree
    items [acc], made of new objects other than [r]. *)
Definition filling_dict (h : heap) (r : loc) (hi : heap) (acc : dict) : Prop :=
  h ⊆ hi /\ h !! r = None /\
  exists ritems, hi !! r = Some (ODict ritems) /\
    Forall2 (items_rel (represents hi (inside h r hi))) acc ritems.

Definition filling_list (h : heap) (r : loc) (hi : heap) (acc : list json) : Prop :=
  h ⊆ hi /\ h !! r = None /\
  exists elems, hi !! r = Some (OList elems) /\
    Forall2 (represents hi (inside h r hi)) acc elems.

(** What [deepcopy] does to a value that stands for the tree [t]: with fuel
    for the depth of [t] it returns a value that stands for [t] and is made
    of new objects; a dict that it returns is one that was filled. *)
Definition copy_ok (t : json) : Prop :=
  forall v h fuel,
    DeepMerge.wf_json t = true -> represents h anywhere t v -> depth t <= fuel ->
    exists v' h', deepcopy fuel v h = Some (v', h') /\ h ⊆ h' /\
      represents h' (allocated_since h h') t v' /\
      (forall kts, t = JDict kts -> exists y, v' = VRef y /\ filling_dict h y h' kts).

(** What [_deep_merge] does to two values that stand for the dicts [base]
    and [overlay]: with fuel for their depths it returns a new dict, filled
    with the items of the merge on trees. *)
Definition merge_ok (overlay : json) : Prop :=
  forall base b o h fuel,
    DeepMerge.wf_json (JDict base) = true -> DeepMerge.wf_json overlay = true ->
    represents h anywhere (JDict base) b -> represents h anywhere overlay o ->
    isinstance_dict overlay = true ->
    Nat.max (depth (JDict base)) (depth overlay) < fuel ->
    exists r h', _deep_merge fuel b o h = Some (VRef r, h') /\
      filling_dict h r h' (DeepMerge.merge_into base overlay).

End MergeHeap.

(** ** [SettingsManager.validate_hooks_paths] *)

Module HooksPaths.

(** *** [str.split()] *)

Definition byte_of (c : ascii) : nat := nat_of_ascii c.

(** The number of bytes of the whitespace character at the head of [s], 0
    when [s] does not start with one.  Whitespace is what [str.isspace]
    accepts: the ASCII characters 9 to 13 and 28 to 32, and U+0085, U+00A0,
    U+1680, U+2000 to U+200A, U+2028, U+2029, U+202F, U+205F and U+3000 in
    their UTF-8 encoding. *)
Definition space_length (s : string) : nat :=
  match s with
  | EmptyString => 0
  | String c r =>
      let b := byte_of c in
      if ((9 <=? b) && (b <=? 13) || (28 <=? b) && (b <=? 32))%nat then 1
      else
        match r with
        | EmptyString => 0
        | String c1 r1 =>
            let b1 := byte_of c1 in
            if ((b =? 194) && ((b1 =? 133) || (b1 =? 160)))%nat then 2
            else
              match r1 with
              | EmptyString => 0
              | String c2 _ =>
                  let b2 := byte_of c2 in
                  if ((b =? 225) && (b1 =? 154) && (b2 =? 128)
                      || (b =? 226) && (b1 =? 128)
                         && ((128 <=? b2) && (b2 <=? 138) || (b2 =? 168) || (b2 =? 169)
                             || (b2 =? 175))
                      || (b =? 226) && (b1 =? 129) && (b2 =? 159)
                      || (b =? 227) && (b1 =? 128) && (b2 =? 128))%nat
                  then 3 else 0
              end
        end
  end.

(** The token read so far, when there is one. *)
Definition flush (cur : string) : list string :=
  match cur with EmptyString => [] | _ => [cur] end.

(** [split_from skip cur s]: the tokens of [s], where [skip] bytes of a
    whitespace character are still to be passed and [cur] is the token
    being read. *)
Fixpoint split_from (skip : nat) (cur : string) (s : string) : list string :=
  match s with
  | EmptyString => flush cur
  | String c r =>
      match skip with
      | S k => split_from k cur r
      | O =>
          match space_length s with
          | O => split_from O (cur +:+ String c EmptyString) r
          | S k => (flush cur ++ split_from k EmptyString r)%list
          end
      end
  end.

(** [s.split()] *)
Definition split (s : string) : list string := split_from 0 EmptyString s.

(** *** The check *)

(** What [pathlib] answers for the path made of a token: its text
    [str(Path(token))], and what [Path.exists()] and [Path.is_file()] do.
    Both call [os.stat]; they return [False] on an [OSError] of absence
    ([ENOENT], [ENOTDIR], [EBADF], [ELOOP]) and on the [ValueError] of a
    null byte, and they raise every other [OSError] again (a name that is
    too long, a directory on the way that cannot be searched): [None]
    stands for that. *)
Record pathlib : Type := {
  path_text : string -> string;
  path_exists : string -> option bool;
  path_is_file : string -> option bool
}.

(** The call of one of the two methods. *)
Definition stat_answer (answer : option bool) : result bool :=
  match answer with
  | Some b => Ok b
  | None => Raise OSError
  end.

(** The part of the body of the inner loop that comes after [command] is
    known to be true: the errors it appends.  [command.split()] needs a
    string, and [command_parts[0]] an element. *)
Definition check_command (fs : pathlib) (command : json) : result (list string) :=
  match command with
  | JStr s =>
      let command_parts := split s in
      script_path ←
        match command_parts with
        | interpreter :: script :: _ =>
            if str_in interpreter ["python3"; "python"; "node"] then Ok script
            else Ok interpreter
        | [first] => Ok first
        | [] => Raise IndexError
        end;
      found ← stat_answer (path_exists fs script_path);
      if negb (found : bool) then
        Ok ["Hook script not found: " +:+ path_text fs script_path]
      else
        is_file ← stat_answer (path_is_file fs script_path);
        if negb (is_file : bool) then
          Ok ["Hook path is not a file: " +:+ path_text fs script_path]
        else Ok []
  | _ => Raise AttributeError
  end.

(** The body of [for i, hook in enumerate(hook_list)]. *)
Definition check_hook (fs : pathlib) (hook_type : string) (i : nat) (hook : json)
  : result (list string) :=
  match hook with
  | JDict h =>
      let command := match dict_get "command" h with Some c => c | None => JStr "" end in
      if negb (py_truthy command) then
        Ok ["Hook " +:+ hook_type +:+ "[" +:+ pretty i +:+ "] missing command"]
      else check_command fs command
  | _ => Ok ["Hook " +:+ hook_type +:+ "[" +:+ pretty i +:+ "] should be a dict"]
  end.

Fixpoint check_hook_list (fs : pathlib) (hook_type : string) (i : nat)
  (hook_list : list json) (errors : list string) : result (list string) :=
  match hook_list with
  | [] => Ok errors
  | hook :: rest =>
      found ← check_hook fs hook_type i hook;
      check_hook_list fs hook_type (S i) rest (errors ++ found)
  end.

(** The body of [for hook_type, hook_list in hooks_config.items()]. *)
Fixpoint check_hook_types (fs : pathlib) (items : list (string * json))
  (errors : list string) : result (list string) :=
  match items with
  | [] => Ok errors
  | (hook_type, hook_list) :: rest =>
      match hook_list with
      | JList l =>
          errors' ← check_hook_list fs hook_type 0 l errors;
          check_hook_types fs rest errors'
      | _ =>
          check_hook_types fs rest
            (errors ++ ["Hook type '" +:+ hook_type +:+ "' should be a list"])
      end
  end.

(** [SettingsManager.validate_hooks_paths], on the value [hooks_config]
    that [self.get_hooks_config()] returned. *)
Definition validate_hooks_paths (fs : pathlib) (hooks_config : json)
  : result (bool * list string) :=
  if negb (py_truthy hooks_config) then Ok (true, [])
  else
    match hooks_config with
    | JDict items =>
        errors ← check_hook_types fs items [];
        Ok (match errors with [] => true | _ => false end, errors)
    | _ => Raise AttributeError
    end.

(** *** A command of whitespace only, and commands with a token *)

(** The token that names the script: the second one after an interpreter
    name, the first one otherwise. *)
Definition script_token (command_parts : list string) : string :=
  match command_parts with
  | interpreter :: script :: _ =>
      if str_in interpreter ["python3"; "python"; "node"] then script else interpreter
  | [first] => first
  | [] => EmptyString
  end.

(** A hooks configuration in the valid format whose only command is three
    spaces. *)
Definition blank_command_config : dict :=
  [("preToolUse", JList [JDict [("matcher", JStr ".*"); ("command", JStr "   ")]])].

(** The file system answers for the script [script]: [exists()] returns,
    and [is_file()] returns where it is called. *)
Definition examinable (fs : pathlib) (script : string) : Prop :=
  path_exists fs script = Some false \/
  (path_exists fs script = Some true /\ path_is_file fs script <> None).

(** The entries on which the check of one hook does not raise: no command,
    a command that is false in a condition, or a string with a token whose
    script the file system answers for. *)
Definition command_has_token (fs : pathlib) (hook : json) : Prop :=
  match hook with
  | JDict h =>
      match dict_get "command" h with
      | Some (JStr s) =>
          s = EmptyString \/ (split s <> [] /\ examinable fs (script_token (split s)))
      | Some v => py_truthy v = false
      | None => True
      end
  | _ => True
  end.

(** The errors of a script path, as the specification words them: a path
    that does not exist, or that is no file, is reported as one error
    string. *)
Definition script_errors (fs : pathlib) (script : string) : list string :=
  match path_exists fs script with
  | Some true =>
      match path_is_file fs script with
      | Some false => ["Hook path is not a file: " +:+ path_text fs script]
      | _ => []
      end
  | _ => ["Hook script not found: " +:+ path_text fs script]
  end.

(** The errors of the entry at index [i] of the list of [hook_type]. *)
Definition hook_errors (fs : pathlib) (hook_type : string) (i : nat) (hook : json)
  : list string :=
  match hook with
  | JDict h =>
      match dict_get "command" h with
      | Some (JStr s) =>
          if String.eqb s ""
          then ["Hook " +:+ hook_type +:+ "[" +:+ pretty i +:+ "] missing command"]
          else script_errors fs (script_token (split s))
      | _ => ["Hook " +:+ hook_type +:+ "[" +:+ pretty i +:+ "] missing command"]
      end
  | _ => ["Hook " +:+ hook_type +:+ "[" +:+ pretty i +:+ "] should be a dict"]
  end.

Fixpoint hook_list_errors (fs : pathlib) (hook_type : string) (i : nat)
  (hook_list : list json) : list string :=
  match hook_list with
  | [] => []
  | hook :: rest =>
      (hook_errors fs hook_type i hook ++ hook_list_errors fs hook_type (S i) rest)%list
  end.

(** The errors of a configuration: those of each hook type in the order of
    the configuration, and under a hook type those of each entry in the
    order of the list. *)
Definition config_errors (fs : pathlib) (items : list (string * json)) : list string :=
  flat_map (fun '(hook_type, hook_list) =>
              match hook_list with
              | JList l => hook_list_errors fs hook_type 0 l
              | _ => ["Hook type '" +:+ hook_type +:+ "' should be a list"]
              end) items.

(** A file system that holds one script. *)
Definition example_pathlib : pathlib :=
  {| path_text := fun s => s;
     path_exists := fun s => Some (String.eqb s "/opt/hooks/present.py");
     path_is_file := fun _ => Some true |}.

(** A file system in which [/root] cannot be searched: [os.stat] of a path
    under it fails with [EACCES]; and a configuration in the valid format
    whose script is there. *)
Definition example_locked_pathlib : pathlib :=
  {| path_text := fun s => s;
     path_exists := fun s => if String.prefix "/root/" s then None else Some false;
     path_is_file := fun s => if String.prefix "/root/" s then None else Some false |}.

Definition locked_script_config : dict :=
  [("preToolUse",
    JList [JDict [("matcher", JStr ".*"); ("command", JStr "python3 /root/hooks/check.py")]])].

End HooksPaths.

(** ** [SettingsManager]: backups of [settings.json] *)

Module Backups.

(** *** Files *)

(** A regular file: its bytes and its modification time. *)
Record file : Type := { content : string; mtime : Z }.

(** An entry of the backup directory: a file, or a directory. *)
Inductive entry : Type :=
| EFile (f : file)
| EDir (dir_mtime : Z).

(** The files the manager works on: [settings.json], when it exists, and
    the entries of [backups/settings/] by name (no entry when the
    directory does not exist).  A backup name is the name of an entry. *)
Record disk : Type := {
  settings_file : option file;
  backup_dir : gmap string entry
}.

(** *** What the file system refuses *)

(** How the write of a file ends.  [MkdirFails]: the directory of the
    file cannot be made.  [OpenFails]: the file cannot be opened for
    writing, and stays as it was.  [WriteFails remains]: the file was opened,
    which empties it, and a write or the close failed; [remains] is what the
    file then is.  Each of the three is an [OSError] of the operation. *)
Inductive write_fault : Type :=
| NoFault
| MkdirFails
| OpenFails
| WriteFails (remains : file).

(** What the file system refuses during one call of a method, among the
    operations that change it; the tests and the reads of the call are
    answered by the [disk]. *)
Record faults : Type := {
  unlink_fails : string -> bool;   (* file.unlink() raises OSError on the backup
                                      of this name: an immutable file, a
                                      directory that cannot be written *)
  backup_fails : bool;             (* backup_dir.mkdir or shutil.copy2 raises
                                      OSError, and the directory keeps its
                                      entries *)
  settings_write : write_fault;    (* the write of settings.json *)
  metadata_write : write_fault     (* the write of .superclaude-metadata.json *)
}.

(** A file system that refuses nothing. *)
Definition no_faults : faults :=
  {| unlink_fails := fun _ => false; backup_fails := false;
     settings_write := NoFault; metadata_write := NoFault |}.

(** *** Reading text *)

Definition in_range (lo hi b : nat) : bool := ((lo <=? b) && (b <=? hi))%nat.

(** The ranges of the bytes that must follow the lead byte [b] of a
    well-formed UTF-8 sequence; [None] when [b] cannot lead one. *)
Definition continuation_ranges (b : nat) : option (list (nat * nat)) :=
  if in_range 0 127 b then Some []
  else if in_range 194 223 b then Some [(128, 191)%nat]
  else if (b =? 224)%nat then Some [(160, 191); (128, 191)]%nat
  else if in_range 225 236 b then Some [(128, 191); (128, 191)]%nat
  else if (b =? 237)%nat then Some [(128, 159); (128, 191)]%nat
  else if in_range 238 239 b then Some [(128, 191); (128, 191)]%nat
  else if (b =? 240)%nat then Some [(144, 191); (128, 191); (128, 191)]%nat
  else if in_range 241 243 b then Some [(128, 191); (128, 191); (128, 191)]%nat
  else if (b =? 244)%nat then Some [(128, 143); (128, 191); (128, 191)]%nat
  else None.

(** The bytes [s] continue and end a text, [pending] being the ranges of
    the bytes still owed to the sequence under way. *)
Fixpoint utf8_from (pending : list (nat * nat)) (s : string) : bool :=
  match s with
  | EmptyString => match pending with [] => true | _ => false end
  | String c r =>
      let b := nat_of_ascii c in
      match pending with
      | (lo, hi) :: rest => in_range lo hi b && utf8_from rest r
      | [] =>
          match continuation_ranges b with
          | Some ranges => utf8_from ranges r
          | None => false
          end
      end
  end.

(** The strict UTF-8 decoder accepts [s]. *)
Definition utf8_valid (s : string) : bool := utf8_from [] s.

(** [f.read()] on a file opened with [encoding='utf-8'].  (The text keeps
    the bytes; the translation of line ends is left out, it turns
    whitespace into whitespace.) *)
Definition read_text (f : file) : result string :=
  if utf8_valid (content f) then Ok (content f) else Raise UnicodeDecodeError.

(** *** Retention *)

Definition ends_with (suffix s : string) : bool :=
  let n := String.length s in
  let k := String.length suffix in
  (k <=? n)%nat && String.eqb (String.substring (n - k) k s) suffix.

(** [glob("settings_*.json")] on a name. *)
Definition is_backup_name (name : string) : bool :=
  String.prefix "settings_" name && ends_with ".json" name
  && (14 <=? String.length name)%nat.

Definition entry_mtime (e : entry) : Z :=
  match e with EFile f => mtime f | EDir m => m end.

(** The order of [backup_files.sort(reverse=True)] on pairs of a
    modification time and a path: [a] comes before [b]. *)
Definition newer (a b : Z * string) : bool :=
  (fst b <? fst a)%Z || ((fst a =? fst b)%Z && String.ltb (snd b) (snd a)).

Fixpoint insert_sorted (a : Z * string) (l : list (Z * string)) : list (Z * string) :=
  match l with
  | [] => [a]
  | b :: r => if newer a b then a :: b :: r else b :: insert_sorted a r
  end.

Definition sort_newest_first (l : list (Z * string)) : list (Z * string) :=
  fold_right insert_sorted [] l.

(** [file.unlink()] inside [try ... except OSError: pass]: a file is
    removed unless the file system refuses, a directory stays; the
    [OSError] of either is passed over. *)
Definition unlink_quietly (io : faults) (name : string) (dir : gmap string entry)
  : gmap string entry :=
  match dir !! name with
  | Some (EFile _) => if unlink_fails io name then dir else delete name dir
  | _ => dir
  end.

(** [SettingsManager._cleanup_old_backups] *)
Definition _cleanup_old_backups (io : faults) (keep_count : nat) (d : disk) : disk :=
  let backup_files :=
    omap (fun '(name, e) =>
            if is_backup_name name then Some (entry_mtime e, name) else None)
         (map_to_list (backup_dir d)) in
  let old := drop keep_count (sort_newest_first backup_files) in
  {| settings_file := settings_file d;
     backup_dir := fold_left (fun dir '(_, name) => unlink_quietly io name dir) old
                     (backup_dir d) |}.

(** [shutil.copy2(src, backup_dir / name)]: the copy keeps the modification
    time; onto a directory, the file goes inside it, and the entries of the
    backup directory stay as they are. *)
Definition copy_to_backup (src : file) (name : string) (dir : gmap string entry)
  : gmap string entry :=
  match dir !! name with
  | Some (EDir _) => dir
  | _ => <[name := EFile src]> dir
  end.

Definition backup_name_at (stamp : string) : string := "settings_" +:+ stamp +:+ ".json".

(** The copy that [_create_settings_backup] makes of the settings file [s]. *)
Definition copy_settings (stamp : string) (s : file) (d : disk) : disk :=
  {| settings_file := settings_file d;
     backup_dir := copy_to_backup s (backup_name_at stamp) (backup_dir d) |}.

(** [SettingsManager._create_settings_backup]; [stamp] is
    [datetime.now().strftime("%Y%m%d_%H%M%S")].  Nothing guards
    [backup_dir.mkdir] and [shutil.copy2]: their [OSError] leaves the
    method. *)
Definition _create_settings_backup (io : faults) (stamp : string) (d : disk)
  : result string * disk :=
  match settings_file d with
  | None => (Raise ValueError, d)
  | Some s =>
      if backup_fails io then (Raise OSError, d)
      else (Ok (backup_name_at stamp), _cleanup_old_backups io 10 (copy_settings stamp s d))
  end.

(** *** [SettingsManager.restore_backup] *)

Section Restore.

(** [json.loads], the parser of the standard library: [None] when it raises
    [JSONDecodeError]. *)
Variable json_loads : string -> option json.

(** What the file system refuses during the call. *)
Variable io : faults.

(** [except (json.JSONDecodeError, IOError)] *)
Definition caught_by_restore (e : exn) : bool :=
  match e with JSONDecodeError | OSError => true | _ => false end.

(** [shutil.copy2(backup_file, self.settings_file)] of the backup [g]:
    the settings file becomes the backup, with its modification time,
    unless the file system refuses the write ([copy2] makes no
    directory). *)
Definition copy_over_settings (g : file) (d1 : disk) : result bool * disk :=
  match settings_write io with
  | NoFault | MkdirFails =>
      (Ok true, {| settings_file := Some g; backup_dir := backup_dir d1 |})
  | OpenFails => (Raise OSError, d1)
  | WriteFails remains =>
      (Raise OSError, {| settings_file := Some remains; backup_dir := backup_dir d1 |})
  end.

(** The [try] block of [restore_backup]; [e] is the entry that
    [backup_file] names. *)
Definition restore_try (stamp backup_name : string) (e : entry) (d : disk)
  : result bool * disk :=
  match e with
  | EDir _ => (Raise OSError, d)
  | EFile f =>
      match read_text f with
      | Raise x => (Raise x, d)
      | Ok text =>
          match json_loads text with
          | None => (Raise JSONDecodeError, d)
          | Some _ =>
              let '(r, d1) :=
                match settings_file d with
                | Some _ => _create_settings_backup io stamp d
                | None => (Ok EmptyString, d)
                end in
              match r with
              | Raise x => (Raise x, d1)
              | Ok _ =>
                  match backup_dir d1 !! backup_name with
                  | Some (EFile g) => copy_over_settings g d1
                  | _ => (Raise OSError, d1)
                  end
              end
          end
      end
  end.

Definition restore_backup (stamp backup_name : string) (d : disk) : result bool * disk :=
  match backup_dir d !! backup_name with
  | None => (Ok false, d)
  | Some e =>
      match restore_try stamp backup_name e d with
      | (Raise x, d') => if caught_by_restore x then (Ok false, d') else (Raise x, d')
      | r => r
      end
  end.

End Restore.

Definition corrupted_backup_name : string := "settings_20250101_000000.json".

(** A disk whose only backup holds the single byte 255, which no UTF-8
    text contains. *)
Definition corrupted_disk : disk :=
  {| settings_file := Some {| content := "{}"; mtime := 200 |};
     backup_dir :=
       {[ corrupted_backup_name :=
            EFile {| content := String (ascii_of_nat 255) EmptyString; mtime := 100 |} ]} |}.

End Backups.


(** ** [SettingsManager]: the backups that a cleanup keeps *)

Module Retention.
Import Backups.

Definition is_file (e : entry) : bool :=
  match e with EFile _ => true | EDir _ => false end.

(** The list [backup_files] of [_cleanup_old_backups]: the modification
    time and the name of every entry that the glob matches. *)
Definition backup_files (dir : gmap string entry) : list (Z * string) :=
  omap (fun '(name, e) => if is_backup_name name then Some (entry_mtime e, name) else None)
       (map_to_list dir).

(** The names of the backup files of a directory: the regular files that
    the glob matches. *)
Definition backup_file_names (dir : gmap string entry) : list string :=
  omap (fun '(name, e) => if is_backup_name name && is_file e then Some name else None)
       (map_to_list dir).

(** *** An example: a full backup directory *)

Definition backup_at (day : string) (time : Z) : string * entry :=
  ("settings_202501" +:+ day +:+ "_000000.json",
   EFile {| content := "{}"; mtime := time |}).

(** Ten backups, one for each of the first ten days of a month, and a
    settings file that is newer than all of them. *)
Definition example_full_disk : disk :=
  {| settings_file := Some {| content := "{}"; mtime := 200 |};
     backup_dir :=
       list_to_map
         [backup_at "01" 101; backup_at "02" 102; backup_at "03" 103; backup_at "04" 104;
          backup_at "05" 105; backup_at "06" 106; backup_at "07" 107; backup_at "08" 108;
          backup_at "09" 109; backup_at "10" 110] |}.

End Retention.

(** ** [SettingsManager]: reading and updating [settings.json] *)

Module Settings.
Import Backups.

(** *** Key paths and dict updates *)

(** [key_path.split('.')]: the parts between the dots; there is always at
    least one part, and a part can be empty.  (A byte [.] of the UTF-8
    text is a character [.]: no multi-byte sequence holds it.) *)
Fixpoint split_dot (s : string) : list string :=
  match s with
  | EmptyString => [EmptyString]
  | String c r =>
      if Ascii.eqb c "." then EmptyString :: split_dot r
      else match split_dot r with
           | part :: rest => String c part :: rest
           | [] => [String c EmptyString]
           end
  end.

(** [del d[k]] on the items of a dict. *)
Fixpoint dict_del {V} (k : string) (d : list (string * V)) : list (string * V) :=
  match d with
  | [] => []
  | (k', v) :: r => if String.eqb k k' then r else (k', v) :: dict_del k r
  end.

(** [container[k] = v], for a string [k]: only a dict takes it. *)
Definition py_setitem (container : json) (k : string) (v : json) : result json :=
  match container with
  | JDict d => Ok (JDict (dict_set k v d))
  | _ => Raise TypeError
  end.

(** [del container[k]], for a string [k]. *)
Definition py_delitem (container : json) (k : string) : result json :=
  match container with
  | JDict d => if dict_has k d then Ok (JDict (dict_del k d)) else Raise KeyError
  | _ => Raise TypeError
  end.

(** [container.append(x)]: only a list has the method. *)
Definition py_append (container : json) (x : json) : result json :=
  match container with
  | JList l => Ok (JList (l ++ [x]))
  | _ => Raise AttributeError
  end.

(** [except (KeyError, TypeError)] *)
Definition caught_KeyError_TypeError (e : exn) : bool :=
  match e with KeyError | TypeError => true | _ => false end.

(** The loop [for key in keys: value = value[key]]. *)
Fixpoint walk (keys : list string) (value : json) : result json :=
  match keys with
  | [] => Ok value
  | key :: rest => v ← py_getitem value key; walk rest v
  end.

(** The [try] statement of [get_setting] and of [get_metadata_setting], on
    the value that was loaded. *)
Definition lookup (loaded : json) (key_path : string) (default : json) : result json :=
  match walk (split_dot key_path) loaded with
  | Ok v => Ok v
  | Raise e => if caught_KeyError_TypeError e then Ok default else Raise e
  end.

(** The dict that [set_setting] builds: one dict for each key but the last,
    each inside the one before, and [value] under the last key.
    ([keys[-1]] raises [IndexError] on an empty list.) *)
Fixpoint modification (keys : list string) (value : json) : result dict :=
  match keys with
  | [] => Raise IndexError
  | [last] => Ok [(last, value)]
  | key :: rest => inner ← modification rest value; Ok [(key, JDict inner)]
  end.

(** One iteration of the loop of [_deep_merge], on a [result] (here [res])
    that is any value: [key in result], [result[key]] and
    [result[key] = ...] raise [TypeError] where [result] is no dict. *)
Definition merge_iteration (res : json) (key : string) (value : json) : result json :=
  present ← py_contains key res;
  old ← (if (present : bool) then x ← py_getitem res key; Ok (Some x) else Ok None);
  py_setitem res key (DeepMerge.merged_value old value).

(** [_deep_merge(base, overlay)] for a [base] that [json.load] returned,
    which need not be a dict. *)
Definition deep_merge_value (base : json) (overlay : dict) : result json :=
  fold_left (fun acc kv => res ← acc; merge_iteration res (fst kv) (snd kv))
            overlay (Ok base).

(** The navigation and the deletion of [remove_setting]: [Some] of the
    settings after [del current[keys[-1]]], [None] where the method goes to
    [return False].  The deletion is in place: the dicts on the way keep
    their keys where they are. *)
Fixpoint delete_at (keys : list string) (current : json) : result (option json) :=
  match keys with
  | [] => Raise IndexError
  | [last] =>
      present ← py_contains last current;
      if (present : bool) then c ← py_delitem current last; Ok (Some c) else Ok None
  | key :: rest =>
      child ← py_getitem current key;
      r ← delete_at rest child;
      match r with
      | Some child' => c ← py_setitem current key child'; Ok (Some c)
      | None => Ok None
      end
  end.

(** *** What [json.dump] does to the order of keys *)

(** The items in the order of their keys, by insertion; the order of
    strings is that of their code points, which is that of their UTF-8
    bytes. *)
Fixpoint insert_item (kv : string * json) (items : list (string * json))
  : list (string * json) :=
  match items with
  | [] => [kv]
  | kv' :: rest =>
      if String.leb (fst kv) (fst kv') then kv :: kv' :: rest
      else kv' :: insert_item kv rest
  end.

(** The value that [json.load] reads from what [json.dump] wrote with
    [sort_keys=True]: the same tree with the items of each dict in the
    order of their keys. *)
Fixpoint sort_keys (v : json) : json :=
  match v with
  | JList l => JList (map sort_keys l)
  | JDict d =>
      JDict (fold_right (fun kv sorted => insert_item (fst kv, sort_keys (snd kv)) sorted)
                        [] d)
  | _ => v
  end.

(** *** What [json.dump] can write *)

(** Every string of the value, keys included, is text that UTF-8 can
    encode: it holds no lone surrogate.  [json.dump] with
    [ensure_ascii=False] hands the strings to the file as they are, and
    the file, opened with [encoding='utf-8'], raises [UnicodeEncodeError]
    on a surrogate. *)
Fixpoint encodable (v : json) : bool :=
  match v with
  | JStr s => utf8_valid s
  | JList l => forallb encodable l
  | JDict d => forallb (fun kv => utf8_valid (fst kv) && encodable (snd kv)) d
  | _ => true
  end.


(** *** The files *)

Section Files.

(** [json.loads]: [None] when it raises [JSONDecodeError]; the text that
    [json.dump(..., indent=2, ensure_ascii=False, sort_keys=True)] writes
    for a value that is [encodable]; and, for a value that is not, the
    text that has reached the file when the error is raised. *)
Variable json_loads : string -> option json.
Variable json_dumps : json -> string.
Variable partial_dump : json -> string.

(** [except (json.JSONDecodeError, IOError)] *)
Definition caught_by_load (e : exn) : bool :=
  match e with JSONDecodeError | OSError => true | _ => false end.

(** [SettingsManager.load_settings] *)
Definition load_settings (d : disk) : result json :=
  match settings_file d with
  | None => Ok (JDict [])
  | Some f =>
      let body : result json :=
        text ← read_text f;
        match json_loads text with
        | Some v => Ok v
        | None => Raise JSONDecodeError
        end in
      match body with
      | Raise e => if caught_by_load e then Raise ValueError else Raise e
      | Ok v => Ok v
      end
  end.

(** [SettingsManager.save_settings]; [io] is what the file system refuses
    during the call, and [now] the time of the write, which the file takes
    as its modification time.  After the backup come [parent.mkdir], whose
    [OSError] leaves the method, and then [open(..., 'w')] and [json.dump]
    inside [try ... except IOError], which turns the [OSError] of either
    into [ValueError].  The [UnicodeEncodeError] of [json.dump] is no
    [IOError]: it leaves the method, with the file cut short. *)
Definition save_settings (io : faults) (stamp : string) (now : Z) (settings : json)
  (create_backup : bool) (d : disk) : result unit * disk :=
  let '(r, d1) :=
    if create_backup && bool_decide (is_Some (settings_file d))
    then _create_settings_backup io stamp d
    else (Ok EmptyString, d) in
  let holds (f : file) := {| settings_file := Some f; backup_dir := backup_dir d1 |} in
  match r with
  | Raise e => (Raise e, d1)
  | Ok _ =>
      match settings_write io with
      | MkdirFails => (Raise OSError, d1)
      | OpenFails => (Raise ValueError, d1)
      | WriteFails remains => (Raise ValueError, holds remains)
      | NoFault =>
          if encodable settings
          then (Ok tt, holds {| content := json_dumps settings; mtime := now |})
          else (Raise UnicodeEncodeError,
                holds {| content := partial_dump settings; mtime := now |})
      end
  end.

(** [SettingsManager.load_metadata], on the bytes of
    [.superclaude-metadata.json] when the file exists. *)
Definition load_metadata (m : option string) : result json :=
  match m with
  | None => Ok (JDict [])
  | Some bytes =>
      let body : result json :=
        text ← (if utf8_valid bytes then Ok bytes else Raise UnicodeDecodeError);
        match json_loads text with
        | Some v => Ok v
        | None => Raise JSONDecodeError
        end in
      match body with
      | Raise e => if caught_by_load e then Raise ValueError else Raise e
      | Ok v => Ok v
      end
  end.

(** [SettingsManager.save_metadata], on the bytes [m] of the file before
    the write: the same statements as in [save_settings], with no
    backup. *)
Definition save_metadata (io : faults) (metadata : json) (m : option string)
  : result unit * option string :=
  match metadata_write io with
  | MkdirFails => (Raise OSError, m)
  | OpenFails => (Raise ValueError, m)
  | WriteFails remains => (Raise ValueError, Some (content remains))
  | NoFault =>
      if encodable metadata then (Ok tt, Some (json_dumps metadata))
      else (Raise UnicodeEncodeError, Some (partial_dump metadata))
  end.

(** [SettingsManager.merge_settings] *)
Definition merge_settings (modifications : dict) (d : disk) : result json :=
  existing ← load_settings d;
  deep_merge_value existing modifications.

(** [SettingsManager.update_settings] *)
Definition update_settings (io : faults) (stamp : string) (now : Z) (modifications : dict)
  (create_backup : bool) (d : disk) : result unit * disk :=
  match merge_settings modifications d with
  | Raise e => (Raise e, d)
  | Ok merged => save_settings io stamp now merged create_backup d
  end.

(** [SettingsManager.get_setting] *)
Definition get_setting (key_path : string) (default : json) (d : disk) : result json :=
  settings ← load_settings d;
  lookup settings key_path default.

(** [SettingsManager.set_setting] *)
Definition set_setting (io : faults) (stamp : string) (now : Z) (key_path : string)
  (value : json)
  (create_backup : bool) (d : disk) : result unit * disk :=
  match modification (split_dot key_path) value with
  | Raise e => (Raise e, d)
  | Ok m => update_settings io stamp now m create_backup d
  end.

(** [SettingsManager.remove_setting]; [save_settings] is called inside the
    [try] statement. *)
Definition remove_setting (io : faults) (stamp : string) (now : Z) (key_path : string)
  (create_backup : bool) (d : disk) : result bool * disk :=
  match load_settings d with
  | Raise e => (Raise e, d)
  | Ok settings =>
      match delete_at (split_dot key_path) settings with
      | Ok (Some settings') =>
          match save_settings io stamp now settings' create_backup d with
          | (Ok _, d') => (Ok true, d')
          | (Raise e, d') =>
              if caught_KeyError_TypeError e then (Ok false, d') else (Raise e, d')
          end
      | Ok None => (Ok false, d)
      | Raise e => if caught_KeyError_TypeError e then (Ok false, d) else (Raise e, d)
      end
  end.

(** [SettingsManager.get_metadata_setting] *)
Definition get_metadata_setting (key_path : string) (default : json) (m : option string)
  : result json :=
  metadata ← load_metadata m;
  lookup metadata key_path default.

(** *** Hooks *)

(** [SettingsManager.get_hooks_config] *)
Definition get_hooks_config (d : disk) : result json := get_setting "hooks" (JDict []) d.

(** [SettingsManager.is_hooks_enabled] *)
Definition is_hooks_enabled (d : disk) : result bool :=
  hooks_config ← get_hooks_config d;
  Ok (py_truthy hooks_config).


(** The settings of [add_hook] after the three statements that change them,
    before they are saved. *)
Definition with_hook (settings : json) (hook_type matcher command : string) : result json :=
  present ← py_contains "hooks" settings;
  settings ← (if (present : bool) then Ok settings
              else py_setitem settings "hooks" (JDict []));
  hooks ← py_getitem settings "hooks";
  present ← py_contains hook_type hooks;
  hooks ← (if (present : bool) then Ok hooks else py_setitem hooks hook_type (JList []));
  hook_list ← py_getitem hooks hook_type;
  hook_list ← py_append hook_list
                (JDict [("matcher", JStr matcher); ("command", JStr command)]);
  hooks ← py_setitem hooks hook_type hook_list;
  py_setitem settings "hooks" hooks.

(** [SettingsManager.add_hook] *)
Definition add_hook (io : faults) (stamp : string) (now : Z)
  (hook_type matcher command : string)
  (d : disk) : result unit * disk :=
  match (settings ← load_settings d; with_hook settings hook_type matcher command) with
  | Raise e => (Raise e, d)
  | Ok settings => save_settings io stamp now settings true d
  end.

(** The settings of [remove_hooks] after its [del], [None] where the method
    returns [False].  The argument [None] and the empty string are both
    false in [if hook_type:]. *)
Definition without_hooks (settings : json) (hook_type : option string)
  : result (option json) :=
  present ← py_contains "hooks" settings;
  if negb (present : bool) then Ok None else
  match hook_type with
  | Some t =>
      if negb (String.eqb t "") then
        hooks ← py_getitem settings "hooks";
        present ← py_contains t hooks;
        if (present : bool) then
          hooks ← py_delitem hooks t;
          settings ← py_setitem settings "hooks" hooks;
          Ok (Some settings)
        else Ok None
      else settings ← py_delitem settings "hooks"; Ok (Some settings)
  | None => settings ← py_delitem settings "hooks"; Ok (Some settings)
  end.

(** [SettingsManager.remove_hooks] *)
Definition remove_hooks (io : faults) (stamp : string) (now : Z)
  (hook_type : option string) (d : disk)
  : result bool * disk :=
  match (settings ← load_settings d; without_hooks settings hook_type) with
  | Raise e => (Raise e, d)
  | Ok None => (Ok false, d)
  | Ok (Some settings) =>
      match save_settings io stamp now settings true d with
      | (Ok _, d') => (Ok true, d')
      | (Raise e, d') => (Raise e, d')
      end
  end.

(** *** The component registry *)



(** The metadata of [remove_component_registration] after its [del],
    [None] where the method returns [False]. *)
Definition without_component (metadata : json) (component_name : string)
  : result (option json) :=
  present ← py_contains "components" metadata;
  if (present : bool) then
    components ← py_getitem metadata "components";
    present ← py_contains component_name components;
    if (present : bool) then
      components ← py_delitem components component_name;
      metadata ← py_setitem metadata "components" components;
      Ok (Some metadata)
    else Ok None
  else Ok None.

(** [SettingsManager.remove_component_registration] *)
Definition remove_component_registration (io : faults) (component_name : string)
  (m : option string) : result bool * option string :=
  match (metadata ← load_metadata m; without_component metadata component_name) with
  | Raise e => (Raise e, m)
  | Ok None => (Ok false, m)
  | Ok (Some metadata) =>
      match save_metadata io metadata m with
      | (Ok _, m') => (Ok true, m')
      | (Raise e, m') => (Raise e, m')
      end
  end.




(** The metadata of [update_framework_version] before they are saved. *)
Definition with_framework_version (metadata : json) (version now_iso : string)
  : result json :=
  present ← py_contains "framework" metadata;
  metadata ← (if (present : bool) then Ok metadata
              else py_setitem metadata "framework" (JDict []));
  framework ← py_getitem metadata "framework";
  framework ← py_setitem framework "version" (JStr version);
  metadata ← py_setitem metadata "framework" framework;
  framework ← py_getitem metadata "framework";
  framework ← py_setitem framework "updated_at" (JStr now_iso);
  py_setitem metadata "framework" framework.

(** [SettingsManager.update_framework_version] *)
Definition update_framework_version (io : faults) (now_iso : string) (version : string)
  (m : option string) : result unit * option string :=
  match (metadata ← load_metadata m; with_framework_version metadata version now_iso) with
  | Raise e => (Raise e, m)
  | Ok metadata => save_metadata io metadata m
  end.

(** [SettingsManager.get_framework_version] *)
Definition get_framework_version (m : option string) : result json :=
  metadata ← load_metadata m;
  framework ← py_get metadata "framework" (JDict []);
  py_get framework "version" JNull.

(** *** Migration *)

Definition superclaude_fields : list string := ["components"; "framework"; "superclaude"; "mcp"].

(** The loop [for field in superclaude_fields] with [data_to_migrate] as
    its accumulator; [fields_found] is true exactly when the accumulator
    has an item. *)
Fixpoint extract_fields (fields : list string) (settings : json) (data_to_migrate : dict)
  : result dict :=
  match fields with
  | [] => Ok data_to_migrate
  | field :: rest =>
      present ← py_contains field settings;
      if (present : bool) then
        v ← py_getitem settings field;
        extract_fields rest settings (dict_set field v data_to_migrate)
      else extract_fields rest settings data_to_migrate
  end.

(** [{k: v for k, v in settings.items() if k not in superclaude_fields}] *)
Definition clean_settings (settings : json) : result json :=
  match settings with
  | JDict items =>
      Ok (JDict (List.filter (fun kv => negb (str_in (fst kv) superclaude_fields)) items))
  | _ => Raise AttributeError
  end.

(** The two files of the installation directory with the backups. *)
Record install : Type := {
  settings_disk : disk;
  metadata_file : option string
}.

(** [SettingsManager.migrate_superclaude_data]: the metadata file is
    written before the settings file. *)
Definition migrate_superclaude_data (io : faults) (stamp : string) (now : Z) (i : install)
  : result bool * install :=
  match (settings ← load_settings (settings_disk i);
         data ← extract_fields superclaude_fields settings [];
         Ok (settings, data)) with
  | Raise e => (Raise e, i)
  | Ok (settings, []) => (Ok false, i)
  | Ok (settings, data_to_migrate) =>
      match (existing_metadata ← load_metadata (metadata_file i);
             deep_merge_value existing_metadata data_to_migrate) with
      | Raise e => (Raise e, i)
      | Ok merged_metadata =>
          let '(saved, m') := save_metadata io merged_metadata (metadata_file i) in
          let i1 := {| settings_disk := settings_disk i; metadata_file := m' |} in
          match saved with
          | Raise e => (Raise e, i1)
          | Ok _ =>
              match clean_settings settings with
              | Raise e => (Raise e, i1)
              | Ok clean =>
                  match save_settings io stamp now clean true (settings_disk i) with
                  | (Ok _, d') => (Ok true, {| settings_disk := d'; metadata_file := m' |})
                  | (Raise e, d') =>
                      (Raise e, {| settings_disk := d'; metadata_file := m' |})
                  end
              end
          end
      end
  end.

(** The parser reads back what the serializer wrote for [v]. *)
Definition reads_back (v : json) : Prop :=
  utf8_valid (json_dumps v) = true /\ json_loads (json_dumps v) = Some (sort_keys v).

End Files.

(** *** Words for the properties *)

(** One item of a hooks configuration is in the format of
    [_validate_hooks_config]. *)
Definition valid_item (kv : string * json) : bool :=
  str_in (fst kv) HooksFormat.valid_hook_types &&
  match snd kv with
  | JList l => HooksFormat.validate_hook_list l
  | _ => false
  end.

(** The hooks configuration of the settings: the dict under [hooks], and
    no hook where there is none. *)
Definition existing_hooks (settings : dict) : dict :=
  match dict_get "hooks" settings with
  | Some (JDict h) => h
  | _ => []
  end.

(** The registry of the metadata: the dict under [components]. *)
Definition existing_components (metadata : dict) : dict :=
  match dict_get "components" metadata with
  | Some (JDict c) => c
  | _ => []
  end.

(** The hooks of one type. *)
Definition existing_hook_list (hooks : dict) (hook_type : string) : list json :=
  match dict_get hook_type hooks with
  | Some (JList l) => l
  | _ => []
  end.

Definition absent_or_dict (v : option json) : bool :=
  match v with None | Some (JDict _) => true | Some _ => false end.

Definition absent_or_list (v : option json) : bool :=
  match v with None | Some (JList _) => true | Some _ => false end.

(** The entry that [add_hook] appends. *)
Definition hook_config (matcher command : string) : json :=
  JDict [("matcher", JStr matcher); ("command", JStr command)].

(** *** Examples *)

Definition example_settings : dict :=
  [("theme", JStr "dark");
   ("hooks",
    JDict [("preToolUse", JList [hook_config "^Read$" "python3 /opt/hooks/read.py"])]);
   ("components", JDict [("core", JDict [("version", JStr "3.0.0")])])].

(** A settings file with the settings of the example, and one that holds
    a JSON array. *)
Definition example_disk : disk :=
  {| settings_file := Some {| content := "example settings"; mtime := 100 |};
     backup_dir := ∅ |}.

Definition example_array_disk : disk :=
  {| settings_file := Some {| content := "example array"; mtime := 100 |};
     backup_dir := ∅ |}.

(** A serializer for the examples: compact JSON text with the items in
    the order of their keys, for strings that need no escape (a float is
    written as its bits). *)
Definition quote : string := String (ascii_of_nat 34) EmptyString.

Fixpoint example_print (v : json) : string :=
  match v with
  | JNull => "null"
  | JBool true => "true"
  | JBool false => "false"
  | JInt n => pretty n
  | JFloat bits => pretty bits
  | JStr s => quote +:+ s +:+ quote
  | JList l =>
      "[" +:+ (fix elements (l : list json) : string :=
                 match l with
                 | [] => "]"
                 | x :: r => example_print x +:+ "," +:+ elements r
                 end) l
  | JDict d =>
      "{" +:+ (fix items (d : list (string * json)) : string :=
                 match d with
                 | [] => "}"
                 | (k, x) :: r =>
                     quote +:+ k +:+ quote +:+ ":" +:+ example_print x +:+ "," +:+ items r
                 end) d
  end.

Definition example_dumps (v : json) : string := example_print (sort_keys v).

(** What has reached the file when the serializer of the examples stops
    at the first string: the text before it, which is empty for a string
    and the opening brace or bracket otherwise. *)
Definition example_partial (v : json) : string :=
  match v with
  | JList _ => "["
  | JDict _ => "{"
  | _ => EmptyString
  end.

(** The settings of the example after [theme] is set to [light], and
    after the migration of [components]; the metadata after the component
    [hooks] is registered in an empty registry; and the metadata after the
    framework version is set where there were none. *)
Definition example_written : list json :=
  [JDict [("theme", JStr "light");
          ("hooks",
           JDict [("preToolUse",
                   JList [hook_config "^Read$" "python3 /opt/hooks/read.py"])]);
          ("components", JDict [("core", JDict [("version", JStr "3.0.0")])])];
   JDict [("theme", JStr "dark");
          ("hooks",
           JDict [("preToolUse",
                   JList [hook_config "^Read$" "python3 /opt/hooks/read.py"])])];
   JDict [("components",
           JDict [("hooks", JDict [("version", JStr "3.0.0");
                                   ("installed_at", JStr "2025-01-01T00:00:00")])])];
   JDict [("framework",
           JDict [("version", JStr "3.0.0");
                  ("updated_at", JStr "2025-01-01T00:00:00")])]].

(** A parser for the examples: it reads the two files above, and reads
    back the texts that the serializer writes for the values of
    [example_written]. *)
Definition example_loads (text : string) : option json :=
  if String.eqb text "example settings" then Some (JDict example_settings)
  else if String.eqb text "example array" then Some (JList [JStr "hooks"])
  else option_map sort_keys
         (List.find (fun v => String.eqb (example_dumps v) text) example_written).

End Settings.

(** ** [morph_tool_interceptor.py] *)

Module Interceptor.

(** [TOOL_MAPPING] *)
Definition TOOL_MAPPING : list (string * string) :=
  [("Read", "mcp__filesystem-with-morph__read_file");
   ("Write", "mcp__filesystem-with-morph__write_file");
   ("Edit", "mcp__filesystem-with-morph__edit_file");
   ("LS", "mcp__filesystem-with-morph__list_directory");
   ("Glob", "mcp__filesystem-with-morph__search_files");
   ("MultiEdit", "mcp__filesystem-with-morph__edit_file")].

(** [MORPH_TOOLS_WITH_FALLBACK] *)
Definition MORPH_TOOLS_WITH_FALLBACK : list (string * string) :=
  [("mcp__filesystem-with-morph__directory_tree", "safe_directory_tree")].

(** [AUTO_ACTIVATION_THRESHOLDS] *)
Definition threshold_filesystem_operations : Z := 5.
Definition threshold_batch_edits : Z := 3.
Definition threshold_directory_scans : Z := 10.

(** *** The environment of a call *)

(** What [os.stat] finds at a path: a file with its size, or a directory
    with its size and listing.  The listing is [None] when [os.listdir]
    raises [OSError]; an entry is a name with the answer of [os.path.isdir]
    for it. *)
Inductive fsnode : Type :=
| File (size : Z)
| Dir (size : Z) (entries : option (list (string * bool))).

(** The argument of [os.path.exists]: a path string or a file descriptor. *)
Inductive pathlike : Type :=
| PathStr (s : string)
| PathFd (n : Z).

Record environ : Type := {
  getenv : string -> option string;          (* os.getenv *)
  argv : list string;                        (* sys.argv *)
  stat : pathlike -> option fsnode;          (* the file system *)
  mcp_list : option (Z * string);            (* claude mcp list: return code and
                                                lower-cased output, None when
                                                subprocess.run raises *)
  now_isoformat : string;                    (* datetime.now().isoformat() *)
  getpid : Z;                                (* os.getpid() *)
  log_fails : bool                           (* os.makedirs, open or the write of
                                                log_interception raises OSError *)
}.

(** *** The state of a run *)

Record stats : Type := {
  total_operations : Z;
  morph_operations : Z;
  native_operations : Z;
  fallback_operations : Z;
  start_time : string
}.

(** One line of [~/.claude/morph_interception.log]. *)
Record log_entry : Type := {
  entry_timestamp : string;
  entry_tool_name : json;
  entry_action : string;
  entry_reason : string;
  entry_session_stats : stats
}.

(** The calls of [logger], one constructor for each call in the source. *)
Inductive logline : Type :=
| Log_no_morph_flag | Log_morph_only_flag | Log_morph_flag | Log_auto_activated
| Log_operations_threshold | Log_batch_edit | Log_large_directory | Log_morph_fast
| Log_server_no_key | Log_server_passed | Log_server_not_found | Log_server_error
| Log_interception
| Log_risk_subdirs | Log_risk_problematic | Log_risk_total_items | Log_risk_unreadable
| Log_main_error.

Record state : Type := {
  session_stats : stats;                 (* self.session_stats *)
  log_file : list log_entry;             (* lines appended to the log file *)
  logger_calls : list logline;           (* calls of logger.*, in order *)
  stdout : list json                     (* objects printed by main *)
}.

(** How a computation ends: it returns, it raises an exception (a subclass
    of [Exception]), or it raises [SystemExit] through [sys.exit]. *)
Inductive outcome (A : Type) : Type :=
| Return (a : A)
| Raised (e : exn)
| SysExit (status : Z).
Arguments Return {A} a.
Arguments Raised {A} e.
Arguments SysExit {A} status.

(** A computation on the state; an exception keeps the state reached. *)
Definition M (A : Type) : Type := state -> outcome A * state.

#[global] Instance M_ret : MRet M := fun A a st => (Return a, st).
#[global] Instance M_bind : MBind M :=
  fun A B k m st =>
    match m st with
    | (Return a, st') => k a st'
    | (Raised e, st') => (Raised e, st')
    | (SysExit n, st') => (SysExit n, st')
    end.

Definition lift {A} (r : result A) : M A :=
  fun st => (match r with Ok a => Return a | Raise e => Raised e end, st).
Definition get_stats : M stats := fun st => (Return (session_stats st), st).
Definition set_stats (s : stats) : M unit :=
  fun st => (Return tt, {| session_stats := s; log_file := log_file st;
                           logger_calls := logger_calls st; stdout := stdout st |}).
Definition logger (l : logline) : M unit :=
  fun st => (Return tt, {| session_stats := session_stats st; log_file := log_file st;
                           logger_calls := logger_calls st ++ [l]; stdout := stdout st |}).
Definition append_log (e : log_entry) : M unit :=
  fun st => (Return tt, {| session_stats := session_stats st; log_file := log_file st ++ [e];
                           logger_calls := logger_calls st; stdout := stdout st |}).
Definition print (v : json) : M unit :=
  fun st => (Return tt, {| session_stats := session_stats st; log_file := log_file st;
                           logger_calls := logger_calls st; stdout := stdout st ++ [v] |}).

(** [try: body except <classes>: handler]; [SystemExit] passes through. *)
Definition try_except {A} (body : M A) (caught : exn -> bool) (handler : exn -> M A) : M A :=
  fun st =>
    match body st with
    | (Raised e, st') => if caught e then handler e st' else (Raised e, st')
    | r => r
    end.

(** [sys.exit(status)]: an integer is the exit status, [None] is 0, and
    any other object is printed and gives the status 1. *)
Definition exit_status (status : json) : Z :=
  match status with
  | JInt n => n
  | JBool b => if b then 1 else 0
  | JNull => 0
  | _ => 1
  end.
Definition sys_exit {A} (status : json) : M A :=
  fun st => (SysExit (exit_status status), st).

(** [MorphToolInterceptor.__init__] *)
Definition new_stats (env : environ) : stats :=
  {| total_operations := 0; morph_operations := 0; native_operations := 0;
     fallback_operations := 0; start_time := now_isoformat env |}.

(** [self.session_stats[counter] += 1] *)
Definition incr_total : M unit :=
  s ← get_stats;
  set_stats {| total_operations := total_operations s + 1;
               morph_operations := morph_operations s;
               native_operations := native_operations s;
               fallback_operations := fallback_operations s;
               start_time := start_time s |}.
Definition incr_morph : M unit :=
  s ← get_stats;
  set_stats {| total_operations := total_operations s;
               morph_operations := morph_operations s + 1;
               native_operations := native_operations s;
               fallback_operations := fallback_operations s;
               start_time := start_time s |}.
Definition incr_native : M unit :=
  s ← get_stats;
  set_stats {| total_operations := total_operations s;
               morph_operations := morph_operations s;
               native_operations := native_operations s + 1;
               fallback_operations := fallback_operations s;
               start_time := start_time s |}.
Definition incr_fallback : M unit :=
  s ← get_stats;
  set_stats {| total_operations := total_operations s;
               morph_operations := morph_operations s;
               native_operations := native_operations s;
               fallback_operations := fallback_operations s + 1;
               start_time := start_time s |}.

(** [MorphToolInterceptor.log_interception].  The entry is built and
    [logger.info] is called before the log file is touched.  Nothing
    guards [os.makedirs], [open] and [f.write]: where the directory cannot
    be made or the file cannot be written they raise [OSError], which
    leaves the method, and no entry reaches the file.  ([json.dumps]
    escapes every character that is not ASCII, so the line itself can
    always be encoded.) *)
Definition log_interception (env : environ) (tool_name : json) (action reason : string)
  : M unit :=
  s ← get_stats;
  _ ← logger Log_interception;
  if log_fails env then lift (Raise OSError)
  else
    append_log {| entry_timestamp := now_isoformat env; entry_tool_name := tool_name;
                  entry_action := action; entry_reason := reason;
                  entry_session_stats := s |}.

(** [os.getenv(name)] used as a condition. *)
Definition env_set (env : environ) (name : string) : bool :=
  match getenv env name with
  | Some v => negb (String.eqb v "")
  | None => false
  end.

(** [MorphToolInterceptor.parse_flags] *)
Definition parse_flags (env : environ) : list string :=
  let flags : list string := [] in
  let flags := if env_set env "MORPH_ENABLED" then (flags ++ ["--morph"])%list else flags in
  let flags := if env_set env "MORPH_ONLY" then (flags ++ ["--morph-only"])%list else flags in
  let flags := if env_set env "MORPH_FAST" then (flags ++ ["--morph-fast"])%list else flags in
  let flags := if env_set env "NO_MORPH" then (flags ++ ["--no-morph"])%list else flags in
  let cmd_args := if (1 <? length (argv env))%nat then tail (argv env) else [] in
  let morph_flags := ["--morph"; "--morphllm"; "--morph-only"; "--morph-fast"; "--no-morph"] in
  (flags ++ List.filter (fun arg => str_in arg morph_flags) cmd_args)%list.

(** *** The file system as the hook reads it *)

(** The conversion [os.stat] applies to its argument: a string is a path,
    an integer (a boolean is one) is a file descriptor and must fit a C
    [int], anything else is a [TypeError].  [os.path.exists] and
    [os.path.isdir] catch [OSError] and [ValueError] only, so both errors
    leave them. *)
Definition to_pathlike (v : json) : result pathlike :=
  match v with
  | JStr s => Ok (PathStr s)
  | JInt n =>
      if (- 2 ^ 31 <=? n)%Z && (n <? 2 ^ 31)%Z then Ok (PathFd n) else Raise OverflowError
  | JBool b => Ok (PathFd (if b then 1 else 0))
  | _ => Raise TypeError
  end.

Definition os_path_exists (env : environ) (v : json) : result bool :=
  p ← to_pathlike v;
  Ok (match stat env p with Some _ => true | None => false end).

Definition os_path_isdir (env : environ) (v : json) : result bool :=
  p ← to_pathlike v;
  Ok (match stat env p with Some (Dir _ _) => true | _ => false end).

Definition os_path_getsize (env : environ) (v : json) : result Z :=
  p ← to_pathlike v;
  match stat env p with
  | Some (File size) | Some (Dir size _) => Ok size
  | None => Raise OSError
  end.

Definition os_listdir (env : environ) (v : json) : result (list (string * bool)) :=
  p ← to_pathlike v;
  match stat env p with
  | Some (Dir _ (Some entries)) => Ok entries
  | _ => Raise OSError
  end.

(** [sum(1 for item in items if os.path.isdir(os.path.join(path, item)))]:
    [os.path.join] raises [TypeError] when [path] is a file descriptor. *)
Definition count_subdirs (path : json) (items : list (string * bool)) : result Z :=
  match items with
  | [] => Ok 0
  | _ =>
      match path with
      | JStr _ => Ok (Z.of_nat (length (List.filter snd items)))
      | _ => Raise TypeError
      end
  end.

Definition problematic_subdirs : list string :=
  [".git"; "node_modules"; "logs"; "__pycache__"; ".cache"; "build"; "dist"; ".venv"; "venv"].

(** *** The heuristics *)

(** [MorphToolInterceptor.is_batch_operation] *)
Definition is_batch_operation (tool_input : json) : result bool :=
  has_edits ← py_contains "edits" tool_input;
  if (has_edits : bool) then
    edits ← py_get tool_input "edits" (JList []);
    n ← py_len edits;
    Ok (threshold_batch_edits <=? n)%Z
  else Ok false.

(** [MorphToolInterceptor.is_large_directory_operation] *)
Definition is_large_directory_operation (tool_input : json) : bool := true.

Definition caught_OSError_KeyError (e : exn) : bool :=
  match e with OSError | KeyError => true | _ => false end.

(** [MorphToolInterceptor.is_performance_critical_operation].  The first
    component is the [try] block of the large-file test: [Some true] when
    it returns, [None] when control goes on to the test for [MultiEdit]. *)
Definition large_file_test (env : environ) (tool_input : json) : result (option bool) :=
  let body : result (option bool) :=
    file_path ← py_getitem tool_input "file_path";
    found ← os_path_exists env file_path;
    if (found : bool) then
      file_size ← os_path_getsize env file_path;
      Ok (if (1024 * 1024 <? file_size)%Z then Some true else None)
    else Ok None in
  match body with
  | Raise e => if caught_OSError_KeyError e then Ok None else Raise e
  | Ok r => Ok r
  end.

Definition is_performance_critical_operation (env : environ) (tool_name tool_input : json)
  : result bool :=
  early ←
    (if py_in_list tool_name ["Read"; "Write"; "Edit"] then
       has_path ← py_contains "file_path" tool_input;
       if (has_path : bool) then large_file_test env tool_input else Ok None
     else Ok None);
  match early with
  | Some b => Ok b
  | None =>
      if py_eq_str tool_name "MultiEdit" then
        edits ← py_get tool_input "edits" (JList []);
        n ← py_len edits;
        Ok (1 <? n)%Z
      else Ok false
  end.

(** [MorphToolInterceptor.should_auto_activate] *)
Definition should_auto_activate (env : environ) (tool_name tool_input : json)
  (flags : list string) : M bool :=
  mapped ← lift (py_in_keys tool_name (dict_keys TOOL_MAPPING));
  if negb (mapped : bool) then mret false else
  s ← get_stats;
  if (threshold_filesystem_operations <=? total_operations s)%Z then
    _ ← logger Log_operations_threshold; mret true
  else
  batch ← lift (if py_eq_str tool_name "MultiEdit" then is_batch_operation tool_input
                else Ok false);
  if (batch : bool) then _ ← logger Log_batch_edit; mret true else
  if py_eq_str tool_name "LS" && is_large_directory_operation tool_input then
    _ ← logger Log_large_directory; mret true
  else
  fast ← lift (if str_in "--morph-fast" flags
               then is_performance_critical_operation env tool_name tool_input
               else Ok false);
  if (fast : bool) then _ ← logger Log_morph_fast; mret true else
  mret false.

(** [MorphToolInterceptor.should_intercept] *)
Definition should_intercept (env : environ) (tool_name tool_input : json)
  (flags : list string) : M bool :=
  if str_in "--no-morph" flags then
    _ ← logger Log_no_morph_flag; mret false
  else if str_in "--morph-only" flags then
    _ ← logger Log_morph_only_flag;
    lift (py_in_keys tool_name (dict_keys TOOL_MAPPING))
  else if str_in "--morph" flags || str_in "--morphllm" flags then
    _ ← logger Log_morph_flag;
    lift (py_in_keys tool_name (dict_keys TOOL_MAPPING))
  else
    auto ← should_auto_activate env tool_name tool_input flags;
    if (auto : bool) then _ ← logger Log_auto_activated; mret true else
    mret false.

(** [MorphToolInterceptor.validate_morph_server] *)
Definition validate_morph_server (env : environ) : M bool :=
  if negb (env_set env "MORPH_API_KEY") then
    _ ← logger Log_server_no_key; mret false
  else
    match mcp_list env with
    | Some (returncode, stdout_lower) =>
        if (returncode =? 0)%Z && str_contains "filesystem-with-morph" stdout_lower then
          _ ← logger Log_server_passed; mret true
        else
          _ ← logger Log_server_not_found; mret false
    | None => _ ← logger Log_server_error; mret false
    end.

(** *** Building the alternative call *)

(** [MorphToolInterceptor.map_multiedit_parameters] *)
Definition map_multiedit_parameters (tool_input : json) : result json :=
  file_path ← py_get tool_input "file_path" (JStr "");
  edits ← py_get tool_input "edits" (JList []);
  Ok (JDict [("file_path", file_path); ("edits", edits);
             ("batch_mode", JBool true); ("atomic_operation", JBool true)]).

(** [MorphToolInterceptor.map_tool_parameters] *)
Definition map_tool_parameters (tool_name tool_input : json) : result json :=
  if py_in_list tool_name ["Read"; "Write"; "Edit"; "LS"; "Glob"] then Ok tool_input
  else if py_eq_str tool_name "MultiEdit" then map_multiedit_parameters tool_input
  else Ok tool_input.

(** [TOOL_MAPPING.get(tool_name, tool_name)] *)
Definition mapped_tool_name (tool_name : json) : result json :=
  match tool_name with
  | JStr s => Ok (match dict_get s TOOL_MAPPING with Some m => JStr m | None => tool_name end)
  | JList _ | JDict _ => Raise TypeError
  | _ => Ok tool_name
  end.

(** [MorphToolInterceptor.create_morph_tool_call] *)
Definition create_morph_tool_call (env : environ) (tool_name tool_input : json)
  : result json :=
  morph_tool_name ← mapped_tool_name tool_name;
  mapped_input ← map_tool_parameters tool_name tool_input;
  Ok (JDict [("tool", morph_tool_name); ("input", mapped_input);
             ("original_tool", tool_name);
             ("timestamp", JStr (now_isoformat env));
             ("session_id", JInt (getpid env))]).

(** [MorphToolInterceptor.create_fallback_response] *)
Definition create_fallback_response (tool_name tool_input : json) : json :=
  JDict [("action", JStr "allow");
         ("reason", JStr ("MorphLLM unavailable, using native " +:+ py_str tool_name));
         ("fallback_mode", JBool true);
         ("performance_note",
          JStr "Performance may be reduced due to MorphLLM unavailability")].

(** [MorphToolInterceptor.create_chunked_directory_sequence] *)
Definition create_chunked_directory_sequence (tool_input : json) : result json :=
  path ← py_get tool_input "path" (JStr "");
  Ok (JDict
        [("tool", JStr "mcp__filesystem-with-morph__list_directory");
         ("input", JDict [("path", path)]);
         ("chunked_strategy",
          JDict
            [("step", JInt 1);
             ("description", JStr "Getting root directory listing safely");
             ("next_steps",
              JList
                [JStr "For each subdirectory, try mcp__filesystem-with-morph__directory_tree individually";
                 JStr "If any subdirectory fails, keep it as a basic directory entry";
                 JStr "Exclude known problematic directories (.git, node_modules, logs)"]);
             ("fallback_note",
              JStr "This approach prevents token overflow by processing directories in chunks")])]).

(** *** The safety override *)

Definition caught_OSError (e : exn) : bool :=
  match e with OSError => true | _ => false end.

(** The [try] block of [detect_token_overflow_risk]: [Some true] for one of
    its [return True], [None] when control leaves the block. *)
Definition overflow_risk_test (env : environ) (path : json) : M (option bool) :=
  found ← lift (os_path_exists env path);
  is_dir ← lift (if (found : bool) then os_path_isdir env path else Ok false);
  if (is_dir : bool) then
    items ← lift (os_listdir env path);
    subdirs ← lift (count_subdirs path items);
    let has_problematic :=
      existsb (fun subdir => str_in subdir (map fst items)) problematic_subdirs in
    if (8 <=? subdirs)%Z then _ ← logger Log_risk_subdirs; mret (Some true) else
    if has_problematic then _ ← logger Log_risk_problematic; mret (Some true) else
    let total_items := Z.of_nat (length items) in
    if (15 <=? total_items)%Z then _ ← logger Log_risk_total_items; mret (Some true) else
    mret None
  else mret None.

(** [MorphToolInterceptor.detect_token_overflow_risk] *)
Definition detect_token_overflow_risk (env : environ) (tool_name tool_input : json)
  : M bool :=
  if py_eq_str tool_name "mcp__filesystem-with-morph__directory_tree" then
    path ← lift (py_get tool_input "path" (JStr ""));
    r ← try_except (overflow_risk_test env path) caught_OSError
          (fun _ => _ ← logger Log_risk_unreadable; mret (Some true));
    mret (match r with Some b => b | None => false end)
  else mret false.

(** [MorphToolInterceptor.should_use_safe_directory_tree] *)
Definition should_use_safe_directory_tree (env : environ) (tool_name tool_input : json)
  : M bool :=
  listed ← lift (py_in_keys tool_name (dict_keys MORPH_TOOLS_WITH_FALLBACK));
  if negb (listed : bool) then mret false else
  if py_eq_str tool_name "mcp__filesystem-with-morph__directory_tree" then
    detect_token_overflow_risk env tool_name tool_input
  else mret false.

(** *** [MorphToolInterceptor.process_tool_call] *)

Definition safe_block_response (tool_name path : json) (chunked_call : json)
  : result json :=
  alt_tool ← py_getitem chunked_call "tool";
  alt_input ← py_getitem chunked_call "input";
  strategy ← py_get chunked_call "chunked_strategy" (JDict []);
  Ok (JDict
        [("action", JStr "block");
         ("exit_code", JInt 2);
         ("reason",
          JStr ("Directory tree for " +:+ py_str path +:+
                " likely to exceed token limit. Using chunked discovery instead."));
         ("alternative_tool", alt_tool);
         ("alternative_input", alt_input);
         ("morph_metadata",
          JDict [("original_tool", tool_name);
                 ("safety_mode", JBool true);
                 ("token_overflow_prevention", JBool true);
                 ("chunked_strategy", strategy);
                 ("recommended_approach",
                  JStr "Use list_directory + selective directory_tree calls")])]).

Definition morph_block_response (tool_name : json) (morph_call : json) : result json :=
  alt_tool ← py_getitem morph_call "tool";
  alt_input ← py_getitem morph_call "input";
  Ok (JDict
        [("action", JStr "block");
         ("exit_code", JInt 2);
         ("reason",
          JStr ("Routing " +:+ py_str tool_name +:+ " to MorphLLM for improved performance"));
         ("alternative_tool", alt_tool);
         ("alternative_input", alt_input);
         ("morph_metadata",
          JDict [("original_tool", tool_name);
                 ("performance_expected", JBool true);
                 ("fallback_available", JBool true)])]).

Definition process_tool_call (env : environ) (tool_name tool_input : json) : M json :=
  _ ← incr_total;
  let flags := parse_flags env in
  safe ← should_use_safe_directory_tree env tool_name tool_input;
  if (safe : bool) then
    path ← lift (py_get tool_input "path" (JStr ""));
    _ ← log_interception env tool_name "safe_intercept"
          ("Using chunked directory discovery for " +:+ py_str path +:+
           " to prevent token overflow");
    _ ← incr_morph;
    chunked_call ← lift (create_chunked_directory_sequence tool_input);
    lift (safe_block_response tool_name path chunked_call)
  else
    intercept ← should_intercept env tool_name tool_input flags;
    if (intercept : bool) then
      available ← validate_morph_server env;
      if negb (available : bool) then
        _ ← log_interception env tool_name "fallback" "MorphLLM server unavailable";
        _ ← incr_fallback;
        mret (create_fallback_response tool_name tool_input)
      else
        morph_call ← lift (create_morph_tool_call env tool_name tool_input);
        tool ← lift (py_getitem morph_call "tool");
        _ ← log_interception env tool_name "intercept" ("Routing to " +:+ py_str tool);
        _ ← incr_morph;
        lift (morph_block_response tool_name morph_call)
    else
      _ ← incr_native;
      _ ← log_interception env tool_name "allow" "Using native tool";
      mret (JDict [("action", JStr "allow")]).

(** *** [main]: the hook process *)

(** [str(e)].  The model keeps the class of an exception and not its
    message; the class name stands for the message. *)
Definition exn_text (e : exn) : string :=
  match e with
  | TypeError => "TypeError"
  | AttributeError => "AttributeError"
  | KeyError => "KeyError"
  | IndexError => "IndexError"
  | OverflowError => "OverflowError"
  | ValueError => "ValueError"
  | JSONDecodeError => "JSONDecodeError"
  | UnicodeDecodeError => "UnicodeDecodeError"
  | UnicodeEncodeError => "UnicodeEncodeError"
  | OSError => "OSError"
  end.

Definition error_response (e : exn) : json :=
  JDict [("action", JStr "allow"); ("error", JStr (exn_text e)); ("fallback_mode", JBool true)].

Definition usage_error : json := JDict [("error", JStr "No tool call data provided")].

(** How the process ends: with an exit status, or with the traceback of an
    exception nothing caught. *)
Inductive termination : Type :=
| Exit (status : Z)
| Traceback (e : exn).

Section Process.

(** [json.loads], the parser of the standard library: [None] when it raises
    [JSONDecodeError]. *)
Variable json_loads : string -> option json.

(** The [try] block of [main]. *)
Definition main_try (env : environ) : M unit :=
  tool_call_data ← lift (match argv env with
                         | _ :: data :: _ =>
                             match json_loads data with
                             | Some v => Ok v
                             | None => Raise JSONDecodeError
                             end
                         | _ => Raise IndexError
                         end);
  tool_name ← lift (py_get tool_call_data "tool_name" (JStr ""));
  tool_input ← lift (py_get tool_call_data "tool_input" (JDict []));
  _ ← set_stats (new_stats env);
  result ← process_tool_call env tool_name tool_input;
  _ ← print result;
  exit_code ← lift (py_get result "exit_code" (JInt 0));
  sys_exit exit_code.

(** [main] *)
Definition main (env : environ) : M unit :=
  if (length (argv env) <? 2)%nat then
    _ ← print usage_error;
    sys_exit (JInt 1)
  else
    try_except (main_try env) (fun _ => true)
      (fun e =>
         _ ← logger Log_main_error;
         _ ← print (error_response e);
         sys_exit (JInt 0)).

(** The state in which the process starts: nothing logged, nothing
    printed, and no interceptor yet ([main_try] creates it). *)
Definition start (env : environ) : state :=
  {| session_stats := new_stats env; log_file := []; logger_calls := []; stdout := [] |}.

(** One run of the hook process. *)
Definition run (env : environ) : termination * state :=
  match main env (start env) with
  | (SysExit n, st) => (Exit n, st)
  | (Raised e, st) => (Traceback e, st)
  | (Return _, st) => (Exit 0, st)
  end.

End Process.

(** *** Postconditions of runs *)

(** [wp m st Q]: the run of [m] from [st] ends in an outcome and a state
    that satisfy [Q]. *)
Definition wp {A} (m : M A) (st : state) (Q : outcome A -> state -> Prop) : Prop :=
  match m st with (r, st') => Q r st' end.

(** The logger lines [l'] are the lines [l] and some more, among which the
    line of the operations threshold stands only if [reached] holds. *)
Definition logs_extend (reached : Prop) (l l' : list logline) : Prop :=
  exists extra, l' = (l ++ extra)%list /\
    (In Log_operations_threshold extra -> reached).

(** A computation that leaves the counters, the log file and the standard
    output alone, does not call [sys.exit], and logs the operations
    threshold only when it is reached. *)
Definition quiet {A} (m : M A) : Prop :=
  forall st,
    wp m st (fun r st' =>
      session_stats st' = session_stats st /\
      log_file st' = log_file st /\
      stdout st' = stdout st /\
      logs_extend (threshold_filesystem_operations <= total_operations (session_stats st))%Z
                  (logger_calls st) (logger_calls st') /\
      forall n, r <> SysExit n).

(** *** Decisions and counters *)

Definition decision_allow (d : json) : Prop :=
  exists items, d = JDict items /\
    dict_get "action" items = Some (JStr "allow") /\ dict_get "exit_code" items = None.

Definition decision_block (d : json) : Prop :=
  exists items, d = JDict items /\
    dict_get "action" items = Some (JStr "block") /\
    dict_get "exit_code" items = Some (JInt 2).

(** Exactly one of the three counters went up by one, and it is the one
    that belongs to the decision. *)
Definition one_counter (s s' : stats) (d : json) : Prop :=
  (decision_block d /\
   morph_operations s' = morph_operations s + 1 /\
   native_operations s' = native_operations s /\
   fallback_operations s' = fallback_operations s) \/
  (decision_allow d /\
   morph_operations s' = morph_operations s /\
   native_operations s' = native_operations s + 1 /\
   fallback_operations s' = fallback_operations s) \/
  (decision_allow d /\
   morph_operations s' = morph_operations s /\
   native_operations s' = native_operations s /\
   fallback_operations s' = fallback_operations s + 1).

Definition sum_counters (s : stats) : Z :=
  native_operations s + morph_operations s + fallback_operations s.

(** *** Tools, logger lines and example environments *)

Definition directory_tree_tool : string := "mcp__filesystem-with-morph__directory_tree".
Definition list_directory_tool : string := "mcp__filesystem-with-morph__list_directory".

(** The logger line of the test that fires: the count of subdirectories is
    tested before the denylist. *)
Definition risk_line (entries : list (string * bool)) : logline :=
  if (8 <=? Z.of_nat (length (List.filter snd entries)))%Z
  then Log_risk_subdirs else Log_risk_problematic.

Definition add_logger_calls (ls : list logline) (st : state) : state :=
  {| session_stats := session_stats st; log_file := log_file st;
     logger_calls := logger_calls st ++ ls; stdout := stdout st |}.

(** An environment in which [NO_MORPH] is set and the backend is
    registered, with a repository at [/repo] that holds [node_modules]. *)
Definition example_no_morph_env : environ :=
  {| getenv := fun name =>
       if String.eqb name "NO_MORPH" then Some "1"
       else if String.eqb name "MORPH_API_KEY" then Some "key" else None;
     argv := ["morph_tool_interceptor.py"; "{}"];
     stat := fun p =>
       match p with
       | PathStr "/repo" => Some (Dir 4096 (Some [("node_modules", true); ("package.json", false)]))
       | _ => None
       end;
     mcp_list := Some (0, "filesystem-with-morph: connected");
     now_isoformat := "2025-01-01T00:00:00";
     getpid := 4242;
     log_fails := false |}.

(** The same environment with a home directory in which
    [~/.claude/morph_interception.log] cannot be written, and the tool
    call data of a directory tree of [/repo]. *)
Definition example_unwritable_log_env : environ :=
  {| getenv := getenv example_no_morph_env;
     argv := argv example_no_morph_env;
     stat := stat example_no_morph_env;
     mcp_list := mcp_list example_no_morph_env;
     now_isoformat := now_isoformat example_no_morph_env;
     getpid := getpid example_no_morph_env;
     log_fails := true |}.

Definition example_tree_call : json :=
  JDict [("tool_name", JStr directory_tree_tool);
         ("tool_input", JDict [("path", JStr "/repo")])].

(** An environment with nothing set: no flags, no credential. *)
Definition example_bare_env : environ :=
  {| getenv := fun _ => None;
     argv := ["morph_tool_interceptor.py"; "{}"];
     stat := fun _ => None;
     mcp_list := None;
     now_isoformat := "2025-01-01T00:00:00";
     getpid := 4242;
     log_fails := false |}.

(** *** Sequences of calls on one interceptor *)

(** The calls of a sequence, each with its environment, tool name and tool
    input, run one after the other on the same instance.  The result is
    the decision and the state after each call, [None] when one of the
    calls does not return. *)
Fixpoint run_calls (calls : list (environ * json * json)) (st : state)
  : option (list (json * state)) :=
  match calls with
  | [] => Some []
  | (env, tool_name, tool_input) :: rest =>
      match process_tool_call env tool_name tool_input st with
      | (Return d, st') =>
          match run_calls rest st' with
          | Some trace => Some ((d, st') :: trace)
          | None => None
          end
      | _ => None
      end
  end.

(** Along a trace, each call adds one to [total_operations] and one to
    exactly one of the three other counters. *)
Fixpoint counted (s : stats) (trace : list (json * state)) : Prop :=
  match trace with
  | [] => True
  | (d, st') :: rest =>
      total_operations (session_stats st') = total_operations s + 1 /\
      one_counter s (session_stats st') d /\
      counted (session_stats st') rest
  end.

(** *** The backend check, and a batch edit *)

(** What [validate_morph_server] answers in [env]. *)
Definition server_available (env : environ) : bool :=
  env_set env "MORPH_API_KEY" &&
  match mcp_list env with
  | Some (returncode, stdout_lower) =>
      (returncode =? 0)%Z && str_contains "filesystem-with-morph" stdout_lower
  | None => false
  end.

Definition server_line (env : environ) : logline :=
  if negb (env_set env "MORPH_API_KEY") then Log_server_no_key
  else match mcp_list env with
       | Some (returncode, stdout_lower) =>
           if (returncode =? 0)%Z && str_contains "filesystem-with-morph" stdout_lower
           then Log_server_passed else Log_server_not_found
       | None => Log_server_error
       end.

Definition edit_file_tool : string := "mcp__filesystem-with-morph__edit_file".

Definition four_edits : json :=
  JDict [("file_path", JStr "a.py");
         ("edits", JList [JDict [("old_string", JStr "a"); ("new_string", JStr "b")];
                          JDict [("old_string", JStr "c"); ("new_string", JStr "d")];
                          JDict [("old_string", JStr "e"); ("new_string", JStr "f")];
                          JDict [("old_string", JStr "g"); ("new_string", JStr "h")]])].

(** An environment with no flags in which the backend is available. *)
Definition example_backend_env : environ :=
  {| getenv := fun name => if String.eqb name "MORPH_API_KEY" then Some "key" else None;
     argv := ["morph_tool_interceptor.py"; "{}"];
     stat := fun _ => None;
     mcp_list := Some (0, "filesystem-with-morph: connected");
     now_isoformat := "2025-01-01T00:00:00";
     getpid := 4242;
     log_fails := false |}.

(** The same environment with an interception log that cannot be
    written. *)
Definition example_backend_unwritable_env : environ :=
  {| getenv := getenv example_backend_env;
     argv := argv example_backend_env;
     stat := stat example_backend_env;
     mcp_list := mcp_list example_backend_env;
     now_isoformat := now_isoformat example_backend_env;
     getpid := getpid example_backend_env;
     log_fails := true |}.

(** *** Decisions printed by the process *)

(** [d] is a dict whose [action] is [a]. *)
Definition action_is (a : string) (d : json) : Prop :=
  exists items, d = JDict items /\ dict_get "action" items = Some (JStr a).


End Interceptor.


(** ** [morph_tool_interceptor.py]: the routing of a call *)

Module Routing.
Import Interceptor.

(** *** The outcomes of [process_tool_call] *)

(** The response of the last line of [process_tool_call]. *)
Definition native_response : json := JDict [("action", JStr "allow")].

(** The three counters of which a call increments one. *)
Definition counters (s : stats) : Z * Z * Z :=
  (morph_operations s, native_operations s, fallback_operations s).

(** The call was left to the native tool: the decision [d] is the bare
    [allow], and the call went to [native_operations]. *)
Definition allowed_native (st st' : state) (d : json) : Prop :=
  d = native_response /\
  counters (session_stats st') =
  (morph_operations (session_stats st), native_operations (session_stats st) + 1,
   fallback_operations (session_stats st)).

(** The call was intercepted.  With the backend available, the decision
    [d] is a [block] that names [alt_tool] with [alt_input] as the
    alternative, and the call went to [morph_operations]; without it, [d]
    is the response of [create_fallback_response], and the call went to
    [fallback_operations]. *)
Definition routed (env : environ) (tool_name tool_input alt_tool alt_input : json)
  (st st' : state) (d : json) : Prop :=
  if server_available env
  then decision_block d /\
       py_get d "alternative_tool" JNull = Ok alt_tool /\
       py_get d "alternative_input" JNull = Ok alt_input /\
       counters (session_stats st') =
       (morph_operations (session_stats st) + 1, native_operations (session_stats st),
        fallback_operations (session_stats st))
  else d = create_fallback_response tool_name tool_input /\
       counters (session_stats st') =
       (morph_operations (session_stats st), native_operations (session_stats st),
        fallback_operations (session_stats st) + 1).

(** The state after the first statement of [process_tool_call]. *)
Definition counted_total (st : state) : state :=
  {| session_stats :=
       {| total_operations := total_operations (session_stats st) + 1;
          morph_operations := morph_operations (session_stats st);
          native_operations := native_operations (session_stats st);
          fallback_operations := fallback_operations (session_stats st);
          start_time := start_time (session_stats st) |};
     log_file := log_file st; logger_calls := logger_calls st; stdout := stdout st |}.

(** *** Flags and thresholds *)

(** One of the flags that ask for the backend is set. *)
Definition explicit_flag (flags : list string) : Prop :=
  In "--morph-only" flags \/ In "--morph" flags \/ In "--morphllm" flags.

(** The number of edits from which a [MultiEdit] call is intercepted:
    [is_batch_operation] asks for [>= 3], and under [--morph-fast]
    [is_performance_critical_operation] asks for [> 1]. *)
Definition batch_threshold (flags : list string) : Z :=
  if str_in "--morph-fast" flags then 2 else threshold_batch_edits.

(** The dict that [map_multiedit_parameters] returns for an input with the
    list [edits]. *)
Definition multiedit_input (items : dict) (edits : list json) : json :=
  JDict [("file_path", match dict_get "file_path" items with Some v => v | None => JStr "" end);
         ("edits", JList edits); ("batch_mode", JBool true); ("atomic_operation", JBool true)].

(** The path exists and [os.path.getsize] is above [1024 * 1024]. *)
Definition larger_than_1MB (node : option fsnode) : bool :=
  match node with
  | Some (File size) | Some (Dir size _) => (1024 * 1024 <? size)%Z
  | None => false
  end.

(** The path is a directory that cannot be listed, or that has 8
    subdirectories or more, a child with a name of [problematic_subdirs],
    or 15 entries or more. *)
Definition overflow_risk (node : option fsnode) : bool :=
  match node with
  | Some (Dir _ None) => true
  | Some (Dir _ (Some entries)) =>
      (8 <=? Z.of_nat (length (List.filter snd entries)))%Z
      || existsb (fun subdir => str_in subdir (map fst entries)) problematic_subdirs
      || (15 <=? Z.of_nat (length entries))%Z
  | _ => false
  end.

(** The entry [e] of the log was written before the call went to
    [morph_operations] or [fallback_operations]: it has the other two
    counters of the state [st'] after the call. *)
Definition logged_before_counting (e : log_entry) (st' : state) : Prop :=
  total_operations (session_stats st') = total_operations (entry_session_stats e) /\
  native_operations (session_stats st') = native_operations (entry_session_stats e).

(** *** Example environments *)

(** [MORPH_ENABLED] is set, and the backend is there. *)
Definition example_morph_env : environ :=
  {| getenv := fun name =>
       if String.eqb name "MORPH_ENABLED" then Some "1"
       else if String.eqb name "MORPH_API_KEY" then Some "key" else None;
     argv := ["morph_tool_interceptor.py"; "{}"];
     stat := fun _ => None;
     mcp_list := Some (0, "filesystem-with-morph: connected");
     now_isoformat := "2025-01-01T00:00:00";
     getpid := 4242;
     log_fails := false |}.

(** [MORPH_FAST] is set, and there are a file of one byte more than 1 MiB
    and a file of 1 MiB. *)
Definition example_fast_env : environ :=
  {| getenv := fun name =>
       if String.eqb name "MORPH_FAST" then Some "1"
       else if String.eqb name "MORPH_API_KEY" then Some "key" else None;
     argv := ["morph_tool_interceptor.py"; "{}"];
     stat := fun p =>
       match p with
       | PathStr "/data/big.bin" => Some (File 1048577)
       | PathStr "/data/limit.bin" => Some (File 1048576)
       | _ => None
       end;
     mcp_list := Some (0, "filesystem-with-morph: connected");
     now_isoformat := "2025-01-01T00:00:00";
     getpid := 4242;
     log_fails := false |}.

(** An interceptor that has allowed four calls. *)
Definition example_busy_state : state :=
  {| session_stats :=
       {| total_operations := 4; morph_operations := 0; native_operations := 4;
          fallback_operations := 0; start_time := "2025-01-01T00:00:00" |};
     log_file := []; logger_calls := []; stdout := [] |}.

End Routing.

(** * The properties *)

(** ** The hook configuration format *)

Module HooksFormatFacts.
Import HooksFormat.

(** *** The two loops of [_validate_hooks_config] *)

Lemma str_in_In s xs : str_in s xs = true <-> In s xs.
Proof.
  unfold str_in. rewrite existsb_exists. split.
  - intros (x & Hx & E). apply String.eqb_eq in E. now subst.
  - intros H. exists s. split; [exact H | apply String.eqb_refl].
Qed.

Lemma validate_hook_list_spec l :
  validate_hook_list l = true <-> Forall hook_entry_ok l.
Proof.
  induction l as [|hook rest IH]; simpl.
  - split; [constructor | reflexivity].
  - rewrite List.Forall_cons_iff, <- IH. clear IH.
    destruct hook as [ | | | | |?|h];
      try (split; [discriminate | intros [(h' & m & c & E & _) _]; discriminate]).
    unfold dict_has.
    destruct (dict_get "matcher" h) as [m|] eqn:Em; simpl.
    2:{ split; [discriminate | intros [(h' & m & c & E & Hm & _) _]].
        injection E as <-. congruence. }
    destruct (dict_get "command" h) as [c|] eqn:Ec; simpl.
    2:{ split; [discriminate | intros [(h' & m' & c & E & _ & Hc) _]].
        injection E as <-. congruence. }
    destruct m; simpl;
      try (split; [discriminate | intros [(h' & m' & c' & E & Hm & _) _];
                                  injection E as <-; congruence]).
    destruct c; simpl;
      try (split; [discriminate | intros [(h' & m' & c' & E & _ & Hc) _];
                                  injection E as <-; congruence]).
    split.
    + intros H. split; [|exact H]. now exists h, s, s0.
    + now intros [_ H].
Qed.

(** C4. [_validate_hooks_config] returns [True] exactly on the documents in
    which every top-level key is one of the six hook types, every value is
    a list, and every element of each list is a dict that has string values
    under [matcher] and [command]; other keys of an element do not matter,
    and one violation anywhere makes the whole document invalid. *)
Theorem validate_hooks_config_iff (doc : dict) :
  _validate_hooks_config doc = true <-> hooks_document_ok doc.
Proof.
  unfold hooks_document_ok.
  induction doc as [|[k v] rest IH]; cbn [_validate_hooks_config].
  - split; [intros _ ? ? [] | reflexivity].
  - destruct (str_in k valid_hook_types) eqn:Ek; cbn [negb].
    2:{ split; [discriminate|]. intros H.
        destruct (H k v (in_eq _ _)) as [Hin _].
        apply str_in_In in Hin. congruence. }
    apply str_in_In in Ek.
    destruct v as [ | | | | |l|?];
      try (split; [discriminate | intros H;
             destruct (H k _ (in_eq _ _)) as [_ (l & E & _)]; discriminate]).
    destruct (validate_hook_list l) eqn:El.
    + apply validate_hook_list_spec in El. rewrite IH. split.
      * intros H k' v' Hin. apply in_inv in Hin as [E | Hin]; [|now apply H].
        injection E as <- <-. split; [exact Ek|]. now exists l.
      * intros H k' v' Hin. apply H. now apply in_cons.
    + split; [discriminate|]. intros H.
      destruct (H k _ (in_eq _ _)) as [_ (l' & E & Hl)].
      injection E as <-. apply validate_hook_list_spec in Hl. congruence.
Qed.

(** The two documents of the specification's examples. *)
Example validate_bad_type :
  _validate_hooks_config [("badType", JList [])] = false.
Proof. reflexivity. Qed.

Example validate_good :
  _validate_hooks_config
    [("preToolUse", JList [JDict [("matcher", JStr "^Read$"); ("command", JStr "run.sh")]])]
  = true.
Proof. reflexivity. Qed.

End HooksFormatFacts.

(** ** The deep merge on trees *)

Module DeepMergeFacts.
Import DeepMerge.

(** *** The loop of [_deep_merge], one item at a time *)

Lemma deep_merge_nil base : _deep_merge base [] = base.
Proof. reflexivity. Qed.

Lemma deep_merge_cons base key value rest :
  _deep_merge base ((key, value) :: rest) =
  _deep_merge (dict_set key (merged_value (dict_get key base) value) base) rest.
Proof.
  unfold _deep_merge at 1. cbn [merge_into]. unfold merged_value.
  destruct (dict_get key base) as [[ | | | | | |rb]|]; try reflexivity.
  destruct value; reflexivity.
Qed.

(** *** Facts on [dict_get] and [dict_set] *)

Section DictFacts.
Context {V : Type}.
Implicit Types (d : list (string * V)) (k : string) (v : V).

Lemma dict_get_set_eq k v d : dict_get k (dict_set k v d) = Some v.
Proof.
  induction d as [|[k' v'] r IH]; simpl.
  - now rewrite String.eqb_refl.
  - destruct (String.eqb k k') eqn:E; simpl.
    + now rewrite String.eqb_refl.
    + now rewrite E.
Qed.

Lemma dict_get_set_ne k k' v d :
  k <> k' -> dict_get k' (dict_set k v d) = dict_get k' d.
Proof.
  intros Hne. induction d as [|[k0 v0] r IH]; simpl.
  - destruct (String.eqb_spec k' k); congruence.
  - destruct (String.eqb_spec k k0) as [->|Hk]; simpl.
    + destruct (String.eqb_spec k' k0); congruence.
    + destruct (String.eqb_spec k' k0); congruence.
Qed.

Lemma dict_get_None_iff k d : dict_get k d = None <-> ~ In k (dict_keys d).
Proof.
  induction d as [|[k0 v0] r IH]; simpl.
  - tauto.
  - destruct (String.eqb_spec k k0) as [->|Hk].
    + split; [discriminate | tauto].
    + rewrite IH. split; [intros H [E|E]; congruence | tauto].
Qed.

Lemma dict_get_In k v d : dict_get k d = Some v -> In (k, v) d.
Proof.
  induction d as [|[k0 v0] r IH]; simpl; [discriminate|].
  destruct (String.eqb_spec k k0) as [->|Hk].
  - intros [= ->]. now left.
  - intros H. right. now apply IH.
Qed.

(** Storing under a key that is absent appends the item. *)
Lemma dict_set_absent k v d :
  dict_get k d = None -> dict_set k v d = (d ++ [(k, v)])%list.
Proof.
  induction d as [|[k0 v0] r IH]; simpl; [reflexivity|].
  destruct (String.eqb_spec k k0) as [->|Hk]; [discriminate|].
  intros H. now rewrite IH.
Qed.

End DictFacts.

(** *** The result, key by key *)

(** After the loop, a key of the overlay holds what its iteration stored,
    and every other key holds what [base] held. *)
Lemma deep_merge_get base overlay key :
  NoDup (dict_keys overlay) ->
  dict_get key (_deep_merge base overlay) =
  match dict_get key overlay with
  | Some value => Some (merged_value (dict_get key base) value)
  | None => dict_get key base
  end.
Proof.
  revert base. induction overlay as [|[k0 v0] rest IH]; intros base Hnd.
  - reflexivity.
  - rewrite deep_merge_cons. cbn [dict_keys map fst] in Hnd.
    apply NoDup_cons in Hnd as [Hk0 Hnd]. rewrite IH by exact Hnd.
    cbn [dict_get]. destruct (String.eqb_spec key k0) as [->|Hne].
    + assert (dict_get k0 rest = None) as ->.
      { apply dict_get_None_iff. now rewrite <- list_elem_of_In. }
      apply dict_get_set_eq.
    + rewrite dict_get_set_ne by congruence. reflexivity.
Qed.

(** Merging into the empty dict rebuilds the overlay, item by item. *)
Lemma deep_merge_from_prefix pre overlay :
  NoDup (dict_keys (pre ++ overlay)%list) ->
  _deep_merge pre overlay = (pre ++ overlay)%list.
Proof.
  revert pre.
  induction overlay as [|[k v] rest IH]; intros pre Hnd.
  - now rewrite app_nil_r.
  - rewrite deep_merge_cons.
    assert (dict_get k pre = None) as Hk.
    { apply dict_get_None_iff. unfold dict_keys in *. rewrite map_app in Hnd.
      apply NoDup_app in Hnd as (_ & Hdis & _). intros Hin.
      apply (Hdis k); [now apply list_elem_of_In|]. cbn. left. }
    rewrite Hk. cbn [merged_value]. rewrite dict_set_absent by exact Hk.
    rewrite IH; rewrite <- app_assoc; [reflexivity | exact Hnd].
Qed.

Lemma wf_json_dict d :
  wf_json (JDict d) = true ->
  NoDup (dict_keys d) /\ forall k v, dict_get k d = Some v -> wf_json v = true.
Proof.
  cbn [wf_json]. intros H. apply andb_true_iff in H as [Hnd Hall].
  apply bool_decide_eq_true in Hnd. split; [exact Hnd|].
  intros k v Hget. apply dict_get_In in Hget.
  rewrite forallb_forall in Hall. exact (Hall _ Hget).
Qed.

(** A value of the overlay that is not a dict is found in the result at the
    same path. *)
Lemma deep_merge_scalar_wins path : forall base overlay v,
  wf_json (JDict overlay) = true ->
  path <> [] ->
  get_path path (JDict overlay) = Some v ->
  isinstance_dict v = false ->
  get_path path (JDict (_deep_merge base overlay)) = Some v.
Proof.
  induction path as [|key rest IH]; intros base overlay v Hwf Hne Hget Hv; [congruence|].
  apply wf_json_dict in Hwf as [Hnd Hsub].
  cbn [get_path] in *. rewrite deep_merge_get by exact Hnd.
  destruct (dict_get key overlay) as [x|] eqn:Hx; [|discriminate].
  destruct rest as [|key' rest'].
  - cbn [get_path] in *. injection Hget as ->.
    unfold merged_value. destruct (dict_get key base) as [[ | | | | | |rb]|];
      try reflexivity. destruct v; try reflexivity. discriminate.
  - specialize (Hsub _ _ Hx).
    destruct x as [ | | | | | |xo]; try (cbn in Hget; discriminate).
    unfold merged_value.
    destruct (dict_get key base) as [[ | | | | | |rb]|]; try exact Hget.
    apply IH; [exact Hsub | discriminate | exact Hget | exact Hv].
Qed.

(** C2. Merging the empty dict into [a] gives [a]; merging [b] into the
    empty dict gives [b]; and a value of the overlay that is not a dict is
    the value of the result at the same key path, whatever [base] holds
    there. *)
Theorem deep_merge_empty_and_scalars
  (a b base overlay : dict) (path : list string) (v : json) :
  NoDup (dict_keys b) ->
  wf_json (JDict overlay) = true ->
  path <> [] ->
  get_path path (JDict overlay) = Some v ->
  isinstance_dict v = false ->
  _deep_merge a [] = a /\
  _deep_merge [] b = b /\
  get_path path (JDict (_deep_merge base overlay)) = Some v.
Proof.
  intros Hb Hwf Hpath Hget Hv. split; [apply deep_merge_nil|]. split.
  - now apply (deep_merge_from_prefix []).
  - now apply deep_merge_scalar_wins.
Qed.

(** The theorem at [base = {"a": {"x": 1}, "b": 2}] and
    [overlay = {"a": {"x": [3]}}], along the path [a.x]. *)
Lemma deep_merge_empty_and_scalars_example :
  _deep_merge [("a", JInt 1)] [] = [("a", JInt 1)] /\
  _deep_merge [] [("a", JInt 1); ("b", JDict [])] = [("a", JInt 1); ("b", JDict [])] /\
  get_path ["a"; "x"]
    (JDict (_deep_merge [("a", JDict [("x", JInt 1)]); ("b", JInt 2)]
                        [("a", JDict [("x", JList [JInt 3])])]))
  = Some (JList [JInt 3]).
Proof.
  apply (deep_merge_empty_and_scalars
           [("a", JInt 1)] [("a", JInt 1); ("b", JDict [])]
           [("a", JDict [("x", JInt 1)]); ("b", JInt 2)]
           [("a", JDict [("x", JList [JInt 3])])] ["a"; "x"] (JList [JInt 3])).
  - apply (bool_decide_eq_true_1 _). reflexivity.
  - reflexivity.
  - discriminate.
  - reflexivity.
  - reflexivity.
Defined.

End DeepMergeFacts.

(** ** The deep merge on a heap of objects *)

Module MergeHeapFacts.
Import MergeHeap.

Local Open Scope nat_scope.

(** *** Facts on [represents] *)

(** A representation carries over to a heap that agrees with the first one
    on the objects it uses. *)
Lemma represents_transfer h h' (D D' : loc -> Prop) t : forall v,
  (forall l o, D l -> h !! l = Some o -> D' l /\ h' !! l = Some o) ->
  represents h D t v -> represents h' D' t v.
Proof.
  induction t as [ | | | | |ts IH|kts IH] using json_ind; intros v Hag Hrep;
    inversion Hrep as [ | | | | |l ts' vs HD Hl HF|l kts' kvs HD Hl HF];
    subst; try constructor.
  - destruct (Hag _ _ HD Hl) as [HD' Hl']. econstructor; [exact HD' | exact Hl'|].
    clear Hl Hl' Hrep. revert vs HF. induction IH as [|t ts Ht _ IHts]; intros vs HF.
    + inversion HF; constructor.
    + inversion HF; subst. constructor; [now apply Ht | now apply IHts].
  - destruct (Hag _ _ HD Hl) as [HD' Hl']. econstructor; [exact HD' | exact Hl'|].
    clear Hl Hl' Hrep. revert kvs HF. induction IH as [|kt kts Ht _ IHts]; intros kvs HF.
    + inversion HF; constructor.
    + inversion HF as [|? kv ? ? [Hk Hv] HF']; subst.
      constructor; [split; [exact Hk | now apply Ht] | now apply IHts].
Qed.

Lemma represents_weaken h (D D' : loc -> Prop) t v :
  (forall l, D l -> D' l) -> represents h D t v -> represents h D' t v.
Proof. intros HD. apply represents_transfer. intros l o Hl Ho. split; [now apply HD | exact Ho]. Qed.

Lemma represents_mono h h' D t v :
  h ⊆ h' -> represents h D t v -> represents h' D t v.
Proof.
  intros Hsub. apply represents_transfer. intros l o Hl Ho. split; [exact Hl|].
  exact (lookup_weaken _ _ _ _ Ho Hsub).
Qed.

(** Every object reached from a represented value is one of the objects
    the representation uses. *)
Lemma represents_reaches h D v l :
  reaches h v l -> forall t, represents h D t v -> D l.
Proof.
  induction 1 as [l | l kvs k v l' Hl Hin _ IH | l vs v l' Hl Hin _ IH]; intros t Hrep.
  - inversion Hrep; subst; assumption.
  - inversion Hrep as [ | | | | |? ? vs' ? Hl' |? kts kvs' ? Hl' HF]; subst;
      rewrite Hl in Hl'; [discriminate|]. injection Hl' as <-.
    clear Hl Hrep. induction HF as [|kt kv kts kvs [_ Hv] _ IHF]; [destruct Hin|].
    destruct Hin as [-> | Hin]; [exact (IH _ Hv) | now apply IHF].
  - inversion Hrep as [ | | | | |? ts vs' ? Hl' HF|? kts kvs' ? Hl']; subst;
      rewrite Hl in Hl'; [|discriminate]. injection Hl' as <-.
    clear Hl Hrep. induction HF as [|t0 v0 ts vs Hv _ IHF]; [destruct Hin|].
    destruct Hin as [-> | Hin]; [exact (IH _ Hv) | now apply IHF].
Qed.

Lemma represents_is_dict h D t v :
  represents h D t v -> is_dict h v = isinstance_dict t.
Proof.
  intros Hrep.
  inversion Hrep as [ | | | | |l ts vs HD Hl HF|l kts kvs HD Hl HF]; subst; cbn;
    try reflexivity; now rewrite Hl.
Qed.

Lemma items_rel_get P kts kvs k :
  Forall2 (items_rel P) kts kvs ->
  match dict_get k kts, dict_get k kvs with
  | Some t, Some v => P t v
  | None, None => True
  | _, _ => False
  end.
Proof.
  induction 1 as [|[k1 t] [k2 v] kts kvs [Hk Hv] _ IH]; cbn; [exact I|].
  cbn in Hk. subst k2. destruct (String.eqb k k1); [exact Hv | exact IH].
Qed.

Lemma items_rel_set P kts kvs k t v :
  Forall2 (items_rel P) kts kvs -> P t v ->
  Forall2 (items_rel P) (dict_set k t kts) (dict_set k v kvs).
Proof.
  intros HF Hv. induction HF as [|[k1 t1] [k2 v2] kts kvs [Hk Hv1] HF IH]; cbn.
  - constructor; [now split | constructor].
  - cbn in Hk. subst k2. destruct (String.eqb k k1).
    + constructor; [now split | exact HF].
    + constructor; [now split | exact IH].
Qed.

Lemma items_rel_impl (P Q : json -> pyval -> Prop) kts kvs :
  (forall t v, P t v -> Q t v) ->
  Forall2 (items_rel P) kts kvs -> Forall2 (items_rel Q) kts kvs.
Proof.
  intros HPQ. induction 1 as [|kt kv kts kvs [Hk Hv] _ IH]; constructor;
    [split; [exact Hk | now apply HPQ] | exact IH].
Qed.

(** *** Well-formedness and depth of a merged tree *)

Lemma wf_dict_iff d :
  DeepMerge.wf_json (JDict d) = true <->
  NoDup (dict_keys d) /\ Forall (fun kv => DeepMerge.wf_json (snd kv) = true) d.
Proof.
  cbn [DeepMerge.wf_json]. rewrite andb_true_iff, bool_decide_eq_true.
  rewrite forallb_forall, List.Forall_forall. reflexivity.
Qed.

Lemma dict_keys_set {V} k (v : V) d :
  dict_keys (dict_set k v d) =
  if dict_has k d then dict_keys d else (dict_keys d ++ [k])%list.
Proof.
  unfold dict_has, dict_keys. induction d as [|[k0 v0] r IH]; cbn; [reflexivity|].
  destruct (String.eqb_spec k k0) as [->|Hne]; cbn; [reflexivity|].
  rewrite IH. now destruct (dict_get k r).
Qed.

Lemma Forall_dict_set {V} (P : string * V -> Prop) k v d :
  Forall P d -> P (k, v) -> Forall P (dict_set k v d).
Proof.
  intros Hd Hv. induction Hd as [|[k0 v0] r H0 Hr IH]; cbn.
  - now constructor.
  - destruct (String.eqb k k0); constructor; assumption.
Qed.

Lemma wf_dict_set k v d :
  DeepMerge.wf_json (JDict d) = true -> DeepMerge.wf_json v = true ->
  DeepMerge.wf_json (JDict (dict_set k v d)) = true.
Proof.
  rewrite !wf_dict_iff. intros [Hnd Hall] Hv. split.
  - rewrite dict_keys_set. unfold dict_has.
    destruct (dict_get k d) eqn:Hk; [exact Hnd|].
    apply DeepMergeFacts.dict_get_None_iff in Hk. apply NoDup_app. repeat split.
    + exact Hnd.
    + intros x Hx Hx'. apply list_elem_of_singleton in Hx'. subst x.
      apply Hk. now apply list_elem_of_In.
    + apply NoDup_singleton.
  - now apply Forall_dict_set.
Qed.

Lemma wf_dict_get k v d :
  DeepMerge.wf_json (JDict d) = true -> dict_get k d = Some v ->
  DeepMerge.wf_json v = true.
Proof. intros Hwf. now apply DeepMergeFacts.wf_json_dict. Qed.

Lemma merge_into_wf overlay : forall base,
  DeepMerge.wf_json (JDict base) = true -> DeepMerge.wf_json overlay = true ->
  DeepMerge.wf_json (JDict (DeepMerge.merge_into base overlay)) = true.
Proof.
  induction overlay as [ | | | | | |items IH] using json_ind; intros base Hb Ho;
    try exact Hb.
  change (DeepMerge.merge_into base (JDict items)) with (DeepMerge._deep_merge base items).
  apply wf_dict_iff in Ho as [_ Ho]. revert base Hb.
  induction IH as [|[k v] rest Hv _ IHrest]; intros base Hb; [exact Hb|].
  rewrite DeepMergeFacts.deep_merge_cons. apply List.Forall_cons_iff in Ho as [Hwv Ho].
  apply IHrest; [exact Ho|]. apply wf_dict_set; [exact Hb|].
  unfold DeepMerge.merged_value.
  destruct (dict_get k base) as [[ | | | | | |rb]|] eqn:Hk; try exact Hwv.
  destruct v as [ | | | | | |vo]; try exact Hwv.
  apply (Hv rb); [exact (wf_dict_get _ _ _ Hb Hk) | exact Hwv].
Qed.

Lemma depth_dict_cons k v d :
  depth (JDict ((k, v) :: d)) = Nat.max (S (depth v)) (depth (JDict d)).
Proof. cbn. lia. Qed.

Lemma depth_list_cons v l :
  depth (JList (v :: l)) = Nat.max (S (depth v)) (depth (JList l)).
Proof. cbn. lia. Qed.

Lemma depth_dict_get k v d :
  dict_get k d = Some v -> S (depth v) <= depth (JDict d).
Proof.
  induction d as [|[k0 v0] r IH]; [discriminate|].
  rewrite depth_dict_cons. cbn [dict_get]. destruct (String.eqb k k0).
  - intros [= ->]. lia.
  - intros H. specialize (IH H). lia.
Qed.

Lemma depth_dict_set k v d :
  depth (JDict (dict_set k v d)) <= Nat.max (depth (JDict d)) (S (depth v)).
Proof.
  induction d as [|[k0 v0] r IH].
  - cbn. lia.
  - cbn [dict_set]. destruct (String.eqb k k0); rewrite !depth_dict_cons; lia.
Qed.

Lemma depth_dict_pos d : 1 <= depth (JDict d).
Proof. cbn. lia. Qed.

Lemma merge_into_depth overlay : forall base,
  depth (JDict (DeepMerge.merge_into base overlay)) <=
  Nat.max (depth (JDict base)) (depth overlay).
Proof.
  induction overlay as [ | | | | | |items IH] using json_ind; intros base;
    try (cbn [DeepMerge.merge_into]; lia).
  change (DeepMerge.merge_into base (JDict items)) with (DeepMerge._deep_merge base items).
  revert base. induction IH as [|[k v] rest Hv _ IHrest]; intros base.
  - rewrite DeepMergeFacts.deep_merge_nil. lia.
  - rewrite DeepMergeFacts.deep_merge_cons, depth_dict_cons.
    etransitivity; [apply IHrest|].
    pose proof (depth_dict_set k (DeepMerge.merged_value (dict_get k base) v) base) as Hset.
    assert (S (depth (DeepMerge.merged_value (dict_get k base) v))
            <= Nat.max (depth (JDict base)) (S (depth v))) as Hnv; [|lia].
    unfold DeepMerge.merged_value.
    destruct (dict_get k base) as [[ | | | | | |rb]|] eqn:Hk; try lia.
    destruct v as [ | | | | | |vo]; try lia.
    change (DeepMerge._deep_merge rb vo) with (DeepMerge.merge_into rb (JDict vo)).
    pose proof (Hv rb) as Hrec. cbn [snd] in Hrec.
    pose proof (depth_dict_get _ _ _ Hk). lia.
Qed.

(** *** Filling a new container *)

Lemma inside_after_store h r hi h2 o l x :
  h ⊆ hi -> hi ⊆ h2 -> inside h r hi l -> hi !! l = Some x ->
  inside h r (<[r := o]> h2) l /\ <[r := o]> h2 !! l = Some x.
Proof.
  intros Hsub Hsub2 (Hl & Hne & Hs) Hx.
  rewrite lookup_insert_ne by congruence.
  pose proof (lookup_weaken _ _ _ _ Hx Hsub2) as Hx2.
  split; [|exact Hx2]. split; [exact Hl|]. split; [exact Hne|].
  rewrite lookup_insert_ne by congruence. now exists x.
Qed.

Lemma new_after_store h r hi h2 o l x ri :
  h ⊆ hi -> hi !! r = Some ri -> allocated_since hi h2 l -> h2 !! l = Some x ->
  inside h r (<[r := o]> h2) l /\ <[r := o]> h2 !! l = Some x.
Proof.
  intros Hsub Hri [Hl Hs] Hx.
  assert (l <> r) as Hne by (intros ->; congruence).
  rewrite lookup_insert_ne by congruence. split; [|exact Hx].
  split; [|split; [exact Hne|]].
  - destruct (h !! l) eqn:E; [|reflexivity].
    pose proof (lookup_weaken _ _ _ _ E Hsub). congruence.
  - rewrite lookup_insert_ne by congruence. now exists x.
Qed.

(** [r[k] = nv], where [nv] was built from new objects after [hi]. *)
Lemma store_step h r hi h2 acc k tv nv :
  filling_dict h r hi acc -> hi ⊆ h2 ->
  represents h2 (allocated_since hi h2) tv nv ->
  exists h3, store_item r k nv h2 = Some h3 /\
    filling_dict h r h3 (dict_set k tv acc).
Proof.
  intros (Hsub & Hr & ritems & Hri & HF) Hsub2 Hnv.
  pose proof (lookup_weaken _ _ _ _ Hri Hsub2) as Hri2.
  unfold store_item. rewrite Hri2. eexists. split; [reflexivity|].
  split; [|split; [exact Hr|]].
  - apply insert_subseteq_r; [exact Hr | now transitivity hi].
  - eexists. split; [apply lookup_insert_eq|]. apply items_rel_set.
    + eapply items_rel_impl; [|exact HF]. intros t v. apply represents_transfer.
      intros l o Hin Ho. now apply (inside_after_store h r hi h2).
    + revert Hnv. apply represents_transfer. intros l o Hnew Ho.
      now apply (new_after_store h r hi h2 _ l o (ODict ritems)).
Qed.

(** [r.append(nv)] *)
Lemma append_step h r hi h2 acc tv nv :
  filling_list h r hi acc -> hi ⊆ h2 ->
  represents h2 (allocated_since hi h2) tv nv ->
  exists h3, list_append r nv h2 = Some h3 /\
    filling_list h r h3 (acc ++ [tv])%list.
Proof.
  intros (Hsub & Hr & elems & Hri & HF) Hsub2 Hnv.
  pose proof (lookup_weaken _ _ _ _ Hri Hsub2) as Hri2.
  unfold list_append. rewrite Hri2. eexists. split; [reflexivity|].
  split; [|split; [exact Hr|]].
  - apply insert_subseteq_r; [exact Hr | now transitivity hi].
  - eexists. split; [apply lookup_insert_eq|]. apply Forall2_app.
    + eapply Forall2_impl; [exact HF|]. intros t v. apply represents_transfer.
      intros l o Hin Ho. now apply (inside_after_store h r hi h2).
    + constructor; [|constructor]. revert Hnv. apply represents_transfer.
      intros l o Hnew Ho. now apply (new_after_store h r hi h2 _ l o (OList elems)).
Qed.

Lemma inside_allocated h r hi l : inside h r hi l -> allocated_since h hi l.
Proof. intros (Hl & _ & Hs). now split. Qed.

Lemma filling_dict_done h r h' acc :
  filling_dict h r h' acc ->
  h ⊆ h' /\ represents h' (allocated_since h h') (JDict acc) (VRef r).
Proof.
  intros (Hsub & Hr & ritems & Hri & HF). split; [exact Hsub|].
  econstructor; [split; [exact Hr | now exists (ODict ritems)] | exact Hri |].
  eapply items_rel_impl; [|exact HF]. intros t v.
  apply represents_weaken, inside_allocated.
Qed.

Lemma filling_list_done h r h' acc :
  filling_list h r h' acc ->
  h ⊆ h' /\ represents h' (allocated_since h h') (JList acc) (VRef r).
Proof.
  intros (Hsub & Hr & elems & Hri & HF). split; [exact Hsub|].
  econstructor; [split; [exact Hr | now exists (OList elems)] | exact Hri |].
  eapply Forall2_impl; [exact HF|]. intros t v.
  apply represents_weaken, inside_allocated.
Qed.

Lemma filling_start (h : heap) (o : pyobj) :
  let y := fresh (dom h) in
  h !! y = None /\ h ⊆ <[y := o]> h /\ <[y := o]> h !! y = Some o.
Proof.
  intros y. assert (h !! y = None) as Hy.
  { apply not_elem_of_dom. apply is_fresh. }
  split; [exact Hy|]. split; [now apply insert_subseteq | apply lookup_insert_eq].
Qed.

(** *** [deepcopy] builds a copy out of new objects *)

(** Storing items with distinct keys one after the other builds the list
    of the items. *)
Lemma store_all_items (pre items : dict) :
  NoDup (dict_keys (pre ++ items)%list) ->
  fold_left (fun acc kt => dict_set (fst kt) (snd kt) acc) items pre = (pre ++ items)%list.
Proof.
  revert pre. induction items as [|[k v] rest IH]; intros pre Hnd; cbn.
  - now rewrite app_nil_r.
  - assert (dict_get k pre = None) as Hk.
    { apply DeepMergeFacts.dict_get_None_iff. unfold dict_keys in *. rewrite map_app in Hnd.
      apply NoDup_app in Hnd as (_ & Hdis & _). intros Hin.
      apply (Hdis k); [now apply list_elem_of_In|]. cbn. left. }
    rewrite DeepMergeFacts.dict_set_absent by exact Hk.
    rewrite IH; rewrite <- app_assoc; [reflexivity | exact Hnd].
Qed.

Lemma depth_dict_items d n :
  depth (JDict d) <= S n -> Forall (fun kt => depth (snd kt) <= n) d.
Proof.
  induction d as [|[k v] r IH]; intros H; constructor.
  - rewrite depth_dict_cons in H. cbn. lia.
  - apply IH. rewrite depth_dict_cons in H. lia.
Qed.

Lemma depth_list_elems l n :
  depth (JList l) <= S n -> Forall (fun t => depth t <= n) l.
Proof.
  induction l as [|v r IH]; intros H; constructor.
  - rewrite depth_list_cons in H. lia.
  - apply IH. rewrite depth_list_cons in H. lia.
Qed.

Lemma copy_items_loop h y fuel kts :
  Forall (fun kt => copy_ok (snd kt)) kts ->
  Forall (fun kt => DeepMerge.wf_json (snd kt) = true) kts ->
  Forall (fun kt => depth (snd kt) <= fuel) kts ->
  forall kvs hi acc,
    Forall2 (items_rel (represents h anywhere)) kts kvs ->
    filling_dict h y hi acc ->
    exists h', for_each (copy_item (deepcopy fuel) y) kvs hi = Some h' /\
      filling_dict h y h'
        (fold_left (fun acc kt => dict_set (fst kt) (snd kt) acc) kts acc).
Proof.
  induction 1 as [|[k t] kts Hok _ IH]; intros Hwf Hd kvs hi acc HF Hinv.
  - inversion HF; subst. exists hi. split; [reflexivity | exact Hinv].
  - inversion HF as [|? [k' v] ? kvs' [Hk Hv] HF']; subst. cbn in Hk; subst k'.
    apply List.Forall_cons_iff in Hwf as [Hwt Hwf].
    apply List.Forall_cons_iff in Hd as [Hdt Hd].
    cbn [for_each]. unfold copy_item at 1.
    destruct (Hok v hi fuel Hwt) as (c & h2 & Hc & Hsub2 & Hrep & _).
    { apply (represents_mono h); [apply Hinv | exact Hv]. }
    { exact Hdt. }
    rewrite Hc. cbn.
    destruct (store_step h y hi h2 acc k t c Hinv Hsub2 Hrep) as (h3 & Hst & Hinv3).
    rewrite Hst. exact (IH Hwf Hd kvs' h3 _ HF' Hinv3).
Qed.

Lemma copy_elems_loop h y fuel ts :
  Forall copy_ok ts ->
  Forall (fun t => DeepMerge.wf_json t = true) ts ->
  Forall (fun t => depth t <= fuel) ts ->
  forall vs hi acc,
    Forall2 (represents h anywhere) ts vs ->
    filling_list h y hi acc ->
    exists h', for_each (copy_elem (deepcopy fuel) y) vs hi = Some h' /\
      filling_list h y h' (acc ++ ts)%list.
Proof.
  induction 1 as [|t ts Hok _ IH]; intros Hwf Hd vs hi acc HF Hinv.
  - inversion HF; subst. exists hi. rewrite app_nil_r. split; [reflexivity | exact Hinv].
  - inversion HF as [|? v ? vs' Hv HF']; subst.
    apply List.Forall_cons_iff in Hwf as [Hwt Hwf].
    apply List.Forall_cons_iff in Hd as [Hdt Hd].
    cbn [for_each]. unfold copy_elem at 1.
    destruct (Hok v hi fuel Hwt) as (c & h2 & Hc & Hsub2 & Hrep & _).
    { apply (represents_mono h); [apply Hinv | exact Hv]. }
    { exact Hdt. }
    rewrite Hc. cbn.
    destruct (append_step h y hi h2 acc t c Hinv Hsub2 Hrep) as (h3 & Hst & Hinv3).
    rewrite Hst.
    destruct (IH Hwf Hd vs' h3 _ HF' Hinv3) as (h' & Hh' & Hinv').
    exists h'. split; [exact Hh'|]. now rewrite <- app_assoc in Hinv'.
Qed.

Lemma deepcopy_spec t : copy_ok t.
Proof.
  induction t as [ | | | | |ts IH|kts IH] using json_ind; intros v h fuel Hwf Hrep Hfuel;
    inversion Hrep as [ | | | | |l ts' vs _ Hl HF|l kts' kvs _ Hl HF]; subst;
    try (eexists _, h; split; [destruct fuel; reflexivity|]; split; [reflexivity|];
         split; [constructor | discriminate]).
  - destruct fuel as [|fuel]; [cbn in Hfuel; lia|].
    cbn [deepcopy new_object]. rewrite Hl.
    destruct (filling_start h (OList [])) as (Hy & Hsub0 & Hy0).
    set (y := fresh (dom h)) in *.
    cbn [DeepMerge.wf_json] in Hwf. rewrite forallb_forall, <- List.Forall_forall in Hwf.
    destruct (copy_elems_loop h y fuel ts IH Hwf (depth_list_elems _ _ Hfuel)
                vs (<[y := OList []]> h) [] HF) as (h' & Hloop & Hinv).
    { split; [exact Hsub0|]. split; [exact Hy|]. eexists. split; [exact Hy0 | constructor]. }
    rewrite Hloop. cbn. eexists _, h'. split; [reflexivity|].
    apply filling_list_done in Hinv as [Hsub Hr]. split; [exact Hsub|].
    split; [exact Hr | discriminate].
  - destruct fuel as [|fuel]; [cbn in Hfuel; lia|].
    cbn [deepcopy new_object]. rewrite Hl.
    destruct (filling_start h (ODict [])) as (Hy & Hsub0 & Hy0).
    set (y := fresh (dom h)) in *.
    apply wf_dict_iff in Hwf as [Hnd Hwf].
    destruct (copy_items_loop h y fuel kts IH Hwf (depth_dict_items _ _ Hfuel)
                kvs (<[y := ODict []]> h) [] HF) as (h' & Hloop & Hinv).
    { split; [exact Hsub0|]. split; [exact Hy|]. eexists. split; [exact Hy0 | constructor]. }
    rewrite Hloop. cbn. eexists _, h'. split; [reflexivity|].
    rewrite store_all_items in Hinv by exact Hnd. cbn [app] in Hinv.
    pose proof (filling_dict_done _ _ _ _ Hinv) as [Hsub Hr]. split; [exact Hsub|].
    split; [exact Hr|]. intros kts' [= <-]. now exists y.
Qed.

(** *** [_deep_merge] builds the merged tree out of new objects *)

Lemma merged_value_overlay old value :
  match old with
  | Some x => isinstance_dict x && isinstance_dict value
  | None => false
  end = false ->
  DeepMerge.merged_value old value = value.
Proof.
  unfold DeepMerge.merged_value.
  destruct old as [[ | | | | | |rb]|]; try reflexivity.
  destruct value; try reflexivity. discriminate.
Qed.

Lemma depth_dict_items_lt d n :
  depth (JDict d) <= n -> Forall (fun kt => depth (snd kt) < n) d.
Proof.
  intros H. destruct n as [|n]; [pose proof (depth_dict_pos d); lia|].
  eapply Forall_impl; [apply depth_dict_items, H|]. cbn. intros. lia.
Qed.

Lemma merge_items_loop h r fuel okts :
  Forall (fun kt => merge_ok (snd kt)) okts ->
  Forall (fun kt => DeepMerge.wf_json (snd kt) = true) okts ->
  Forall (fun kt => depth (snd kt) < fuel) okts ->
  forall okvs hi acc,
    Forall2 (items_rel (represents h anywhere)) okts okvs ->
    filling_dict h r hi acc ->
    DeepMerge.wf_json (JDict acc) = true -> depth (JDict acc) <= fuel ->
    exists h',
      for_each (merge_item (_deep_merge fuel) (deepcopy fuel) r) okvs hi = Some h' /\
      filling_dict h r h' (DeepMerge._deep_merge acc okts).
Proof.
  induction 1 as [|[k tv] okts Hok _ IH]; intros Hwf Hd okvs hi acc HF Hinv Hwacc Hdacc.
  - inversion HF; subst. exists hi. split; [reflexivity | exact Hinv].
  - inversion HF as [|? [k' value] ? okvs' [Hk Hv] HF']; subst. cbn in Hk; subst k'.
    apply List.Forall_cons_iff in Hwf as [Hwt Hwf].
    apply List.Forall_cons_iff in Hd as [Hdt Hd].
    cbn [snd] in Hok, Hwt, Hdt, Hv.
    rewrite DeepMergeFacts.deep_merge_cons.
    cbn [for_each]. unfold merge_item at 1.
    pose proof Hinv as (Hsub & Hr & ritems & Hri & HFacc). rewrite Hri.
    assert (represents hi anywhere tv value) as Hvi
      by (apply (represents_mono h); assumption).
    (* the value to store, with the heap it was built in *)
    assert (exists nv h2,
      match dict_get k ritems with
      | Some old =>
          if is_dict hi old && is_dict hi value
          then _deep_merge fuel old value hi
          else deepcopy fuel value hi
      | None => deepcopy fuel value hi
      end = Some (nv, h2) /\ hi ⊆ h2 /\
      represents h2 (allocated_since hi h2)
        (DeepMerge.merged_value (dict_get k acc) tv) nv /\
      DeepMerge.wf_json (DeepMerge.merged_value (dict_get k acc) tv) = true /\
      depth (DeepMerge.merged_value (dict_get k acc) tv) < fuel)
      as (nv & h2 & Hnv & Hsub2 & Hrep & Hwnv & Hdnv).
    { pose proof (items_rel_get _ _ _ k HFacc) as Hget.
      destruct (dict_get k ritems) as [old|] eqn:Hold;
        destruct (dict_get k acc) as [told|] eqn:Htold; try contradiction.
      - rewrite (represents_is_dict _ _ _ _ Hget), (represents_is_dict _ _ _ _ Hvi).
        destruct (isinstance_dict told && isinstance_dict tv) eqn:Eboth.
        + destruct told as [ | | | | | |trb]; try discriminate.
          destruct tv as [ | | | | | |tvo]; try discriminate.
          pose proof (wf_dict_get _ _ _ Hwacc Htold) as Hwrb.
          pose proof (depth_dict_get _ _ _ Htold) as Hdrb.
          destruct (Hok trb old value hi fuel Hwrb Hwt) as (r' & h2 & Hm & Hfill);
            [eapply represents_weaken; [|exact Hget]; easy | exact Hvi | reflexivity | lia |].
          apply filling_dict_done in Hfill as [Hsub2 Hrep].
          exists (VRef r'), h2. split; [exact Hm|]. split; [exact Hsub2|].
          split; [exact Hrep|]. split.
          * apply merge_into_wf; assumption.
          * pose proof (merge_into_depth (JDict tvo) trb) as Hdm.
            change (DeepMerge.merged_value (Some (JDict trb)) (JDict tvo))
              with (JDict (DeepMerge.merge_into trb (JDict tvo))). lia.
        + rewrite merged_value_overlay by exact Eboth.
          destruct (deepcopy_spec tv value hi fuel Hwt Hvi) as (c & h2 & Hc & Hsub2 & Hrep & _);
            [lia|].
          exists c, h2. repeat split; assumption.
      - rewrite merged_value_overlay by reflexivity.
        destruct (deepcopy_spec tv value hi fuel Hwt Hvi) as (c & h2 & Hc & Hsub2 & Hrep & _);
          [lia|].
        exists c, h2. repeat split; assumption. }
    rewrite Hnv. cbn.
    destruct (store_step h r hi h2 acc k _ nv Hinv Hsub2 Hrep) as (h3 & Hst & Hinv3).
    rewrite Hst. apply (IH Hwf Hd okvs' h3 _ HF' Hinv3).
    + now apply wf_dict_set.
    + pose proof (depth_dict_set k (DeepMerge.merged_value (dict_get k acc) tv) acc). lia.
Qed.

Lemma deep_merge_spec overlay : merge_ok overlay.
Proof.
  induction overlay as [ | | | | | |okts IH] using json_ind;
    intros base vb vo h fuel Hwb Hwo Hb Ho Hdict Hfuel; try discriminate.
  destruct fuel as [|fuel]; [lia|]. cbn [_deep_merge].
  destruct (deepcopy_spec (JDict base) vb h fuel Hwb Hb) as (v' & h1 & Hc & Hsub1 & _ & Hfill);
    [lia|].
  destruct (Hfill base eq_refl) as (r & -> & Hfill1). clear Hfill.
  rewrite Hc. cbn.
  inversion Ho as [ | | | | | |ol kts' okvs _ Hol HF]; subst.
  rewrite (lookup_weaken _ _ _ _ Hol Hsub1).
  apply wf_dict_iff in Hwo as [_ Hwo].
  destruct (merge_items_loop h r fuel okts IH Hwo) with (okvs := okvs) (hi := h1) (acc := base)
    as (h' & Hloop & Hfill'); try assumption.
  - apply depth_dict_items_lt. lia.
  - lia.
  - rewrite Hloop. cbn. now exists r, h'.
Qed.

(** C1. [_deep_merge(base, overlay)] returns a new dict: the value of the
    call stands for the tree in which every key of [overlay] holds the
    recursive merge when [base] has the key and both values are dicts, and
    the overlay value otherwise, and every other key holds what [base]
    held; no object reached from the result existed before the call (the
    values taken from [overlay] and [base] are copies, not aliases); no
    object that existed before the call has changed, so that [base] and
    [overlay] stand for the same trees after it. *)
Theorem deep_merge_returns_new_dict
  (h : heap) (b o : pyval) (base overlay : dict) (fuel : nat) :
  DeepMerge.wf_json (JDict base) = true ->
  DeepMerge.wf_json (JDict overlay) = true ->
  represents h anywhere (JDict base) b ->
  represents h anywhere (JDict overlay) o ->
  Nat.max (depth (JDict base)) (depth (JDict overlay)) < fuel ->
  exists r h',
    _deep_merge fuel b o h = Some (VRef r, h') /\
    represents h' anywhere (JDict (DeepMerge._deep_merge base overlay)) (VRef r) /\
    (forall key,
       dict_get key (DeepMerge._deep_merge base overlay) =
       match dict_get key overlay with
       | Some value =>
           Some match dict_get key base, value with
                | Some (JDict rb), JDict vo => JDict (DeepMerge._deep_merge rb vo)
                | _, _ => value
                end
       | None => dict_get key base
       end) /\
    (forall l, reaches h' (VRef r) l -> h !! l = None) /\
    (forall l x, h !! l = Some x -> h' !! l = Some x) /\
    represents h' anywhere (JDict base) b /\
    represents h' anywhere (JDict overlay) o.
Proof.
  intros Hwb Hwo Hb Ho Hfuel.
  destruct (deep_merge_spec (JDict overlay) base b o h fuel Hwb Hwo Hb Ho eq_refl Hfuel)
    as (r & h' & Hrun & Hfill).
  apply filling_dict_done in Hfill as [Hsub Hrep].
  exists r, h'. split; [exact Hrun|]. split; [|split; [|split; [|split; [|split]]]].
  - eapply represents_weaken; [|exact Hrep]. easy.
  - intros key. apply DeepMergeFacts.deep_merge_get. now apply wf_dict_iff in Hwo as [Hnd _].
  - intros l Hl. now destruct (represents_reaches _ _ _ _ Hl _ Hrep).
  - intros l x Hx. exact (lookup_weaken _ _ _ _ Hx Hsub).
  - exact (represents_mono _ _ _ _ _ Hsub Hb).
  - exact (represents_mono _ _ _ _ _ Hsub Ho).
Qed.

(** The two dicts of [example_heap] and the trees they stand for. *)
Lemma example_base_represented :
  represents example_heap anywhere (JDict example_base) (VRef 1%positive).
Proof.
  repeat (first [ eapply rep_dict; [exact I | reflexivity |]
                | eapply rep_list; [exact I | reflexivity |]
                | apply List.Forall2_cons | apply List.Forall2_nil
                | split; [reflexivity|] | constructor ]).
Qed.

Lemma example_overlay_represented :
  represents example_heap anywhere (JDict example_overlay) (VRef 4%positive).
Proof.
  repeat (first [ eapply rep_dict; [exact I | reflexivity |]
                | eapply rep_list; [exact I | reflexivity |]
                | apply List.Forall2_cons | apply List.Forall2_nil
                | split; [reflexivity|] | constructor ]).
Qed.

(** The theorem at the two dicts of [example_heap]. *)
Lemma deep_merge_returns_new_dict_example :
  exists r h',
    _deep_merge 4 (VRef 1%positive) (VRef 4%positive) example_heap = Some (VRef r, h') /\
    represents h' anywhere
      (JDict (DeepMerge._deep_merge example_base example_overlay)) (VRef r) /\
    (forall l, reaches h' (VRef r) l -> example_heap !! l = None) /\
    (forall l x, example_heap !! l = Some x -> h' !! l = Some x).
Proof.
  destruct (deep_merge_returns_new_dict example_heap (VRef 1%positive) (VRef 4%positive)
              example_base example_overlay 4)
    as (r & h' & Hrun & Hrep & _ & Hnew & Hold & _).
  - reflexivity.
  - reflexivity.
  - exact example_base_represented.
  - exact example_overlay_represented.
  - cbn. lia.
  - exists r, h'. repeat split; assumption.
Defined.

End MergeHeapFacts.

(** ** The check of the script paths *)

Module HooksPathsFacts.
Import HooksPaths.

(** *** Commands with a token, and the command of whitespace *)

(** The script that [check_command] looks at is [script_token] of the
    tokens, where there is a token. *)
Lemma check_command_script fs s :
  split s <> [] ->
  check_command fs (JStr s) =
  (found ← stat_answer (path_exists fs (script_token (split s)));
   if negb (found : bool) then
     Ok ["Hook script not found: " +:+ path_text fs (script_token (split s))]
   else
     is_file ← stat_answer (path_is_file fs (script_token (split s)));
     if negb (is_file : bool) then
       Ok ["Hook path is not a file: " +:+ path_text fs (script_token (split s))]
     else Ok []).
Proof.
  intros Hne. unfold check_command, script_token.
  destruct (split s) as [|t1 [|t2 rest]]; [congruence | reflexivity |].
  destruct (str_in t1 ["python3"; "python"; "node"]); reflexivity.
Qed.

Lemma check_command_token fs s :
  split s <> [] -> examinable fs (script_token (split s)) ->
  check_command fs (JStr s) = Ok (script_errors fs (script_token (split s))).
Proof.
  intros Hne Hex. rewrite (check_command_script fs s Hne). unfold script_errors.
  destruct Hex as [-> | [-> Hfile]]; [reflexivity|].
  cbn. destruct (path_is_file fs (script_token (split s))) as [[|]|];
    [reflexivity | reflexivity | now destruct Hfile].
Qed.

(** Where [exists()] raises, the check of the command raises. *)
Lemma check_command_unreachable fs s :
  split s <> [] -> path_exists fs (script_token (split s)) = None ->
  check_command fs (JStr s) = Raise OSError.
Proof.
  intros Hne Hnone. rewrite (check_command_script fs s Hne). now rewrite Hnone.
Qed.

Lemma check_hook_errors fs hook_type i hook :
  command_has_token fs hook ->
  check_hook fs hook_type i hook = Ok (hook_errors fs hook_type i hook).
Proof.
  destruct hook as [ | | | | | |h]; try (intros _; reflexivity).
  unfold command_has_token, check_hook, hook_errors.
  destruct (dict_get "command" h) as [c|]; [|intros _; reflexivity].
  destruct c as [ |b|n|x|s|l|d]; intros H; try (rewrite H; reflexivity).
  cbn [py_truthy]. destruct (String.eqb_spec s "") as [->|Hs]; [reflexivity|].
  cbn [negb]. destruct H as [-> | [Hne Hex]]; [now destruct Hs|].
  now apply check_command_token.
Qed.

Lemma check_hook_list_errors fs hook_type l : forall i errors,
  (forall hook, In hook l -> command_has_token fs hook) ->
  check_hook_list fs hook_type i l errors
  = Ok (errors ++ hook_list_errors fs hook_type i l)%list.
Proof.
  induction l as [|hook rest IH]; intros i errors Hall.
  - cbn. now rewrite app_nil_r.
  - cbn [check_hook_list hook_list_errors].
    rewrite (check_hook_errors fs hook_type i hook (Hall _ (in_eq _ _))).
    cbn [mbind result_bind]. rewrite IH.
    + now rewrite <- List.app_assoc.
    + intros h Hin. apply Hall. now apply in_cons.
Qed.

Lemma check_hook_types_errors fs items : forall errors,
  (forall hook_type l hook,
     In (hook_type, JList l) items -> In hook l -> command_has_token fs hook) ->
  check_hook_types fs items errors = Ok (errors ++ config_errors fs items)%list.
Proof.
  induction items as [|[hook_type hook_list] rest IH]; intros errors Hall.
  - cbn. now rewrite app_nil_r.
  - assert (forall ht l hook, In (ht, JList l) rest -> In hook l -> command_has_token fs hook)
      as Hrest by (intros ht l hook Hin; apply (Hall ht); now apply in_cons).
    cbn [check_hook_types config_errors flat_map].
    destruct hook_list as [ | | | | |l| ];
      try (rewrite (IH _ Hrest); now rewrite <- List.app_assoc).
    rewrite (check_hook_list_errors fs hook_type l 0 errors).
    + cbn [mbind result_bind]. rewrite (IH _ Hrest). now rewrite <- List.app_assoc.
    + intros hook Hin. exact (Hall hook_type l hook (in_eq _ _) Hin).
Qed.

(** An error of an entry is an error of its list, and of the
    configuration. *)
Lemma hook_list_errors_In fs hook_type hook e l : forall i,
  In hook l -> (forall j, In e (hook_errors fs hook_type j hook)) ->
  In e (hook_list_errors fs hook_type i l).
Proof.
  induction l as [|h rest IH]; intros i Hin He; [destruct Hin|].
  cbn [hook_list_errors]. apply in_or_app.
  destruct Hin as [-> | Hin]; [left; apply He | right; now apply IH].
Qed.

Lemma config_errors_In fs hook_type l hook e items :
  In (hook_type, JList l) items -> In hook l ->
  (forall j, In e (hook_errors fs hook_type j hook)) ->
  In e (config_errors fs items).
Proof.
  intros Hitems Hhook He. unfold config_errors. apply in_flat_map.
  exists (hook_type, JList l). split; [exact Hitems|].
  now apply (hook_list_errors_In fs hook_type hook).
Qed.

(** C9, with the file system taken into account.  There is a hooks
    configuration, valid for [_validate_hooks_config], on which
    [validate_hooks_paths] raises [IndexError]: its command of three
    spaces is true in the emptiness test and splits into no token.  For a
    hook entry whose command is a string with at least one token, and
    whose script path the file system answers for, the check of the entry
    returns: it reports a script path that does not exist, or that is no
    file, as one error string, and nothing otherwise.  And on a
    configuration all of whose commands are such, [validate_hooks_paths]
    returns the errors of all entries in the order of the configuration,
    with [True] exactly when there is none; so a script that does not
    exist is among the errors, and the answer is [False]. *)
Theorem validate_hooks_paths_blank_command :
  (HooksFormat._validate_hooks_config blank_command_config = true /\
   py_truthy (JStr "   ") = true /\ split "   " = [] /\
   forall fs, validate_hooks_paths fs (JDict blank_command_config) = Raise IndexError) /\
  (forall fs hook_type i h s,
     dict_get "command" h = Some (JStr s) -> split s <> [] ->
     examinable fs (script_token (split s)) ->
     check_hook fs hook_type i (JDict h) =
     Ok (match path_exists fs (script_token (split s)) with
         | Some true =>
             match path_is_file fs (script_token (split s)) with
             | Some false =>
                 ["Hook path is not a file: " +:+ path_text fs (script_token (split s))]
             | _ => []
             end
         | _ => ["Hook script not found: " +:+ path_text fs (script_token (split s))]
         end)) /\
  (forall fs items,
     (forall hook_type l hook,
        In (hook_type, JList l) items -> In hook l -> command_has_token fs hook) ->
     validate_hooks_paths fs (JDict items)
     = Ok (match config_errors fs items with [] => true | _ => false end,
           config_errors fs items) /\
     forall hook_type l h s,
       In (hook_type, JList l) items -> In (JDict h) l ->
       dict_get "command" h = Some (JStr s) -> split s <> [] ->
       path_exists fs (script_token (split s)) = Some false ->
       In ("Hook script not found: " +:+ path_text fs (script_token (split s)))
          (config_errors fs items) /\
       validate_hooks_paths fs (JDict items) = Ok (false, config_errors fs items)).
Proof.
  split; [|split].
  - repeat split; reflexivity.
  - intros fs hook_type i h s Hc Hne Hex.
    rewrite check_hook_errors.
    + unfold hook_errors. rewrite Hc.
      destruct (String.eqb_spec s "") as [->|Hs]; [now destruct Hne | reflexivity].
    + unfold command_has_token. rewrite Hc. right. now split.
  - intros fs items Hall.
    assert (validate_hooks_paths fs (JDict items)
            = Ok (match config_errors fs items with [] => true | _ => false end,
                  config_errors fs items)) as Hrun.
    { unfold validate_hooks_paths.
      destruct items as [|item rest]; [reflexivity|]. cbn [py_truthy negb].
      now rewrite (check_hook_types_errors fs (item :: rest) [] Hall). }
    split; [exact Hrun|].
    intros hook_type l h s Hitems Hhook Hc Hne Hmissing.
    assert (In ("Hook script not found: " +:+ path_text fs (script_token (split s)))
               (config_errors fs items)) as Hin.
    { apply (config_errors_In fs hook_type l (JDict h)); [exact Hitems | exact Hhook |].
      intros j. unfold hook_errors. rewrite Hc.
      destruct (String.eqb_spec s "") as [->|Hs]; [now destruct Hne|].
      unfold script_errors. rewrite Hmissing. now left. }
    split; [exact Hin|]. rewrite Hrun.
    destruct (config_errors fs items); [destruct Hin | reflexivity].
Qed.

(** The check of an entry, at a command that runs a script that is not
    there. *)
Lemma validate_hooks_paths_blank_command_example :
  check_hook example_pathlib "preToolUse" 0
    (JDict [("matcher", JStr ".*"); ("command", JStr "python3 /opt/hooks/absent.py --fast")])
  = Ok ["Hook script not found: /opt/hooks/absent.py"].
Proof.
  destruct validate_hooks_paths_blank_command as (_ & Hentry & _).
  rewrite (Hentry example_pathlib "preToolUse" 0%nat
             [("matcher", JStr ".*"); ("command", JStr "python3 /opt/hooks/absent.py --fast")]
             "python3 /opt/hooks/absent.py --fast").
  - reflexivity.
  - reflexivity.
  - discriminate.
  - now left.
Defined.

(** A command with a token on which the check is not total: the
    configuration is in the valid format, its command names a script
    under a directory that cannot be searched, [exists()] raises
    [OSError], and so does [validate_hooks_paths]. *)
Lemma validate_hooks_paths_raises_on_unreachable_script :
  HooksFormat._validate_hooks_config locked_script_config = true /\
  split "python3 /root/hooks/check.py" = ["python3"; "/root/hooks/check.py"] /\
  path_exists example_locked_pathlib "/root/hooks/check.py" = None /\
  check_hook example_locked_pathlib "preToolUse" 0
    (JDict [("matcher", JStr ".*"); ("command", JStr "python3 /root/hooks/check.py")])
  = Raise OSError /\
  validate_hooks_paths example_locked_pathlib (JDict locked_script_config) = Raise OSError.
Proof. repeat split; vm_compute; reflexivity. Qed.

End HooksPathsFacts.

(** ** Restoring a backup *)

Module BackupsFacts.
Import Backups.

Section RestoreFacts.

Variable json_loads : string -> option json.
Variable io : faults.

(** A backup that is missing: [False], and nothing has changed. *)
Lemma restore_missing stamp backup_name d :
  backup_dir d !! backup_name = None ->
  restore_backup json_loads io stamp backup_name d = (Ok false, d).
Proof. intros H. unfold restore_backup. now rewrite H. Qed.

(** A backup that is text and that the parser rejects: [False], and nothing
    has changed. *)
Lemma restore_rejected_text stamp backup_name f d :
  backup_dir d !! backup_name = Some (EFile f) ->
  utf8_valid (content f) = true ->
  json_loads (content f) = None ->
  restore_backup json_loads io stamp backup_name d = (Ok false, d).
Proof.
  intros H Hv Hj. unfold restore_backup, restore_try, read_text.
  now rewrite H, Hv, Hj.
Qed.

(** A backup whose bytes are not UTF-8: the [UnicodeDecodeError] of
    [f.read()] is none of the two classes of the [except] clause, and
    leaves [restore_backup]. *)
Lemma restore_undecodable stamp backup_name f d :
  backup_dir d !! backup_name = Some (EFile f) ->
  utf8_valid (content f) = false ->
  restore_backup json_loads io stamp backup_name d = (Raise UnicodeDecodeError, d).
Proof.
  intros H Hv. unfold restore_backup, restore_try, read_text.
  now rewrite H, Hv.
Qed.

(** A restore that succeeds has parsed the backup, has backed up the
    settings file that was there, and has not written the settings file
    before. *)
Lemma restore_success stamp backup_name d d' :
  restore_backup json_loads io stamp backup_name d = (Ok true, d') ->
  exists f v g,
    backup_dir d !! backup_name = Some (EFile f) /\
    utf8_valid (content f) = true /\ json_loads (content f) = Some v /\
    settings_file d' = Some g /\
    match settings_file d with
    | Some s =>
        backup_dir d' = backup_dir (_cleanup_old_backups io 10 (copy_settings stamp s d)) /\
        backup_dir d' !! backup_name = Some (EFile g)
    | None => backup_dir d' = backup_dir d /\ g = f
    end.
Proof.
  unfold restore_backup, restore_try, read_text.
  destruct (backup_dir d !! backup_name) as [[f|m]|] eqn:He; try discriminate.
  destruct (utf8_valid (content f)) eqn:Hv; [|discriminate].
  destruct (json_loads (content f)) as [v|] eqn:Hj; [|discriminate].
  unfold _create_settings_backup, copy_over_settings.
  destruct (settings_file d) as [s|] eqn:Hs.
  - destruct (backup_fails io); [discriminate|].
    destruct (backup_dir (_cleanup_old_backups io 10 (copy_settings stamp s d)) !! backup_name)
      as [[g|m]|] eqn:Hg; try discriminate.
    destruct (settings_write io); try discriminate;
      intros [= <-]; exists f, v, g; cbn; repeat split; assumption.
  - rewrite He.
    destruct (settings_write io); try discriminate;
      intros [= <-]; exists f, v, f; cbn; repeat split; assumption.
Qed.

End RestoreFacts.

(** The copy that precedes the overwrite: after it the backup directory
    holds the settings file under the name of the time of the call. *)
Lemma copy_settings_has_backup stamp s d :
  (forall m, backup_dir d !! backup_name_at stamp <> Some (EDir m)) ->
  backup_dir (copy_settings stamp s d) !! backup_name_at stamp = Some (EFile s).
Proof.
  intros Hnd. unfold copy_settings, copy_to_backup. cbn [backup_dir].
  destruct (backup_dir d !! backup_name_at stamp) as [[f|m]|] eqn:E.
  - apply lookup_insert_eq.
  - now destruct (Hnd m).
  - apply lookup_insert_eq.
Qed.

(** C3, where the code departs from it.  On a backup file whose bytes are
    not UTF-8 (and so are not JSON), [restore_backup] does not return
    [False]: it raises [UnicodeDecodeError], whatever the parser, the
    time of the call and what the file system refuses.  The live settings
    file is unchanged. *)
Theorem restore_backup_raises_on_undecodable_backup
  (json_loads : string -> option json) (io : faults) (stamp : string) :
  utf8_valid (String (ascii_of_nat 255) EmptyString) = false /\
  restore_backup json_loads io stamp corrupted_backup_name corrupted_disk
  = (Raise UnicodeDecodeError, corrupted_disk) /\
  caught_by_restore UnicodeDecodeError = false.
Proof.
  split; [reflexivity|]. split; [|reflexivity].
  apply (restore_undecodable json_loads io stamp corrupted_backup_name
           {| content := String (ascii_of_nat 255) EmptyString; mtime := 100 |});
    reflexivity.
Qed.

End BackupsFacts.

(** ** The interceptor *)

Module InterceptorFacts.
Import Interceptor.

(** *** Reasoning about runs *)

Lemma wp_bind {A B} (m : M A) (k : A -> M B) st Q :
  wp m st (fun r st1 =>
             match r with
             | Return a => wp (k a) st1 Q
             | Raised e => Q (Raised e) st1
             | SysExit n => Q (SysExit n) st1
             end) ->
  wp (m ≫= k) st Q.
Proof.
  unfold wp, mbind, M_bind. destruct (m st) as [[a|e|n] st1]; exact (fun H => H).
Qed.

Lemma wp_conseq {A} (m : M A) st (Q Q' : outcome A -> state -> Prop) :
  wp m st Q -> (forall r st', Q r st' -> Q' r st') -> wp m st Q'.
Proof. unfold wp. destruct (m st). auto. Qed.

Lemma logs_extend_refl reached l : logs_extend reached l l.
Proof. exists []. split; [now rewrite app_nil_r | intros []]. Qed.

Lemma logs_extend_trans reached l1 l2 l3 :
  logs_extend reached l1 l2 -> logs_extend reached l2 l3 -> logs_extend reached l1 l3.
Proof.
  intros (e1 & H1 & R1) (e2 & H2 & R2). exists (e1 ++ e2)%list. split.
  - rewrite H2, H1. now rewrite List.app_assoc.
  - intros Hin. apply in_app_or in Hin as [Hin|Hin]; auto.
Qed.

Lemma logs_extend_snoc reached l l' x :
  x <> Log_operations_threshold ->
  logs_extend reached l l' -> logs_extend reached l (l' ++ [x])%list.
Proof.
  intros Hx H. eapply logs_extend_trans; [exact H|].
  exists [x]. split; [reflexivity|]. intros [E|[]]. congruence.
Qed.

Lemma quiet_ret {A} (a : A) : quiet (mret a).
Proof.
  intros st. unfold wp; cbn. repeat split; [apply logs_extend_refl | discriminate].
Qed.

Lemma quiet_lift {A} (r : result A) : quiet (lift r).
Proof.
  intros st. unfold wp; cbn. repeat split; [apply logs_extend_refl|].
  destruct r; discriminate.
Qed.

Lemma quiet_logger l : l <> Log_operations_threshold -> quiet (logger l).
Proof.
  intros Hl st. unfold wp; cbn. repeat split; [|discriminate].
  apply logs_extend_snoc; [exact Hl | apply logs_extend_refl].
Qed.

Lemma quiet_bind {A B} (m : M A) (k : A -> M B) :
  quiet m -> (forall a, quiet (k a)) -> quiet (m ≫= k).
Proof.
  intros Hm Hk st. apply wp_bind. eapply wp_conseq; [apply Hm|].
  intros r st1 (Hs & Hl & Ho & Hlog & Hx). destruct r as [a|e|n].
  - eapply wp_conseq; [apply Hk|]. intros r2 st2 (Hs2 & Hl2 & Ho2 & Hlog2 & Hx2).
    rewrite Hs in *. repeat split; try congruence.
    eapply logs_extend_trans; eassumption.
  - repeat split; try assumption. discriminate.
  - now destruct (Hx n).
Qed.

(** The branch of [should_auto_activate] on the operations threshold. *)
Lemma quiet_threshold {A} (k1 k2 : M A) :
  quiet k1 -> quiet k2 ->
  quiet (s ← get_stats;
         if (threshold_filesystem_operations <=? total_operations s)%Z
         then _ ← logger Log_operations_threshold; k1
         else k2).
Proof.
  intros H1 H2 st. unfold wp, mbind, M_bind, get_stats.
  destruct (threshold_filesystem_operations <=? total_operations (session_stats st))%Z eqn:E.
  - apply Z.leb_le in E. cbn.
    pose proof (H1 {| session_stats := session_stats st; log_file := log_file st;
                      logger_calls := logger_calls st ++ [Log_operations_threshold];
                      stdout := stdout st |}) as H.
    unfold wp in H. destruct (k1 _) as [r st'].
    cbn in H. destruct H as (Hs & Hl & Ho & (extra & Hex & _) & Hx).
    repeat split; try assumption.
    exists (Log_operations_threshold :: extra). split; [|intros _; exact E].
    rewrite Hex, <- List.app_assoc. reflexivity.
  - apply (H2 st).
Qed.

Lemma quiet_try_except {A} (body : M A) caught handler :
  quiet body -> (forall e, quiet (handler e)) -> quiet (try_except body caught handler).
Proof.
  intros Hb Hh st. unfold wp, try_except. pose proof (Hb st) as H. unfold wp in H.
  destruct (body st) as [[a|e|n] st1]; try exact H.
  destruct (caught e); [|exact H].
  destruct H as (Hs & Hl & Ho & Hlog & _).
  pose proof (Hh e st1) as H'. unfold wp in H'. destruct (handler e st1) as [r st2].
  destruct H' as (Hs2 & Hl2 & Ho2 & Hlog2 & Hx2). rewrite Hs in *.
  repeat split; try congruence. eapply logs_extend_trans; eassumption.
Qed.

Ltac quiet_steps :=
  repeat first
    [ apply quiet_ret
    | apply quiet_lift
    | apply quiet_logger; discriminate
    | apply quiet_threshold
    | apply quiet_try_except; [| intros ?]
    | apply quiet_bind; [| intros ?]
    | match goal with |- quiet (if ?c then _ else _) => destruct c end
    | match goal with |- quiet (match ?x with _ => _ end) => destruct x end ].

Lemma should_auto_activate_quiet env tool_name tool_input flags :
  quiet (should_auto_activate env tool_name tool_input flags).
Proof. unfold should_auto_activate. quiet_steps. Qed.

Lemma should_intercept_quiet env tool_name tool_input flags :
  quiet (should_intercept env tool_name tool_input flags).
Proof.
  unfold should_intercept. quiet_steps.
Qed.

Lemma validate_morph_server_quiet env : quiet (validate_morph_server env).
Proof. unfold validate_morph_server. quiet_steps. Qed.

Lemma detect_token_overflow_risk_quiet env tool_name tool_input :
  quiet (detect_token_overflow_risk env tool_name tool_input).
Proof. unfold detect_token_overflow_risk, overflow_risk_test. quiet_steps. Qed.

Lemma should_use_safe_directory_tree_quiet env tool_name tool_input :
  quiet (should_use_safe_directory_tree env tool_name tool_input).
Proof.
  unfold should_use_safe_directory_tree. quiet_steps.
  apply detect_token_overflow_risk_quiet.
Qed.

(** *** The values that reach an f-string *)

(** When the safety check answers [True], the path of the call went through
    [os.path.exists]: it is a string or an integer, and [py_str] is exact
    on it. *)
Lemma safe_path_is_pathlike env tool_name tool_input st st' :
  should_use_safe_directory_tree env tool_name tool_input st = (Return true, st') ->
  exists path p, py_get tool_input "path" (JStr "") = Ok path /\ to_pathlike path = Ok p.
Proof.
  unfold should_use_safe_directory_tree, detect_token_overflow_risk.
  cbv [mbind M_bind lift mret M_ret].
  destruct (py_in_keys tool_name (dict_keys MORPH_TOOLS_WITH_FALLBACK)) as [[|]|]; cbn [negb];
    try discriminate.
  destruct (py_eq_str tool_name "mcp__filesystem-with-morph__directory_tree"); try discriminate.
  destruct (py_get tool_input "path" (JStr "")) as [path|]; try discriminate.
  intros H. exists path.
  destruct (to_pathlike path) as [p|e] eqn:Ep; [now exists p|].
  exfalso. revert H. unfold try_except, overflow_risk_test, os_path_exists.
  cbv [mbind M_bind lift mret M_ret result_bind]. rewrite Ep.
  assert (caught_OSError e = false) as ->; [|discriminate].
  destruct path; cbn in Ep; try (injection Ep as <-; reflexivity); try discriminate.
  destruct ((- 2 ^ 31 <=? n)%Z && (n <? 2 ^ 31)%Z); [discriminate|].
  injection Ep as <-; reflexivity.
Qed.

(** A tool name that [should_intercept] accepts is a string. *)
Lemma intercepted_tool_is_str env tool_name tool_input flags st st' :
  should_intercept env tool_name tool_input flags st = (Return true, st') ->
  exists s, tool_name = JStr s.
Proof.
  destruct tool_name as [ | | | |s| | ]; try (intros _; now eexists);
    unfold should_intercept, should_auto_activate;
    cbv [mbind M_bind lift mret M_ret logger]; cbn [py_in_keys negb];
    destruct (str_in "--no-morph" flags); try discriminate;
    destruct (str_in "--morph-only" flags); try discriminate;
    destruct (str_in "--morph" flags || str_in "--morphllm" flags); discriminate.
Qed.

(** *** What one call does to the counters *)

Lemma safe_block_response_shape tool_name path chunked_call d :
  safe_block_response tool_name path chunked_call = Ok d -> decision_block d.
Proof.
  unfold safe_block_response.
  destruct (py_getitem chunked_call "tool"); [|discriminate].
  destruct (py_getitem chunked_call "input"); [|discriminate].
  destruct (py_get chunked_call "chunked_strategy" (JDict [])); [|discriminate].
  intros [= <-]. eexists. split; [reflexivity|]. split; reflexivity.
Qed.

Lemma morph_block_response_shape tool_name morph_call d :
  morph_block_response tool_name morph_call = Ok d -> decision_block d.
Proof.
  unfold morph_block_response.
  destruct (py_getitem morph_call "tool"); [|discriminate].
  destruct (py_getitem morph_call "input"); [|discriminate].
  intros [= <-]. eexists. split; [reflexivity|]. split; reflexivity.
Qed.

Lemma fallback_response_shape tool_name tool_input :
  decision_allow (create_fallback_response tool_name tool_input).
Proof. eexists. split; [reflexivity|]. split; reflexivity. Qed.

Lemma native_response_shape : decision_allow (JDict [("action", JStr "allow")]).
Proof. eexists. split; [reflexivity|]. split; reflexivity. Qed.

Ltac unfold_ops :=
  cbv [lift log_interception incr_total incr_morph incr_native incr_fallback
       get_stats set_stats logger append_log mbind M_bind mret M_ret];
  cbn [session_stats log_file logger_calls stdout total_operations morph_operations
       native_operations fallback_operations start_time].

(** The operations on the state, run; where the context says whether the
    log can be written, the call of [log_interception] is run too. *)
Ltac run_ops :=
  unfold_ops;
  try (match goal with
       | H : log_fails ?env = _ |- context [log_fails ?env] => rewrite H
       end; unfold_ops).

Lemma process_tool_call_post env tool_name tool_input st :
  wp (process_tool_call env tool_name tool_input) st (fun r st' =>
    total_operations (session_stats st') = total_operations (session_stats st) + 1 /\
    stdout st' = stdout st /\
    logs_extend (threshold_filesystem_operations <= total_operations (session_stats st) + 1)
      (logger_calls st) (logger_calls st') /\
    match r with
    | Return d => one_counter (session_stats st) (session_stats st') d
    | Raised _ => True
    | SysExit _ => False
    end).
Proof.
  unfold wp, process_tool_call.
  cbv [mbind M_bind incr_total get_stats set_stats].
  set (st1 := {| session_stats := _ |}).
  pose proof (should_use_safe_directory_tree_quiet env tool_name tool_input st1) as H1.
  unfold wp in H1.
  destruct (log_fails env) eqn:Hfail.
  { (* the log cannot be written: the call raises where it logs *)
    destruct (should_use_safe_directory_tree env tool_name tool_input st1) as [[safe|e|n] st2];
      destruct H1 as (Hs1 & Hl1 & Ho1 & Hlog1 & Hx1);
      [ | | now destruct (Hx1 n)]; subst st1;
      cbn [session_stats log_file logger_calls stdout total_operations] in *.
    2:{ rewrite Hs1. cbn. repeat split; assumption. }
    destruct safe.
    - run_ops. destruct (py_get tool_input "path" (JStr "")) as [path|e]; run_ops;
        rewrite Hs1; cbn; repeat split; try assumption.
      apply logs_extend_snoc; [discriminate | assumption].
    - pose proof (should_intercept_quiet env tool_name tool_input (parse_flags env) st2) as H2.
      unfold wp in H2.
      destruct (should_intercept env tool_name tool_input (parse_flags env) st2)
        as [[intercept|e|n] st3];
        destruct H2 as (Hs2 & Hl2 & Ho2 & Hlog2 & Hx2); [ | | now destruct (Hx2 n)];
        rewrite Hs1 in Hs2, Hlog2; cbn [total_operations] in Hlog2;
        pose proof (logs_extend_trans _ _ _ _ Hlog1 Hlog2) as Hlog.
      2:{ rewrite Hs2. cbn. repeat split; [congruence | assumption]. }
      destruct intercept.
      + pose proof (validate_morph_server_quiet env st3) as H3. unfold wp in H3.
        destruct (validate_morph_server env st3) as [[available|e|n] st4];
          destruct H3 as (Hs3 & Hl3 & Ho3 & Hlog3 & Hx3); [ | | now destruct (Hx3 n)];
          rewrite Hs2 in Hs3, Hlog3; cbn [total_operations] in Hlog3;
          pose proof (logs_extend_trans _ _ _ _ Hlog Hlog3) as Hlog'.
        2:{ rewrite Hs3. cbn. repeat split; [congruence | assumption]. }
        destruct available; cbn [negb].
        * run_ops.
          destruct (create_morph_tool_call env tool_name tool_input) as [mc|e].
          2:{ rewrite Hs3. cbn. repeat split; [congruence | assumption]. }
          destruct (py_getitem mc "tool") as [tool|e].
          2:{ rewrite Hs3. cbn. repeat split; [congruence | assumption]. }
          run_ops. rewrite Hs3. cbn. repeat split; [congruence|].
          apply logs_extend_snoc; [discriminate | assumption].
        * run_ops. rewrite Hs3. cbn. repeat split; [congruence|].
          apply logs_extend_snoc; [discriminate | assumption].
      + run_ops. rewrite Hs2. cbn. repeat split; [congruence|].
        apply logs_extend_snoc; [discriminate | assumption]. }
  destruct (should_use_safe_directory_tree env tool_name tool_input st1) as [[safe|e|n] st2];
    destruct H1 as (Hs1 & Hl1 & Ho1 & Hlog1 & Hx1);
    [ | | now destruct (Hx1 n)]; subst st1;
    cbn [session_stats log_file logger_calls stdout total_operations] in *.
  2:{ rewrite Hs1. cbn. repeat split; assumption. }
  destruct safe.
  - (* the safety override *)
    run_ops. destruct (py_get tool_input "path" (JStr "")) as [path|e].
    2:{ rewrite Hs1. cbn. repeat split; assumption. }
    run_ops.
    destruct (create_chunked_directory_sequence tool_input) as [cc|e]; run_ops;
      [destruct (safe_block_response tool_name path cc) as [d|e] eqn:Ed; run_ops|];
      rewrite Hs1; cbn;
      (split; [reflexivity|]); (split; [assumption|]);
      (split; [apply logs_extend_snoc; [discriminate | assumption]|]); try exact I.
    left. split; [exact (safe_block_response_shape _ _ _ _ Ed)|]. now repeat split.
  - pose proof (should_intercept_quiet env tool_name tool_input (parse_flags env) st2) as H2.
    unfold wp in H2.
    destruct (should_intercept env tool_name tool_input (parse_flags env) st2)
      as [[intercept|e|n] st3];
      destruct H2 as (Hs2 & Hl2 & Ho2 & Hlog2 & Hx2); [ | | now destruct (Hx2 n)];
      rewrite Hs1 in Hs2, Hlog2; cbn [total_operations] in Hlog2;
      pose proof (logs_extend_trans _ _ _ _ Hlog1 Hlog2) as Hlog.
    2:{ rewrite Hs2. cbn. repeat split; [congruence | assumption]. }
    destruct intercept.
    + pose proof (validate_morph_server_quiet env st3) as H3. unfold wp in H3.
      destruct (validate_morph_server env st3) as [[available|e|n] st4];
        destruct H3 as (Hs3 & Hl3 & Ho3 & Hlog3 & Hx3); [ | | now destruct (Hx3 n)];
        rewrite Hs2 in Hs3, Hlog3; cbn [total_operations] in Hlog3;
        pose proof (logs_extend_trans _ _ _ _ Hlog Hlog3) as Hlog'.
      2:{ rewrite Hs3. cbn. repeat split; [congruence | assumption]. }
      destruct available; cbn [negb].
      * (* routed to the backend *)
        run_ops.
        destruct (create_morph_tool_call env tool_name tool_input) as [mc|e].
        2:{ rewrite Hs3. cbn. repeat split; [congruence | assumption]. }
        destruct (py_getitem mc "tool") as [tool|e].
        2:{ rewrite Hs3. cbn. repeat split; [congruence | assumption]. }
        run_ops.
        destruct (morph_block_response tool_name mc) as [d|e] eqn:Ed; run_ops;
          rewrite Hs3; cbn;
          (split; [reflexivity|]); (split; [congruence|]);
          (split; [apply logs_extend_snoc; [discriminate | assumption]|]); try exact I.
        left. split; [exact (morph_block_response_shape _ _ _ Ed)|]. now repeat split.
      * (* the backend is unavailable *)
        run_ops. rewrite Hs3. cbn.
        split; [reflexivity|]. split; [congruence|].
        split; [apply logs_extend_snoc; [discriminate | assumption]|].
        right. right. split; [apply fallback_response_shape|]. now repeat split.
    + (* the native tool proceeds *)
      run_ops. rewrite Hs2. cbn.
      split; [reflexivity|]. split; [congruence|].
      split; [apply logs_extend_snoc; [discriminate | assumption]|].
      right. left. split; [apply native_response_shape|]. now repeat split.
Qed.

(** *** The safety override on a directory with a denylisted child *)

Lemma has_problematic_child name names :
  In name problematic_subdirs -> In name names ->
  existsb (fun subdir => str_in subdir names) problematic_subdirs = true.
Proof.
  intros Hp Hn. apply existsb_exists. exists name. split; [exact Hp|].
  apply HooksFormatFacts.str_in_In. exact Hn.
Qed.

Lemma safe_directory_tree_on_denylisted env items p size entries name st :
  dict_get "path" items = Some (JStr p) ->
  stat env (PathStr p) = Some (Dir size (Some entries)) ->
  In name problematic_subdirs -> In name (map fst entries) ->
  should_use_safe_directory_tree env (JStr directory_tree_tool) (JDict items) st =
  (Return true, add_logger_calls [risk_line entries] st).
Proof.
  intros Hpath Hstat Hp Hn.
  pose proof (has_problematic_child _ _ Hp Hn) as Hhas.
  unfold should_use_safe_directory_tree, detect_token_overflow_risk, overflow_risk_test,
    try_except, risk_line.
  cbv [mbind M_bind lift mret M_ret].
  cbn [py_in_keys py_eq_str py_get to_pathlike]. rewrite Hpath.
  change (str_in directory_tree_tool (dict_keys MORPH_TOOLS_WITH_FALLBACK)) with true.
  change (directory_tree_tool =? "mcp__filesystem-with-morph__directory_tree")%string with true.
  cbn [negb]. unfold os_path_exists, os_path_isdir, os_listdir.
  cbn [to_pathlike mbind result_bind]. rewrite Hstat.
  assert (count_subdirs (JStr p) entries = Ok (Z.of_nat (length (List.filter snd entries))))
    as ->.
  { destruct entries; [destruct Hn | reflexivity]. }
  rewrite Hhas.
  destruct (8 <=? Z.of_nat (length (List.filter snd entries)))%Z; reflexivity.
Qed.

(** C5, where the interception log can be written.  A call of the
    directory-tree tool on a directory that has a child on the denylist is
    blocked, whatever the flags are (the flags of a call are
    [parse_flags env]): the decision is [block] with exit code 2, the
    alternative call is [list_directory] on the same path, the call counts
    as a morph operation, and the decision is taken by the safety check
    alone, which runs before [should_intercept]. *)
Theorem safety_override_blocks env items p size entries name st :
  log_fails env = false ->
  dict_get "path" items = Some (JStr p) ->
  stat env (PathStr p) = Some (Dir size (Some entries)) ->
  In name problematic_subdirs -> In name (map fst entries) ->
  exists d st',
    process_tool_call env (JStr directory_tree_tool) (JDict items) st = (Return d, st') /\
    decision_block d /\
    py_get d "alternative_tool" JNull = Ok (JStr list_directory_tool) /\
    py_get d "alternative_input" JNull = Ok (JDict [("path", JStr p)]) /\
    morph_operations (session_stats st') = morph_operations (session_stats st) + 1 /\
    logger_calls st' = (logger_calls st ++ [risk_line entries; Log_interception])%list.
Proof.
  intros Hlogs Hpath Hstat Hp Hn.
  unfold process_tool_call. cbv [mbind M_bind incr_total get_stats set_stats].
  rewrite (safe_directory_tree_on_denylisted env items p size entries name _ Hpath Hstat Hp Hn).
  run_ops. cbn [py_get]. rewrite Hpath. run_ops.
  unfold create_chunked_directory_sequence. cbn [py_get mbind result_bind]. rewrite Hpath.
  eexists _, _. split; [reflexivity|].
  split; [eexists; split; [reflexivity|]; split; reflexivity|].
  split; [reflexivity|]. split; [reflexivity|]. split; [reflexivity|].
  cbn. now rewrite <- List.app_assoc.
Qed.

(** The theorem with the flag [--no-morph] present. *)
Lemma safety_override_blocks_example :
  In "--no-morph" (parse_flags example_no_morph_env) /\
  exists d st',
    process_tool_call example_no_morph_env (JStr directory_tree_tool)
      (JDict [("path", JStr "/repo")]) (start example_no_morph_env) = (Return d, st') /\
    decision_block d /\
    py_get d "alternative_tool" JNull = Ok (JStr list_directory_tool).
Proof.
  split; [cbn; now left|].
  destruct (safety_override_blocks example_no_morph_env [("path", JStr "/repo")] "/repo"
              4096 [("node_modules", true); ("package.json", false)] "node_modules"
              (start example_no_morph_env))
    as (d & st' & Hrun & Hblock & Htool & _).
  - reflexivity.
  - reflexivity.
  - reflexivity.
  - cbn. tauto.
  - cbn. tauto.
  - exists d, st'. repeat split; assumption.
Defined.

(** The same call where the log cannot be written: [--no-morph] is set,
    the directory holds [node_modules], and [process_tool_call] raises the
    [OSError] of [log_interception] instead of returning a decision; the
    process prints the [allow] decision of its handler and exits with
    status 0. *)
Lemma safety_override_needs_the_log :
  In "--no-morph" (parse_flags example_unwritable_log_env) /\
  stat example_unwritable_log_env (PathStr "/repo")
  = Some (Dir 4096 (Some [("node_modules", true); ("package.json", false)])) /\
  fst (process_tool_call example_unwritable_log_env (JStr directory_tree_tool)
         (JDict [("path", JStr "/repo")]) (start example_unwritable_log_env))
  = Raised OSError /\
  fst (run (fun _ => Some example_tree_call) example_unwritable_log_env) = Exit 0 /\
  stdout (snd (run (fun _ => Some example_tree_call) example_unwritable_log_env))
  = [error_response OSError] /\
  decision_allow (error_response OSError) /\
  ~ decision_block (error_response OSError).
Proof.
  split; [cbn; now left|]. split; [reflexivity|]. split; [vm_compute; reflexivity|].
  split; [vm_compute; reflexivity|]. split; [vm_compute; reflexivity|].
  split; [eexists; split; [reflexivity|]; split; reflexivity|].
  intros (items & E & Haction & _). injection E as <-. discriminate.
Qed.

(** *** Sequences of calls on one interceptor *)

Lemma one_counter_sum s s' d :
  total_operations s' = total_operations s + 1 ->
  one_counter s s' d ->
  sum_counters s = total_operations s ->
  sum_counters s' = total_operations s'.
Proof.
  unfold sum_counters.
  intros Ht [(_ & Hm & Hn & Hf) | [(_ & Hm & Hn & Hf) | (_ & Hm & Hn & Hf)]] Hsum; lia.
Qed.

(** C6, for the calls that return.  In a sequence of calls on one
    interceptor that each return a decision, every call adds one to
    [total_operations] and one to exactly one of [native_operations],
    [morph_operations] and [fallback_operations]; so, when the three
    counters sum to [total_operations] before the sequence (as they do in a
    new interceptor), they do after every call of it. *)
Theorem returning_calls_are_counted calls : forall st trace,
  run_calls calls st = Some trace ->
  counted (session_stats st) trace /\
  (sum_counters (session_stats st) = total_operations (session_stats st) ->
   Forall (fun dst => sum_counters (session_stats (snd dst)) =
                      total_operations (session_stats (snd dst))) trace).
Proof.
  induction calls as [|[[env tool_name] tool_input] rest IH]; intros st trace Hrun.
  - injection Hrun as <-. split; [exact I | constructor].
  - cbn [run_calls] in Hrun.
    pose proof (process_tool_call_post env tool_name tool_input st) as Hpost.
    unfold wp in Hpost.
    destruct (process_tool_call env tool_name tool_input st) as [[d|e|n] st'];
      try discriminate.
    destruct Hpost as (Ht & _ & _ & Hone).
    destruct (run_calls rest st') as [trace'|] eqn:Hrest; [|discriminate].
    injection Hrun as <-. destruct (IH _ _ Hrest) as [Hc Hsum].
    split; [cbn; auto|]. intros H0.
    pose proof (one_counter_sum _ _ _ Ht Hone H0) as H1.
    constructor; [exact H1 | exact (Hsum H1)].
Qed.

(** Two calls on a new interceptor: a native [Read], then a directory tree
    that the safety override blocks. *)
Lemma returning_calls_are_counted_example :
  exists trace,
    run_calls
      [(example_bare_env, JStr "Read", JDict [("file_path", JStr "a.py")]);
       (example_no_morph_env, JStr directory_tree_tool, JDict [("path", JStr "/repo")])]
      (start example_bare_env) = Some trace /\
    counted (session_stats (start example_bare_env)) trace /\
    Forall (fun dst => sum_counters (session_stats (snd dst)) =
                       total_operations (session_stats (snd dst))) trace /\
    map (fun dst => total_operations (session_stats (snd dst))) trace = [1; 2].
Proof.
  eexists. split; [vm_compute; reflexivity|].
  match goal with
  | |- counted _ ?t /\ _ =>
      destruct (returning_calls_are_counted
                  [(example_bare_env, JStr "Read", JDict [("file_path", JStr "a.py")]);
                   (example_no_morph_env, JStr directory_tree_tool,
                    JDict [("path", JStr "/repo")])]
                  (start example_bare_env) t) as [Hc Hs]
  end.
  - vm_compute. reflexivity.
  - split; [exact Hc|]. split; [apply Hs; reflexivity | reflexivity].
Defined.

(** A call that raises leaves the counters apart: [total_operations] is 1
    and none of the three other counters has moved.  The tool input
    [{"edits": 5}] makes [len] raise [TypeError] in [is_batch_operation]. *)
Lemma raising_call_is_not_counted :
  let run := process_tool_call example_bare_env (JStr "MultiEdit")
               (JDict [("edits", JInt 5)]) (start example_bare_env) in
  fst run = Raised TypeError /\
  total_operations (session_stats (start example_bare_env)) = 0 /\
  total_operations (session_stats (snd run)) = 1 /\
  sum_counters (session_stats (snd run)) = 0 /\
  sum_counters (session_stats (snd run)) <> total_operations (session_stats (snd run)).
Proof. vm_compute. repeat split; discriminate. Qed.

(** *** A batch edit in a new session *)

Lemma validate_morph_server_returns env st :
  validate_morph_server env st =
  (Return (server_available env), add_logger_calls [server_line env] st).
Proof.
  unfold validate_morph_server, server_available, server_line.
  destruct (env_set env "MORPH_API_KEY"); cbn [negb andb]; [|reflexivity].
  destruct (mcp_list env) as [[rc out]|]; [|reflexivity].
  destruct ((rc =? 0)%Z && str_contains "filesystem-with-morph" out); reflexivity.
Qed.

Lemma should_intercept_batch_edit env items edits st :
  dict_get "edits" items = Some (JList edits) ->
  (threshold_batch_edits <= Z.of_nat (length edits))%Z ->
  (total_operations (session_stats st) < threshold_filesystem_operations)%Z ->
  should_intercept env (JStr "MultiEdit") (JDict items) [] st =
  (Return true, add_logger_calls [Log_batch_edit; Log_auto_activated] st).
Proof.
  intros Hedits Hlen Htotal.
  unfold should_intercept, should_auto_activate.
  cbn [str_in existsb orb]. cbv [mbind M_bind lift mret M_ret get_stats].
  change (py_in_keys (JStr "MultiEdit") (dict_keys TOOL_MAPPING)) with (Ok true).
  cbn [negb].
  apply Z.leb_gt in Htotal. rewrite Htotal.
  change (py_eq_str (JStr "MultiEdit") "MultiEdit") with true. cbv iota.
  unfold is_batch_operation. cbn [py_contains py_get mbind result_bind].
  unfold dict_has. rewrite Hedits. cbn [py_len]. cbv [mbind result_bind].
  apply Z.leb_le in Hlen. rewrite Hlen.
  unfold logger, add_logger_calls. cbn. now rewrite <- List.app_assoc.
Qed.

(** C7, with the backend taken into account, where the interception log
    can be written.  A [MultiEdit] call with 4 edits, no flags, in a
    session that has seen fewer than 4 calls, is intercepted by
    auto-activation through the batch-edit threshold; the decision is
    [block], routed to the edit tool of the backend, when
    [validate_morph_server] finds the backend available, and [allow] in
    fallback mode when it does not. *)
Theorem batch_edit_auto_activates env items edits st :
  log_fails env = false ->
  dict_get "edits" items = Some (JList edits) ->
  length edits = 4%nat ->
  parse_flags env = [] ->
  (total_operations (session_stats st) + 1 < threshold_filesystem_operations)%Z ->
  exists d st',
    process_tool_call env (JStr "MultiEdit") (JDict items) st = (Return d, st') /\
    logger_calls st' =
      (logger_calls st ++ [Log_batch_edit; Log_auto_activated; server_line env;
                           Log_interception])%list /\
    if server_available env
    then decision_block d /\
         py_get d "alternative_tool" JNull = Ok (JStr edit_file_tool) /\
         morph_operations (session_stats st') = morph_operations (session_stats st) + 1
    else decision_allow d /\
         py_get d "fallback_mode" JNull = Ok (JBool true) /\
         fallback_operations (session_stats st') = fallback_operations (session_stats st) + 1.
Proof.
  intros Hlogs Hedits Hlen Hflags Htotal.
  unfold process_tool_call. rewrite Hflags.
  cbv [mbind M_bind incr_total get_stats set_stats].
  unfold should_use_safe_directory_tree at 1. cbv [mbind M_bind lift mret M_ret].
  change (py_in_keys (JStr "MultiEdit") (dict_keys MORPH_TOOLS_WITH_FALLBACK)) with (Ok false).
  cbn [negb].
  rewrite (should_intercept_batch_edit env items edits _ Hedits);
    [ | rewrite Hlen; unfold threshold_batch_edits; lia | exact Htotal ].
  rewrite validate_morph_server_returns.
  destruct (server_available env); cbn [negb].
  - unfold create_morph_tool_call, map_tool_parameters, map_multiedit_parameters.
    cbn [mapped_tool_name py_in_list py_eq_str py_get mbind result_bind].
    change (dict_get "MultiEdit" TOOL_MAPPING) with (Some edit_file_tool).
    change (str_in "MultiEdit" ["Read"; "Write"; "Edit"; "LS"; "Glob"]) with false.
    change ("MultiEdit" =? "MultiEdit")%string with true. cbv iota.
    rewrite Hedits. run_ops.
    eexists _, _. split; [reflexivity|]. split.
    + cbn. rewrite <- !List.app_assoc. reflexivity.
    + split; [eexists; split; [reflexivity|]; split; reflexivity|].
      split; reflexivity.
  - run_ops. eexists _, _. split; [reflexivity|]. split.
    + cbn. rewrite <- !List.app_assoc. reflexivity.
    + split; [apply fallback_response_shape|]. split; reflexivity.
Qed.

(** The theorem where the backend is available: the call is blocked. *)
Lemma batch_edit_auto_activates_example :
  exists d st',
    process_tool_call example_backend_env (JStr "MultiEdit") four_edits
      (start example_backend_env) = (Return d, st') /\
    decision_block d /\
    py_get d "alternative_tool" JNull = Ok (JStr edit_file_tool).
Proof.
  destruct (batch_edit_auto_activates example_backend_env
              [("file_path", JStr "a.py");
               ("edits", JList [JDict [("old_string", JStr "a"); ("new_string", JStr "b")];
                                JDict [("old_string", JStr "c"); ("new_string", JStr "d")];
                                JDict [("old_string", JStr "e"); ("new_string", JStr "f")];
                                JDict [("old_string", JStr "g"); ("new_string", JStr "h")]])]
              [JDict [("old_string", JStr "a"); ("new_string", JStr "b")];
               JDict [("old_string", JStr "c"); ("new_string", JStr "d")];
               JDict [("old_string", JStr "e"); ("new_string", JStr "f")];
               JDict [("old_string", JStr "g"); ("new_string", JStr "h")]]
              (start example_backend_env))
    as (d & st' & Hrun & _ & Hd).
  - reflexivity.
  - reflexivity.
  - reflexivity.
  - reflexivity.
  - cbn. unfold threshold_filesystem_operations. lia.
  - change (server_available example_backend_env) with true in Hd.
    destruct Hd as (Hblock & Htool & _). exists d, st'. repeat split; assumption.
Defined.

(** Without the credential the same call is allowed: no flags, a new
    session, 4 edits, and the decision is the fallback response.  And with
    the backend available and a log that cannot be written, the same call
    returns no decision: it raises the [OSError] of [log_interception]. *)
Lemma batch_edit_without_backend_is_allowed :
  (parse_flags example_bare_env = [] /\
   total_operations (session_stats (start example_bare_env)) = 0 /\
   fst (process_tool_call example_bare_env (JStr "MultiEdit") four_edits
          (start example_bare_env))
   = Return (create_fallback_response (JStr "MultiEdit") four_edits) /\
   decision_allow (create_fallback_response (JStr "MultiEdit") four_edits) /\
   ~ decision_block (create_fallback_response (JStr "MultiEdit") four_edits)) /\
  (parse_flags example_backend_unwritable_env = [] /\
   total_operations (session_stats (start example_backend_unwritable_env)) = 0 /\
   server_available example_backend_unwritable_env = true /\
   fst (process_tool_call example_backend_unwritable_env (JStr "MultiEdit") four_edits
          (start example_backend_unwritable_env))
   = Raised OSError).
Proof.
  split.
  - split; [reflexivity|]. split; [reflexivity|]. split; [vm_compute; reflexivity|].
    split; [apply fallback_response_shape|].
    intros (items & E & Haction & _). injection E as <-. discriminate.
  - split; [reflexivity|]. split; [reflexivity|]. split; [reflexivity|].
    vm_compute; reflexivity.
Qed.

(** *** The hook process fails open *)

Section ProcessFacts.

Variable json_loads : string -> option json.

Lemma no_threshold_line (l : list logline) :
  logs_extend (threshold_filesystem_operations <= 0 + 1)%Z [] l ->
  ~ In Log_operations_threshold l.
Proof.
  intros (extra & -> & Hreach) Hin. specialize (Hreach Hin).
  unfold threshold_filesystem_operations in Hreach. lia.
Qed.

(** The [try] block of [main] never returns: it ends in [sys.exit] after
    one decision was printed, or it raises before anything was printed. *)
Lemma main_try_post env :
  wp (main_try json_loads env) (start env) (fun r st =>
    ~ In Log_operations_threshold (logger_calls st) /\
    (0 <= total_operations (session_stats st) <= 1)%Z /\
    match r with
    | Return _ => False
    | Raised e => stdout st = []
    | SysExit n =>
        exists d, stdout st = [d] /\
          ((decision_allow d /\ n = 0) \/ (decision_block d /\ n = 2))
    end).
Proof.
  unfold wp, main_try. cbv [mbind M_bind lift].
  assert (forall e : exn, ~ In Log_operations_threshold (logger_calls (start env)) /\
            (0 <= total_operations (session_stats (start env)) <= 1)%Z /\
            stdout (start env) = []) as Hstart.
  { intros _. cbn. repeat split; [tauto | lia | lia]. }
  destruct (match argv env with
            | _ :: data :: _ =>
                match json_loads data with
                | Some v => Ok v
                | None => Raise JSONDecodeError
                end
            | _ => Raise IndexError
            end) as [tool_call_data|e]; [|exact (Hstart e)].
  destruct (py_get tool_call_data "tool_name" (JStr "")) as [tool_name|e]; [|exact (Hstart e)].
  destruct (py_get tool_call_data "tool_input" (JDict [])) as [tool_input|e];
    [|exact (Hstart e)].
  cbv [set_stats].
  set (st0 := {| session_stats := new_stats env; log_file := _ |}).
  pose proof (process_tool_call_post env tool_name tool_input st0) as Hpost.
  unfold wp in Hpost.
  destruct (process_tool_call env tool_name tool_input st0) as [[d|e|n] st'];
    destruct Hpost as (Ht & Ho & Hlog & Hone); [ | | destruct Hone]; subst st0;
    cbn [start session_stats new_stats total_operations stdout logger_calls] in *.
  - assert (exists items, d = JDict items /\
              ((decision_allow d /\ dict_get "exit_code" items = None) \/
               (decision_block d /\ dict_get "exit_code" items = Some (JInt 2)))) as Hd.
    { destruct Hone as [(Hb & _) | [(Ha & _) | (Ha & _)]].
      - pose proof Hb as (items & E & _ & Hx). exists items. split; [exact E|]. now right.
      - pose proof Ha as (items & E & _ & Hx). exists items. split; [exact E|]. now left.
      - pose proof Ha as (items & E & _ & Hx). exists items. split; [exact E|]. now left. }
    destruct Hd as (items & -> & Hd).
    cbv [print sys_exit]. cbn [py_get session_stats logger_calls stdout].
    split; [exact (no_threshold_line _ Hlog)|]. split; [lia|].
    exists (JDict items). rewrite Ho. split; [reflexivity|].
    destruct Hd as [[Ha Hx] | [Hb Hx]]; rewrite Hx; [left | right]; now split.
  - split; [exact (no_threshold_line _ Hlog)|]. split; [lia | exact Ho].
Qed.

Lemma action_allow_not_block d : decision_block d -> ~ action_is "allow" d.
Proof.
  intros (items & -> & Ha & _) (items' & E & Ha'). injection E as <-.
  rewrite Ha in Ha'. discriminate.
Qed.

Lemma action_block_not_allow d : decision_allow d -> ~ action_is "block" d.
Proof.
  intros (items & -> & Ha & _) (items' & E & Ha'). injection E as <-.
  rewrite Ha in Ha'. discriminate.
Qed.

Lemma main_post env :
  wp (main json_loads env) (start env) (fun r st =>
    ~ In Log_operations_threshold (logger_calls st) /\
    (0 <= total_operations (session_stats st) <= 1)%Z /\
    exists n, r = SysExit n /\
      (forall d, In d (stdout st) ->
         (action_is "allow" d -> n = 0) /\ (action_is "block" d -> n = 2)) /\
      ((2 <= length (argv env))%nat ->
       forall e st1, main_try json_loads env (start env) = (Raised e, st1) ->
         stdout st = [error_response e] /\ n = 0)).
Proof.
  unfold wp, main. destruct (length (argv env) <? 2)%nat eqn:Hargs.
  - apply Nat.ltb_lt in Hargs.
    cbv [mbind M_bind print sys_exit start].
    cbn [session_stats log_file logger_calls stdout exit_status new_stats total_operations app].
    split; [tauto|]. split; [lia|]. exists 1. split; [reflexivity|]. split.
    + intros d [<-|[]]. split; intros (items & E & Ha); injection E as <-; discriminate.
    + intros Hlen. lia.
  - pose proof (main_try_post env) as Htry. unfold wp, try_except in *.
    destruct (main_try json_loads env (start env)) as [[u|e|n] st1];
      destruct Htry as (Hlog & Htot & Hr); [destruct Hr | | ].
    + cbv [mbind M_bind logger print sys_exit].
      cbn [session_stats log_file logger_calls stdout exit_status].
      split; [|split; [exact Htot|]].
      * intros Hin. apply in_app_or in Hin as [Hin|[E|[]]]; [tauto | discriminate].
      * exists 0. split; [reflexivity|]. rewrite Hr. split.
        -- intros d [<-|[]]. split; [reflexivity|].
           intros (items & E & Ha). injection E as <-. discriminate.
        -- intros _ e' st1' [= <- <-]. now split.
    + destruct Hr as (d & Hout & Hd). split; [exact Hlog|]. split; [exact Htot|].
      exists n. split; [reflexivity|]. split.
      * rewrite Hout. intros d' [<-|[]].
        destruct Hd as [[Ha ->] | [Hb ->]].
        -- split; [reflexivity|]. intros Hblock. now destruct (action_block_not_allow _ Ha).
        -- split; [|reflexivity]. intros Hallow. now destruct (action_allow_not_block _ Hb).
      * intros _ e st1' [=].
Qed.

End ProcessFacts.



(** *** The operations threshold in a run of the process *)

(** C10. In a run of the hook process the operations-count branch of
    auto-activation never fires: the interceptor of the run starts with
    [total_operations] at 0, a call brings it to 1, the value that
    [should_auto_activate] compares with the threshold of 5, and the line
    that the branch logs is not among the logger calls of the run. *)
Theorem operations_threshold_never_fires (json_loads : string -> option json)
  (env : environ) :
  total_operations (new_stats env) = 0 /\
  (forall tool_name tool_input,
     total_operations
       (session_stats (snd (process_tool_call env tool_name tool_input (start env)))) = 1) /\
  (total_operations (session_stats (snd (run json_loads env)))
   < threshold_filesystem_operations)%Z /\
  ~ In Log_operations_threshold (logger_calls (snd (run json_loads env))).
Proof.
  split; [reflexivity|]. split.
  - intros tool_name tool_input.
    pose proof (process_tool_call_post env tool_name tool_input (start env)) as H.
    unfold wp in H. destruct (process_tool_call _ _ _ _) as [r st'].
    destruct H as (Ht & _). exact Ht.
  - pose proof (main_post json_loads env) as H. unfold wp in H. unfold run.
    destruct (main json_loads env (start env)) as [r st].
    destruct H as (Hlog & Htot & n & -> & _). cbn [snd].
    split; [unfold threshold_filesystem_operations; lia | exact Hlog].
Qed.

End InterceptorFacts.

(** ** Laws of the deep merge *)

Module DeepMergeLaws.
Import DeepMerge MergeExamples.

(** *** The keys of a merge *)

Lemma dict_has_set {V} k k' (v : V) d :
  dict_has k' (dict_set k v d) = String.eqb k' k || dict_has k' d.
Proof.
  unfold dict_has. destruct (String.eqb_spec k' k) as [->|Hne].
  - now rewrite DeepMergeFacts.dict_get_set_eq.
  - rewrite DeepMergeFacts.dict_get_set_ne by congruence. reflexivity.
Qed.

(** X1. A merge loses no key and keeps the order of the base: the keys of
    [_deep_merge base overlay] are the keys of [base] in their order,
    followed by the keys of [overlay] that [base] does not have, in the
    order of [overlay]. *)
Theorem deep_merge_keeps_every_key overlay : forall base,
  NoDup (dict_keys overlay) ->
  dict_keys (_deep_merge base overlay) =
  (dict_keys base ++ List.filter (fun k => negb (dict_has k base)) (dict_keys overlay))%list.
Proof.
  induction overlay as [|[k v] rest IH]; intros base Hnd.
  - cbn. now rewrite app_nil_r.
  - cbn [dict_keys map fst] in Hnd. apply NoDup_cons in Hnd as [Hk Hnd].
    rewrite DeepMergeFacts.deep_merge_cons, IH by exact Hnd.
    rewrite MergeHeapFacts.dict_keys_set. cbn [dict_keys map fst List.filter].
    change (dict_keys rest) with (map fst rest).
    assert (List.filter (fun k0 => negb (dict_has k0
              (dict_set k (merged_value (dict_get k base) v) base))) (map fst rest)
            = List.filter (fun k0 => negb (dict_has k0 base)
                                     && negb (String.eqb k0 k)) (map fst rest)) as ->.
    { apply List.filter_ext. intros k0. rewrite dict_has_set.
      destruct (String.eqb k0 k), (dict_has k0 base); reflexivity. }
    assert (List.filter (fun k0 => negb (dict_has k0 base) && negb (String.eqb k0 k))
              (map fst rest)
            = List.filter (fun k0 => negb (dict_has k0 base)) (map fst rest)) as ->.
    { apply List.filter_ext_in. intros k0 Hin.
      destruct (String.eqb_spec k0 k) as [->|Hne]; [|now rewrite andb_true_r].
      exfalso. apply Hk. now apply list_elem_of_In. }
    destruct (dict_has k base); cbn [negb]; [reflexivity|].
    now rewrite <- app_assoc.
Qed.

(** *** Merging twice *)

Lemma dict_set_same {V} k (v : V) d : dict_get k d = Some v -> dict_set k v d = d.
Proof.
  induction d as [|[k0 v0] r IH]; cbn; [discriminate|].
  destruct (String.eqb_spec k k0) as [->|Hne].
  - now intros [= ->].
  - intros H. now rewrite IH.
Qed.

Lemma In_dict_get {V} k (v : V) d :
  NoDup (dict_keys d) -> In (k, v) d -> dict_get k d = Some v.
Proof.
  induction d as [|[k0 v0] r IH]; intros Hnd Hin; [destruct Hin|].
  cbn [dict_keys map fst] in Hnd. apply NoDup_cons in Hnd as [Hk0 Hnd]. cbn.
  destruct Hin as [[= -> ->] | Hin]; [now rewrite String.eqb_refl|].
  destruct (String.eqb_spec k k0) as [->|Hne]; [|now apply IH].
  exfalso. apply Hk0, list_elem_of_In. apply in_map_iff. now exists (k0, v).
Qed.

(** A loop that finds under each key what it would store leaves the
    result as it is. *)
Lemma merge_fixed items : forall result,
  (forall k v, In (k, v) items ->
     exists old, dict_get k result = Some old /\ merged_value (Some old) v = old) ->
  _deep_merge result items = result.
Proof.
  induction items as [|[k v] rest IH]; intros result H; [reflexivity|].
  rewrite DeepMergeFacts.deep_merge_cons.
  destruct (H k v (in_eq _ _)) as (old & Hold & Hfix).
  rewrite Hold, Hfix, (dict_set_same _ _ _ Hold).
  apply IH. intros k' v' Hin. apply H. now apply in_cons.
Qed.

Lemma merged_value_scalar old v :
  isinstance_dict v = false -> merged_value old v = v.
Proof.
  intros Hv. unfold merged_value. destruct old as [[ | | | | | |rb]|]; try reflexivity.
  destruct v; try reflexivity. discriminate.
Qed.

Lemma merge_twice_tree v :
  wf_json v = true ->
  forall overlay, v = JDict overlay ->
  forall base, _deep_merge (_deep_merge base overlay) overlay = _deep_merge base overlay.
Proof.
  induction v as [ | | | | | |d IH] using json_ind; intros Hwf overlay E base;
    try discriminate.
  injection E as <-. apply DeepMergeFacts.wf_json_dict in Hwf as Hd. destruct Hd as [Hnd Hsub].
  apply merge_fixed. intros k v Hin.
  pose proof (In_dict_get _ _ _ Hnd Hin) as Hget.
  rewrite DeepMergeFacts.deep_merge_get, Hget by exact Hnd.
  eexists. split; [reflexivity|].
  rewrite List.Forall_forall in IH. specialize (IH (k, v) Hin (Hsub _ _ Hget)). cbn [snd] in IH.
  destruct (isinstance_dict v) eqn:Hv.
  - destruct v as [ | | | | | |vo]; try discriminate.
    assert (NoDup (dict_keys vo)) as Hvo.
    { pose proof (Hsub _ _ Hget) as Hwv. now apply DeepMergeFacts.wf_json_dict in Hwv. }
    destruct (dict_get k base) as [[ | | | | | |rb]|]; cbn [merged_value]; f_equal;
      try (rewrite <- (DeepMergeFacts.deep_merge_from_prefix [] vo) at 1 3 by exact Hvo;
           now apply IH).
    now apply IH.
  - rewrite (merged_value_scalar (dict_get k base) v Hv). now apply merged_value_scalar.
Qed.

(** X2. Merging the same overlay a second time changes nothing:
    [_deep_merge (_deep_merge base overlay) overlay] is
    [_deep_merge base overlay]. *)
Theorem deep_merge_twice base overlay :
  wf_json (JDict overlay) = true ->
  _deep_merge (_deep_merge base overlay) overlay = _deep_merge base overlay.
Proof. intros Hwf. now apply (merge_twice_tree (JDict overlay)). Qed.

Lemma deep_merge_keeps_every_key_example :
  dict_keys (_deep_merge example_installed example_update) = ["theme"; "hooks"; "version"].
Proof.
  apply (deep_merge_keeps_every_key example_update example_installed).
  apply (bool_decide_eq_true_1 _). vm_compute; reflexivity.
Defined.

Lemma deep_merge_twice_example :
  _deep_merge (_deep_merge example_installed example_update) example_update
  = _deep_merge example_installed example_update.
Proof. apply (deep_merge_twice example_installed example_update). reflexivity. Defined.

End DeepMergeLaws.

(** ** Reading and updating the settings *)

Module SettingsFacts.
Import Backups Settings.

(** *** Key paths *)

Lemma split_dot_nonempty s : split_dot s <> [].
Proof.
  destruct s as [|c r]; cbn; [discriminate|].
  destruct (Ascii.eqb c "."); [discriminate|]. destruct (split_dot r); discriminate.
Qed.

Lemma walk_get_path keys : forall v,
  match DeepMerge.get_path keys v with
  | Some x => walk keys v = Ok x
  | None => exists e, walk keys v = Raise e /\ caught_KeyError_TypeError e = true
  end.
Proof.
  induction keys as [|key rest IH]; intros v; cbn; [reflexivity|].
  destruct v as [ | | | | | |d]; try (eexists; split; reflexivity).
  cbn. destruct (dict_get key d) as [x|]; [|eexists; split; reflexivity].
  cbn. apply IH.
Qed.

Lemma lookup_get_path loaded key_path default :
  lookup loaded key_path default =
  Ok (match DeepMerge.get_path (split_dot key_path) loaded with
      | Some v => v
      | None => default
      end).
Proof.
  unfold lookup. pose proof (walk_get_path (split_dot key_path) loaded) as H.
  destruct (DeepMerge.get_path (split_dot key_path) loaded) as [x|].
  - now rewrite H.
  - destruct H as (e & -> & ->). reflexivity.
Qed.

(** *** The merge on a loaded value *)

Lemma merge_iteration_dict b key value :
  merge_iteration (JDict b) key value =
  Ok (JDict (dict_set key (DeepMerge.merged_value (dict_get key b) value) b)).
Proof.
  unfold merge_iteration. cbn [py_contains mbind result_bind]. unfold dict_has.
  cbn [py_getitem]. destruct (dict_get key b); reflexivity.
Qed.

Lemma merge_iteration_other base key value :
  isinstance_dict base = false -> merge_iteration base key value = Raise TypeError.
Proof.
  intros H. unfold merge_iteration.
  destruct base as [ | | | |s|l|d]; try reflexivity; try discriminate; cbn.
  - destruct (str_contains key s); reflexivity.
  - destruct (existsb _ l); reflexivity.
Qed.

Lemma merge_loop_raise e overlay :
  fold_left (fun acc kv => res ← acc; merge_iteration res (fst kv) (snd kv))
            overlay (Raise e) = Raise e.
Proof. induction overlay as [|kv rest IH]; [reflexivity | exact IH]. Qed.

Lemma deep_merge_value_dict overlay : forall b,
  deep_merge_value (JDict b) overlay = Ok (JDict (DeepMerge._deep_merge b overlay)).
Proof.
  unfold deep_merge_value. induction overlay as [|[k v] rest IH]; intros b; [reflexivity|].
  cbn [fold_left mbind result_bind fst snd]. rewrite merge_iteration_dict, IH.
  now rewrite DeepMergeFacts.deep_merge_cons.
Qed.

Lemma deep_merge_value_other base overlay :
  isinstance_dict base = false -> overlay <> [] ->
  deep_merge_value base overlay = Raise TypeError.
Proof.
  intros Hb Ho. destruct overlay as [|[k v] rest]; [congruence|].
  unfold deep_merge_value. cbn [fold_left mbind result_bind fst snd].
  rewrite (merge_iteration_other _ _ _ Hb). apply merge_loop_raise.
Qed.

(** *** The dict of [set_setting] *)

Lemma modification_last k value : modification [k] value = Ok [(k, value)].
Proof. reflexivity. Qed.

Lemma modification_cons k rest value :
  rest <> [] ->
  modification (k :: rest) value =
  (inner ← modification rest value; Ok [(k, JDict inner)]).
Proof. destruct rest; [congruence | reflexivity]. Qed.

Lemma modification_ok keys value :
  keys <> [] -> exists m, modification keys value = Ok m.
Proof.
  induction keys as [|k rest IH]; [congruence|]. intros _.
  destruct (decide (rest = [])) as [->|Hne]; [eexists; reflexivity|].
  destruct (IH Hne) as (m & Hm). rewrite modification_cons, Hm by exact Hne.
  eexists; reflexivity.
Qed.

(** The dict has one key, the first of the path. *)
Lemma modification_head k rest value m :
  modification (k :: rest) value = Ok m -> exists x, m = [(k, x)].
Proof.
  destruct (decide (rest = [])) as [->|Hne].
  - intros [= <-]. now eexists.
  - rewrite modification_cons by exact Hne.
    destruct (modification rest value); cbn [mbind result_bind]; [|discriminate].
    intros [= <-]. now eexists.
Qed.



Lemma get_path_non_dict keys v :
  keys <> [] -> isinstance_dict v = false -> DeepMerge.get_path keys v = None.
Proof. destruct keys; [congruence|]. destruct v; try reflexivity. discriminate. Qed.



(** *** Deleting a key *)

Lemma dict_get_del_ne {V} k k' (d : list (string * V)) :
  k <> k' -> dict_get k' (dict_del k d) = dict_get k' d.
Proof.
  intros Hne. induction d as [|[k0 v0] r IH]; [reflexivity|]. cbn.
  destruct (String.eqb_spec k k0) as [->|Hk]; cbn.
  - destruct (String.eqb_spec k' k0); congruence.
  - now rewrite IH.
Qed.

Lemma dict_get_del_eq {V} k (d : list (string * V)) :
  NoDup (dict_keys d) -> dict_get k (dict_del k d) = None.
Proof.
  induction d as [|[k0 v0] r IH]; [reflexivity|]. cbn [dict_keys map fst].
  intros Hnd. apply NoDup_cons in Hnd as [Hk0 Hnd]. cbn.
  destruct (String.eqb_spec k k0) as [->|Hk].
  - apply DeepMergeFacts.dict_get_None_iff. now rewrite <- list_elem_of_In.
  - cbn. destruct (String.eqb_spec k k0); [contradiction|]. now apply IH.
Qed.

Lemma dict_set_set {V} k (v v' : V) d :
  dict_set k v (dict_set k v' d) = dict_set k v d.
Proof.
  induction d as [|[k0 v0] r IH]; cbn.
  - now rewrite String.eqb_refl.
  - destruct (String.eqb k k0) eqn:E; cbn.
    + now rewrite String.eqb_refl.
    + now rewrite E, IH.
Qed.

(** What [delete_at] answers and what it leaves, against the path as
    [get_setting] walks it. *)
Lemma delete_at_get_path keys : forall v,
  keys <> [] ->
  DeepMerge.wf_json v = true ->
  match DeepMerge.get_path keys v with
  | Some _ =>
      exists v', delete_at keys v = Ok (Some v') /\
        DeepMerge.get_path keys v' = None /\
        forall pre a b q k, keys = (pre ++ b :: k)%list -> a <> b ->
          DeepMerge.get_path (pre ++ a :: q) v' = DeepMerge.get_path (pre ++ a :: q) v
  | None =>
      delete_at keys v = Ok None \/
      exists e, delete_at keys v = Raise e /\ caught_KeyError_TypeError e = true
  end.
Proof.
  induction keys as [|key rest IH]; intros v Hne Hwf; [congruence|].
  destruct (decide (rest = [])) as [->|Hrest].
  - cbn [delete_at DeepMerge.get_path].
    destruct v as [ | | | |s|l|d]; try (right; eexists; split; reflexivity).
    + cbn. destruct (str_contains key s); [right; eexists; split; reflexivity | now left].
    + cbn. destruct (existsb _ l); [right; eexists; split; reflexivity | now left].
    + cbn [py_contains mbind result_bind]. unfold dict_has.
      destruct (dict_get key d) as [x|] eqn:Hx; [|now left].
      cbn [py_delitem]. unfold dict_has. rewrite Hx. cbn [mbind result_bind].
      apply DeepMergeFacts.wf_json_dict in Hwf as [Hnd _].
      eexists. split; [reflexivity|]. split.
      * cbn. now rewrite dict_get_del_eq.
      * intros pre a b q k Hk Hab. destruct pre as [|p pre].
        -- injection Hk as -> _. cbn. now rewrite dict_get_del_ne by congruence.
        -- destruct pre; discriminate.
  - assert (delete_at (key :: rest) v =
            (child ← py_getitem v key;
             r ← delete_at rest child;
             match r with
             | Some child' => c ← py_setitem v key child'; Ok (Some c)
             | None => Ok None
             end)) as -> by (destruct rest; [congruence | reflexivity]).
    cbn [DeepMerge.get_path].
    destruct v as [ | | | | | |d]; try (right; eexists; split; reflexivity).
    cbn [py_getitem]. destruct (dict_get key d) as [child|] eqn:Hchild;
      [|right; eexists; split; reflexivity].
    cbn [mbind result_bind].
    apply DeepMergeFacts.wf_json_dict in Hwf as [Hnd Hsub].
    specialize (IH child Hrest (Hsub _ _ Hchild)).
    destruct (DeepMerge.get_path rest child) as [x|].
    + destruct IH as (child' & -> & Hgone & Hframe). cbn [mbind result_bind py_setitem].
      eexists. split; [reflexivity|]. split.
      * cbn. now rewrite DeepMergeFacts.dict_get_set_eq.
      * intros pre a b q k Hk Hab. destruct pre as [|p pre].
        -- injection Hk as -> _. cbn.
           now rewrite DeepMergeFacts.dict_get_set_ne by congruence.
        -- injection Hk as -> Hk. cbn [app DeepMerge.get_path].
           rewrite DeepMergeFacts.dict_get_set_eq, Hchild. now apply (Hframe pre a b q k).
    + destruct IH as [-> | (e & -> & He)]; [now left|].
      right. eexists. split; [reflexivity | exact He].
Qed.

(** *** The format of a hooks configuration under updates *)

Lemma validate_forallb h :
  HooksFormat._validate_hooks_config h = forallb valid_item h.
Proof.
  induction h as [|[k v] r IH]; [reflexivity|].
  cbn [HooksFormat._validate_hooks_config forallb]. unfold valid_item at 1. cbn [fst snd].
  destruct (str_in k HooksFormat.valid_hook_types); cbn [negb andb]; [|reflexivity].
  destruct v; try reflexivity.
  destruct (HooksFormat.validate_hook_list elems); cbn [andb]; [exact IH | reflexivity].
Qed.

Lemma forallb_dict_set {V} (P : string * V -> bool) k v d :
  forallb P d = true -> forallb P (dict_set k v d) = P (k, v).
Proof.
  induction d as [|[k0 v0] r IH]; cbn; [now rewrite andb_true_r|].
  intros H. apply andb_true_iff in H as [H0 Hr].
  destruct (String.eqb k k0); cbn.
  - rewrite Hr. apply andb_true_r.
  - rewrite H0. now apply IH.
Qed.

Lemma forallb_dict_get {V} (P : string * V -> bool) k v d :
  forallb P d = true -> dict_get k d = Some v -> P (k, v) = true.
Proof.
  intros H Hget. apply DeepMergeFacts.dict_get_In in Hget.
  rewrite forallb_forall in H. exact (H _ Hget).
Qed.

Lemma forallb_dict_del {V} (P : string * V -> bool) k d :
  forallb P d = true -> forallb P (dict_del k d) = true.
Proof.
  induction d as [|[k0 v0] r IH]; cbn; [reflexivity|].
  intros H. apply andb_true_iff in H as [H0 Hr].
  destruct (String.eqb k k0); cbn; [exact Hr|]. rewrite H0. now apply IH.
Qed.

Lemma validate_hook_list_app l l' :
  HooksFormat.validate_hook_list (l ++ l') =
  HooksFormat.validate_hook_list l && HooksFormat.validate_hook_list l'.
Proof.
  induction l as [|hook rest IH]; [reflexivity|].
  cbn [app HooksFormat.validate_hook_list].
  destruct hook; try reflexivity.
  destruct (negb (dict_has "matcher" items) || negb (dict_has "command" items));
    [reflexivity|].
  destruct (dict_get "matcher" items) as [m|]; [|reflexivity].
  destruct (dict_get "command" items) as [c|]; [|reflexivity].
  destruct (negb (isinstance_str m) || negb (isinstance_str c)); [reflexivity | exact IH].
Qed.

Lemma existing_hook_list_valid h hook_type :
  forallb valid_item h = true ->
  HooksFormat.validate_hook_list (existing_hook_list h hook_type) = true.
Proof.
  intros Hh. unfold existing_hook_list.
  destruct (dict_get hook_type h) as [v|] eqn:Hv; [|reflexivity].
  pose proof (forallb_dict_get _ _ _ _ Hh Hv) as Hitem. unfold valid_item in Hitem.
  cbn [fst snd] in Hitem. apply andb_true_iff in Hitem as [_ Hitem].
  destruct v; try reflexivity. exact Hitem.
Qed.



(** *** The fields of a migration *)

Lemma nodup_dict_set {V} k (v : V) d :
  NoDup (dict_keys d) -> NoDup (dict_keys (dict_set k v d)).
Proof.
  intros Hnd. rewrite MergeHeapFacts.dict_keys_set. unfold dict_has.
  destruct (dict_get k d) eqn:Hk; [exact Hnd|].
  apply DeepMergeFacts.dict_get_None_iff in Hk. apply NoDup_app. repeat split.
  - exact Hnd.
  - intros x Hx Hx'. apply list_elem_of_singleton in Hx'. subst x.
    apply Hk. now apply list_elem_of_In.
  - apply NoDup_singleton.
Qed.

Lemma extract_fields_dict fields : forall settings acc,
  NoDup (dict_keys acc) ->
  exists data,
    extract_fields fields (JDict settings) acc = Ok data /\
    NoDup (dict_keys data) /\
    forall k, dict_get k data =
              if str_in k fields
              then match dict_get k settings with
                   | Some v => Some v
                   | None => dict_get k acc
                   end
              else dict_get k acc.
Proof.
  induction fields as [|field rest IH]; intros settings acc Hnd.
  - exists acc. now repeat split.
  - cbn [extract_fields py_contains mbind result_bind]. unfold dict_has.
    destruct (dict_get field settings) as [v|] eqn:Hv.
    + cbn [py_getitem]. rewrite Hv. cbn [mbind result_bind].
      destruct (IH settings (dict_set field v acc) (nodup_dict_set _ _ _ Hnd))
        as (data & -> & Hnd' & Hget).
      exists data. split; [reflexivity|]. split; [exact Hnd'|].
      intros k. rewrite Hget. unfold str_in. cbn [existsb].
      destruct (String.eqb_spec k field) as [->|Hne]; cbn [orb].
      * rewrite Hv, DeepMergeFacts.dict_get_set_eq. now destruct (existsb _ rest).
      * rewrite DeepMergeFacts.dict_get_set_ne by congruence. reflexivity.
    + destruct (IH settings acc Hnd) as (data & -> & Hnd' & Hget).
      exists data. split; [reflexivity|]. split; [exact Hnd'|].
      intros k. rewrite Hget. unfold str_in. cbn [existsb].
      destruct (String.eqb_spec k field) as [->|Hne]; cbn [orb]; [|reflexivity].
      rewrite Hv. now destruct (existsb _ rest).
Qed.

Lemma dict_get_filter {V} (P : string -> bool) k (d : list (string * V)) :
  dict_get k (List.filter (fun kv => P (fst kv)) d) = if P k then dict_get k d else None.
Proof.
  induction d as [|[k0 v0] r IH]; cbn; [now destruct (P k)|].
  destruct (P k0) eqn:E0; cbn; destruct (String.eqb_spec k k0) as [->|Hne].
  - now rewrite E0.
  - exact IH.
  - rewrite IH, E0. reflexivity.
  - exact IH.
Qed.

Lemma dict_get_nil_all {V} (d : list (string * V)) :
  (forall k, dict_get k d = None) -> d = [].
Proof.
  destruct d as [|[k v] r]; [reflexivity|]. intros H. specialize (H k).
  cbn in H. now rewrite String.eqb_refl in H.
Qed.

(** *** The order of keys *)

Lemma insert_item_keys kv items k :
  In k (dict_keys (insert_item kv items)) <-> k = fst kv \/ In k (dict_keys items).
Proof.
  induction items as [|kv' rest IH]; cbn; [intuition congruence|].
  destruct (String.leb (fst kv) (fst kv')); cbn; [intuition congruence|].
  rewrite IH. tauto.
Qed.

Lemma dict_get_insert_item k k' v' items :
  ~ In k' (dict_keys items) ->
  dict_get k (insert_item (k', v') items) =
  if String.eqb k k' then Some v' else dict_get k items.
Proof.
  induction items as [|[k0 v0] rest IH]; intros Hk'; cbn; [reflexivity|].
  destruct (String.leb k' k0); cbn; [reflexivity|].
  cbn in Hk'. rewrite IH by tauto.
  destruct (String.eqb_spec k k0) as [->|Hne]; [|reflexivity].
  destruct (String.eqb_spec k0 k') as [->|Hne']; [tauto | reflexivity].
Qed.

Lemma sorted_keys (d : dict) k :
  In k (dict_keys (fold_right (fun kv sorted =>
                                 insert_item (fst kv, Settings.sort_keys (snd kv)) sorted)
                              [] d))
  <-> In k (dict_keys d).
Proof.
  induction d as [|[k0 v0] rest IH]; cbn [fold_right]; [reflexivity|].
  rewrite insert_item_keys, IH. cbn. intuition congruence.
Qed.

Lemma dict_get_sort_keys (d : dict) k :
  NoDup (dict_keys d) ->
  dict_get k (fold_right (fun kv sorted =>
                            insert_item (fst kv, sort_keys (snd kv)) sorted) [] d)
  = option_map sort_keys (dict_get k d).
Proof.
  induction d as [|[k0 v0] rest IH]; intros Hnd; [reflexivity|].
  cbn [dict_keys map fst] in Hnd. apply NoDup_cons in Hnd as [Hk0 Hnd].
  cbn [fold_right fst snd]. rewrite dict_get_insert_item.
  - cbn [dict_get]. destruct (String.eqb k k0); [reflexivity | now apply IH].
  - rewrite sorted_keys. now rewrite <- list_elem_of_In.
Qed.

Lemma get_path_sort_keys keys : forall v,
  DeepMerge.wf_json v = true ->
  DeepMerge.get_path keys (sort_keys v) = option_map sort_keys (DeepMerge.get_path keys v).
Proof.
  induction keys as [|key rest IH]; intros v Hwf; [reflexivity|].
  destruct v as [ | | | | | |d]; try reflexivity.
  apply DeepMergeFacts.wf_json_dict in Hwf as [Hnd Hsub].
  cbn [sort_keys DeepMerge.get_path]. rewrite dict_get_sort_keys by exact Hnd.
  destruct (dict_get key d) as [x|] eqn:Hx; [|reflexivity].
  cbn [option_map]. apply IH. exact (Hsub _ _ Hx).
Qed.

Lemma sort_keys_is_dict v : isinstance_dict (sort_keys v) = isinstance_dict v.
Proof. now destruct v. Qed.

(** *** Values that can be written *)

Lemma encodable_dict_iff d :
  encodable (JDict d) = true <->
  Forall (fun kv => utf8_valid (fst kv) = true /\ encodable (snd kv) = true) d.
Proof.
  cbn [encodable]. rewrite forallb_forall, List.Forall_forall.
  split; intros H kv Hin; specialize (H kv Hin);
    [now apply andb_true_iff in H | now apply andb_true_iff].
Qed.

Lemma encodable_dict_set k v d :
  encodable (JDict d) = true -> utf8_valid k = true -> encodable v = true ->
  encodable (JDict (dict_set k v d)) = true.
Proof.
  rewrite !encodable_dict_iff. intros Hd Hk Hv.
  apply MergeHeapFacts.Forall_dict_set; [exact Hd | now split].
Qed.

Lemma encodable_dict_get k v d :
  encodable (JDict d) = true -> dict_get k d = Some v ->
  utf8_valid k = true /\ encodable v = true.
Proof.
  intros Hd Hget. cbn [encodable] in Hd.
  pose proof (forallb_dict_get _ _ _ _ Hd Hget) as H. cbn [fst snd] in H.
  now apply andb_true_iff in H.
Qed.

Lemma encodable_dict_del k d :
  encodable (JDict d) = true -> encodable (JDict (dict_del k d)) = true.
Proof. cbn [encodable]. apply forallb_dict_del. Qed.

Lemma encodable_merge_into overlay : forall base,
  encodable (JDict base) = true -> encodable overlay = true ->
  encodable (JDict (DeepMerge.merge_into base overlay)) = true.
Proof.
  induction overlay as [ | | | | | |items IH] using json_ind; intros base Hb Ho;
    try exact Hb.
  change (DeepMerge.merge_into base (JDict items)) with (DeepMerge._deep_merge base items).
  apply encodable_dict_iff in Ho. revert base Hb.
  induction IH as [|[k v] rest Hv _ IHrest]; intros base Hb; [exact Hb|].
  rewrite DeepMergeFacts.deep_merge_cons.
  apply List.Forall_cons_iff in Ho as [[Hk Hev] Ho]. cbn [fst snd] in Hk, Hev, Hv.
  apply IHrest; [exact Ho|]. apply encodable_dict_set; [exact Hb | exact Hk |].
  unfold DeepMerge.merged_value.
  destruct (dict_get k base) as [[ | | | | | |rb]|] eqn:Hkb; try exact Hev.
  destruct v as [ | | | | | |vo]; try exact Hev.
  apply (Hv rb); [exact (proj2 (encodable_dict_get _ _ _ Hb Hkb)) | exact Hev].
Qed.

Lemma encodable_deep_merge base overlay :
  encodable (JDict base) = true -> encodable (JDict overlay) = true ->
  encodable (JDict (DeepMerge._deep_merge base overlay)) = true.
Proof. apply encodable_merge_into. Qed.


Lemma encodable_delete_at keys : forall v v',
  encodable v = true -> delete_at keys v = Ok (Some v') -> encodable v' = true.
Proof.
  induction keys as [|key rest IH]; intros v v' Hv Hdel; [discriminate|].
  destruct (decide (rest = [])) as [->|Hrest].
  - cbn [delete_at] in Hdel. destruct v as [ | | | |s|l|d]; try discriminate.
    + cbn in Hdel. destruct (str_contains key s); discriminate.
    + cbn in Hdel. destruct (existsb _ l); discriminate.
    + cbn [py_contains mbind result_bind] in Hdel.
      destruct (dict_has key d) eqn:Hhas; [|discriminate].
      cbn [py_delitem] in Hdel. rewrite Hhas in Hdel. injection Hdel as <-.
      now apply encodable_dict_del.
  - assert (delete_at (key :: rest) v =
            (child ← py_getitem v key;
             r ← delete_at rest child;
             match r with
             | Some child' => c ← py_setitem v key child'; Ok (Some c)
             | None => Ok None
             end)) as E by (destruct rest; [congruence | reflexivity]).
    rewrite E in Hdel. clear E.
    destruct v as [ | | | | | |d]; try discriminate.
    cbn [py_getitem] in Hdel. destruct (dict_get key d) as [child|] eqn:Hchild;
      [|discriminate].
    cbn [mbind result_bind] in Hdel.
    destruct (encodable_dict_get _ _ _ Hv Hchild) as [Hkey Hc].
    destruct (delete_at rest child) as [[child'|]|] eqn:Hrec; try discriminate.
    cbn [mbind result_bind py_setitem] in Hdel. injection Hdel as <-.
    apply encodable_dict_set; [exact Hv | exact Hkey | exact (IH _ _ Hc Hrec)].
Qed.

Lemma encodable_filter (P : string * json -> bool) d :
  encodable (JDict d) = true -> encodable (JDict (List.filter P d)) = true.
Proof.
  rewrite !encodable_dict_iff, !List.Forall_forall. intros H kv Hin.
  apply filter_In in Hin as [Hin _]. now apply H.
Qed.

Lemma encodable_extract_fields fields : forall settings acc data,
  forallb utf8_valid fields = true ->
  encodable (JDict settings) = true -> encodable (JDict acc) = true ->
  extract_fields fields (JDict settings) acc = Ok data ->
  encodable (JDict data) = true.
Proof.
  induction fields as [|field rest IH]; intros settings acc data Hf Hs Ha Hrun.
  - now injection Hrun as <-.
  - cbn [forallb] in Hf. apply andb_true_iff in Hf as [Hfield Hrest].
    cbn [extract_fields py_contains mbind result_bind] in Hrun. unfold dict_has in Hrun.
    destruct (dict_get field settings) as [v|] eqn:Hv.
    + cbn [py_getitem] in Hrun. rewrite Hv in Hrun. cbn [mbind result_bind] in Hrun.
      apply (IH settings (dict_set field v acc) data Hrest Hs); [|exact Hrun].
      apply encodable_dict_set; [exact Ha | exact Hfield |].
      exact (proj2 (encodable_dict_get _ _ _ Hs Hv)).
    + exact (IH settings acc data Hrest Hs Ha Hrun).
Qed.

Lemma nodup_keys_filter {V} (P : string * V -> bool) (d : list (string * V)) :
  NoDup (dict_keys d) -> NoDup (dict_keys (List.filter P d)).
Proof.
  unfold dict_keys. induction d as [|[k v] r IH]; cbn [List.filter map fst]; [trivial|].
  intros H. apply NoDup_cons in H as [Hk Hr].
  destruct (P (k, v)); cbn [map fst]; [|now apply IH].
  apply NoDup_cons. split; [|now apply IH].
  intros Hin. apply Hk. apply list_elem_of_In. apply list_elem_of_In in Hin.
  apply in_map_iff in Hin as ([k' v'] & E & Hin). cbn in E. subst k'.
  apply in_map_iff. exists (k, v'). split; [reflexivity|].
  now apply filter_In in Hin as [Hin _].
Qed.

Lemma encodable_existing_hooks settings :
  encodable (JDict settings) = true -> encodable (JDict (existing_hooks settings)) = true.
Proof.
  intros H. unfold existing_hooks.
  destruct (dict_get "hooks" settings) as [[ | | | | | |h]|] eqn:E; try reflexivity.
  exact (proj2 (encodable_dict_get _ _ _ H E)).
Qed.

Lemma encodable_existing_hook_list hooks hook_type :
  encodable (JDict hooks) = true ->
  encodable (JList (existing_hook_list hooks hook_type)) = true.
Proof.
  intros H. unfold existing_hook_list.
  destruct (dict_get hook_type hooks) as [[ | | | | |l| ]|] eqn:E; try reflexivity.
  exact (proj2 (encodable_dict_get _ _ _ H E)).
Qed.


(** The settings that [add_hook] writes can be encoded when the settings
    it read and its three arguments can. *)
Lemma encodable_with_hook settings hook_type matcher command :
  encodable (JDict settings) = true ->
  utf8_valid hook_type = true -> utf8_valid matcher = true -> utf8_valid command = true ->
  encodable
    (JDict (dict_set "hooks"
              (JDict (dict_set hook_type
                        (JList (existing_hook_list (existing_hooks settings) hook_type
                                ++ [hook_config matcher command]))
                        (existing_hooks settings)))
              settings)) = true.
Proof.
  intros Hs Ht Hm Hc. apply encodable_dict_set; [exact Hs | reflexivity |].
  apply encodable_dict_set; [now apply encodable_existing_hooks | exact Ht |].
  pose proof (encodable_existing_hook_list (existing_hooks settings) hook_type
                (encodable_existing_hooks _ Hs)) as Hl.
  cbn [encodable] in Hl |- *. rewrite forallb_app, Hl.
  unfold hook_config. cbn [forallb encodable fst snd]. rewrite Hm, Hc. reflexivity.
Qed.

(** *** Reading and writing settings *)

Section FilesFacts.

Variable json_loads : string -> option json.
Variable json_dumps : json -> string.
Variable partial_dump : json -> string.

(** A save that the file system lets through, of settings that can be
    encoded. *)
Lemma save_settings_writes io stamp now settings create_backup d :
  backup_fails io = false -> settings_write io = NoFault ->
  encodable settings = true ->
  exists d',
    save_settings json_dumps partial_dump io stamp now settings create_backup d
    = (Ok tt, d') /\
    settings_file d' = Some {| content := json_dumps settings; mtime := now |} /\
    backup_dir d' =
      match settings_file d with
      | Some s =>
          if create_backup
          then backup_dir (_cleanup_old_backups io 10 (copy_settings stamp s d))
          else backup_dir d
      | None => backup_dir d
      end.
Proof.
  intros Hb Hw He. unfold save_settings, _create_settings_backup. rewrite Hb, Hw, He.
  destruct (settings_file d) as [s|] eqn:Hs; destruct create_backup; cbn;
    eexists; repeat split; reflexivity.
Qed.

(** A write of metadata that the file system lets through. *)
Lemma save_metadata_writes io metadata m :
  metadata_write io = NoFault -> encodable metadata = true ->
  save_metadata json_dumps partial_dump io metadata m = (Ok tt, Some (json_dumps metadata)).
Proof. intros Hw He. unfold save_metadata. now rewrite Hw, He. Qed.

Lemma load_settings_reads_back v now d :
  reads_back json_loads json_dumps v ->
  settings_file d = Some {| content := json_dumps v; mtime := now |} ->
  load_settings json_loads d = Ok (sort_keys v).
Proof.
  intros [Hutf Hload] Hfile. unfold load_settings, read_text. rewrite Hfile.
  cbn [content]. rewrite Hutf. cbn [mbind result_bind]. now rewrite Hload.
Qed.

Lemma load_metadata_reads_back v :
  reads_back json_loads json_dumps v ->
  load_metadata json_loads (Some (json_dumps v)) = Ok (sort_keys v).
Proof.
  intros [Hutf Hload]. unfold load_metadata. rewrite Hutf. cbn [mbind result_bind].
  now rewrite Hload.
Qed.

(** X3. [get_setting] returns the value at the end of the dotted path, and
    the default when a key of the path is missing or when the path runs
    into a value that is no dict; it raises nothing once the file is
    loaded. *)
Theorem get_setting_follows_path d settings key_path default :
  load_settings json_loads d = Ok settings ->
  get_setting json_loads key_path default d =
  Ok (match DeepMerge.get_path (split_dot key_path) settings with
      | Some v => v
      | None => default
      end).
Proof.
  intros Hload. unfold get_setting. rewrite Hload. cbn [mbind result_bind].
  apply lookup_get_path.
Qed.


(** X5. On a settings file whose JSON value is not an object, every
    [get_setting] returns its default, and [set_setting] and a
    [update_settings] with modifications raise [TypeError] and leave the
    disk as it was, whatever the file system would refuse. *)
Theorem settings_that_are_no_object d settings :
  load_settings json_loads d = Ok settings ->
  isinstance_dict settings = false ->
  (forall key_path default, get_setting json_loads key_path default d = Ok default) /\
  (forall io stamp now key_path value create_backup,
     set_setting json_loads json_dumps partial_dump io stamp now key_path value
       create_backup d
     = (Raise TypeError, d)) /\
  (forall io stamp now modifications create_backup, modifications <> [] ->
     update_settings json_loads json_dumps partial_dump io stamp now modifications
       create_backup d
     = (Raise TypeError, d)).
Proof.
  intros Hload Hno. split; [|split].
  - intros key_path default. unfold get_setting. rewrite Hload. cbn [mbind result_bind].
    rewrite lookup_get_path.
    now rewrite (get_path_non_dict _ _ (split_dot_nonempty key_path) Hno).
  - intros io stamp now key_path value create_backup. unfold set_setting.
    destruct (modification_ok (split_dot key_path) value (split_dot_nonempty key_path))
      as (m & Hm).
    rewrite Hm. unfold update_settings, merge_settings. rewrite Hload.
    cbn [mbind result_bind]. rewrite deep_merge_value_other; [reflexivity | exact Hno |].
    destruct (split_dot key_path) as [|k rest] eqn:E; [discriminate|].
    apply modification_head in Hm as (x & ->). discriminate.
  - intros io stamp now modifications create_backup Hne.
    unfold update_settings, merge_settings. rewrite Hload. cbn [mbind result_bind].
    now rewrite deep_merge_value_other.
Qed.

(** X6. Where the file system refuses neither the backup nor the write and
    the settings hold no string that UTF-8 cannot encode, [remove_setting]
    returns [True] exactly when the key path leads to a value.  When it
    does not, nothing is written; when it does, the settings that are
    written no longer have the path, and every path that leaves it at some
    key leads where it led before. *)
Theorem remove_setting_removes io stamp now key_path create_backup d settings :
  load_settings json_loads d = Ok settings ->
  DeepMerge.wf_json settings = true ->
  backup_fails io = false -> settings_write io = NoFault ->
  encodable settings = true ->
  match DeepMerge.get_path (split_dot key_path) settings with
  | None =>
      remove_setting json_loads json_dumps partial_dump io stamp now key_path
        create_backup d = (Ok false, d)
  | Some _ =>
      exists settings' d',
        remove_setting json_loads json_dumps partial_dump io stamp now key_path
          create_backup d
        = (Ok true, d') /\
        settings_file d' = Some {| content := json_dumps settings'; mtime := now |} /\
        DeepMerge.get_path (split_dot key_path) settings' = None /\
        forall pre a b q k, split_dot key_path = (pre ++ b :: k)%list -> a <> b ->
          DeepMerge.get_path (pre ++ a :: q) settings' =
          DeepMerge.get_path (pre ++ a :: q) settings
  end.
Proof.
  intros Hload Hwf Hbf Hsw Henc. unfold remove_setting. rewrite Hload.
  pose proof (delete_at_get_path (split_dot key_path) settings
                (split_dot_nonempty key_path) Hwf) as H.
  destruct (DeepMerge.get_path (split_dot key_path) settings) as [x|].
  - destruct H as (settings' & Hdel & Hgone & Hframe).
    pose proof (encodable_delete_at _ _ _ Henc Hdel) as Henc'. rewrite Hdel.
    destruct (save_settings_writes io stamp now settings' create_backup d Hbf Hsw Henc')
      as (d' & -> & Hfile & _).
    now exists settings', d'.
  - destruct H as [-> | (e & -> & ->)]; reflexivity.
Qed.

Lemma with_hook_dict settings hook_type matcher command :
  exists hooks,
    with_hook (JDict settings) hook_type matcher command =
    match dict_get "hooks" settings with
    | None | Some (JDict _) =>
        match dict_get hook_type (existing_hooks settings) with
        | None | Some (JList _) =>
            Ok (JDict (dict_set "hooks" (JDict hooks) settings))
        | Some _ => Raise AttributeError
        end
    | Some _ => Raise TypeError
    end /\
    hooks = dict_set hook_type
              (JList (existing_hook_list (existing_hooks settings) hook_type
                      ++ [hook_config matcher command]))
              (existing_hooks settings).
Proof.
  eexists. split; [|reflexivity].
  unfold with_hook, existing_hooks, existing_hook_list.
  cbn [py_contains mbind result_bind]. unfold dict_has.
  destruct (dict_get "hooks" settings) as [hooks|] eqn:Hhooks.
  - cbn [py_getitem mbind result_bind]. rewrite Hhooks.
    destruct hooks as [ | | | |s|l|h]; try reflexivity.
    + cbn. destruct (str_contains hook_type s); reflexivity.
    + cbn. destruct (existsb _ l); reflexivity.
    + cbn [py_contains mbind result_bind]. unfold dict_has.
      destruct (dict_get hook_type h) as [hook_list|] eqn:Hlist.
      * cbn [py_getitem mbind result_bind]. rewrite Hlist.
        destruct hook_list; reflexivity.
      * cbn [py_setitem py_getitem mbind result_bind].
        rewrite DeepMergeFacts.dict_get_set_eq. cbn [py_append mbind result_bind].
        rewrite dict_set_set. reflexivity.
  - cbn [py_setitem py_getitem mbind result_bind].
    rewrite DeepMergeFacts.dict_get_set_eq. cbn [py_contains mbind result_bind dict_has dict_get].
    cbn [py_setitem py_getitem mbind result_bind dict_get dict_set].
    rewrite ?String.eqb_refl. cbn [py_append mbind result_bind app].
    rewrite ?String.eqb_refl. rewrite dict_set_set. reflexivity.
Qed.

(** X7. Where the file system refuses neither the backup nor the write, and
    the settings and the three arguments hold no string that UTF-8 cannot
    encode, [add_hook] appends the entry to the list of its hook type,
    which it creates when there is none, and touches no other hook type
    and no other setting.  It does not check the hook type: the
    configuration it writes is in the format of [_validate_hooks_config]
    exactly when the type is one of the six, given a configuration that
    was in the format. *)
Theorem add_hook_appends io stamp now hook_type matcher command d settings :
  load_settings json_loads d = Ok (JDict settings) ->
  absent_or_dict (dict_get "hooks" settings) = true ->
  absent_or_list (dict_get hook_type (existing_hooks settings)) = true ->
  backup_fails io = false -> settings_write io = NoFault ->
  encodable (JDict settings) = true ->
  utf8_valid hook_type = true -> utf8_valid matcher = true -> utf8_valid command = true ->
  exists settings' hooks' d',
    add_hook json_loads json_dumps partial_dump io stamp now hook_type matcher command d
    = (Ok tt, d') /\
    settings_file d' = Some {| content := json_dumps (JDict settings'); mtime := now |} /\
    dict_get "hooks" settings' = Some (JDict hooks') /\
    (forall k, k <> "hooks" -> dict_get k settings' = dict_get k settings) /\
    dict_get hook_type hooks' =
      Some (JList (existing_hook_list (existing_hooks settings) hook_type
                   ++ [hook_config matcher command])) /\
    (forall t, t <> hook_type -> dict_get t hooks' = dict_get t (existing_hooks settings)) /\
    (HooksFormat._validate_hooks_config (existing_hooks settings) = true ->
     HooksFormat._validate_hooks_config hooks' =
     str_in hook_type HooksFormat.valid_hook_types).
Proof.
  intros Hload Hhooks Hlist Hbf Hsw Henc Htype Hmatcher Hcommand.
  unfold add_hook. rewrite Hload. cbn [mbind result_bind].
  destruct (with_hook_dict settings hook_type matcher command) as (hooks' & -> & Ehooks).
  assert (encodable (JDict (dict_set "hooks" (JDict hooks') settings)) = true) as Henc'
    by (rewrite Ehooks; now apply encodable_with_hook).
  destruct (dict_get "hooks" settings) as [[ | | | | | |h]|] eqn:Eh; try discriminate;
    (destruct (dict_get hook_type (existing_hooks settings)) as [[ | | | | |l| ]|] eqn:El;
     try discriminate);
    (destruct (save_settings_writes io stamp now
                 (JDict (dict_set "hooks" (JDict hooks') settings)) true d Hbf Hsw Henc')
       as (d' & -> & Hfile & _));
    (exists (dict_set "hooks" (JDict hooks') settings), hooks', d');
    (split; [reflexivity|]); (split; [exact Hfile|]);
    (split; [apply DeepMergeFacts.dict_get_set_eq|]);
    (split; [intros k Hk; apply DeepMergeFacts.dict_get_set_ne; congruence|]);
    subst hooks';
    (split; [apply DeepMergeFacts.dict_get_set_eq|]);
    (split; [intros t Ht; apply DeepMergeFacts.dict_get_set_ne; congruence|]);
    intros Hvalid; rewrite validate_forallb in *;
    rewrite forallb_dict_set by exact Hvalid;
    unfold valid_item; cbn [fst snd];
    rewrite validate_hook_list_app, (existing_hook_list_valid _ _ Hvalid);
    cbn; apply andb_true_r.
Qed.

(** X8. Where the file system refuses neither the backup nor the write and
    the settings hold no string that UTF-8 cannot encode, [remove_hooks]
    with no hook type, or with the empty string for it, removes the whole
    [hooks] entry; with a hook type it removes the list of that type and
    no other; it returns [False], and writes nothing, when there is no
    [hooks] entry or no list of the type. *)
Theorem remove_hooks_removes io stamp now d settings :
  load_settings json_loads d = Ok (JDict settings) ->
  DeepMerge.wf_json (JDict settings) = true ->
  backup_fails io = false -> settings_write io = NoFault ->
  encodable (JDict settings) = true ->
  (dict_get "hooks" settings = None ->
   forall hook_type,
     remove_hooks json_loads json_dumps partial_dump io stamp now hook_type d
     = (Ok false, d)) /\
  (dict_get "hooks" settings <> None ->
   forall hook_type, hook_type = None \/ hook_type = Some "" ->
     exists settings' d',
       remove_hooks json_loads json_dumps partial_dump io stamp now hook_type d
       = (Ok true, d') /\
       settings_file d' = Some {| content := json_dumps (JDict settings'); mtime := now |} /\
       dict_get "hooks" settings' = None /\
       forall k, k <> "hooks" -> dict_get k settings' = dict_get k settings) /\
  (forall h t, dict_get "hooks" settings = Some (JDict h) -> t <> "" ->
     match dict_get t h with
     | None =>
         remove_hooks json_loads json_dumps partial_dump io stamp now (Some t) d
         = (Ok false, d)
     | Some _ =>
         exists settings' hooks' d',
           remove_hooks json_loads json_dumps partial_dump io stamp now (Some t) d
           = (Ok true, d') /\
           settings_file d' =
             Some {| content := json_dumps (JDict settings'); mtime := now |} /\
           dict_get "hooks" settings' = Some (JDict hooks') /\
           dict_get t hooks' = None /\
           (forall t', t' <> t -> dict_get t' hooks' = dict_get t' h) /\
           forall k, k <> "hooks" -> dict_get k settings' = dict_get k settings
     end).
Proof.
  intros Hload Hwf Hbf Hsw Henc.
  pose proof (DeepMergeFacts.wf_json_dict _ Hwf) as [Hnd Hsub].
  unfold remove_hooks. rewrite Hload. cbn [mbind result_bind].
  unfold without_hooks. cbn [py_contains mbind result_bind]. unfold dict_has.
  split; [|split].
  - intros Hnone hook_type. now rewrite Hnone.
  - intros Hsome hook_type Hfalse.
    destruct (dict_get "hooks" settings) as [hooks|] eqn:Hhooks; [|congruence].
    cbn [negb].
    assert (py_delitem (JDict settings) "hooks" = Ok (JDict (dict_del "hooks" settings)))
      as Hdel by (cbn; unfold dict_has; now rewrite Hhooks).
    destruct (save_settings_writes io stamp now (JDict (dict_del "hooks" settings)) true d
                Hbf Hsw (encodable_dict_del _ _ Henc))
      as (d' & Hsave & Hfile & _).
    exists (dict_del "hooks" settings), d'.
    split; [destruct Hfalse as [-> | ->]; cbn [String.eqb negb];
            rewrite Hdel; cbn [mbind result_bind]; now rewrite Hsave|].
    split; [exact Hfile|]. split; [now apply dict_get_del_eq|].
    intros k Hk. apply dict_get_del_ne. congruence.
  - intros h t Hhooks Ht. rewrite Hhooks. cbn [negb].
    destruct (String.eqb_spec t ""); [contradiction|]. cbn [negb].
    cbn [py_getitem]. rewrite Hhooks. cbn [py_contains mbind result_bind]. unfold dict_has.
    destruct (dict_get t h) as [l|] eqn:Hl; [|reflexivity].
    cbn [py_delitem]. unfold dict_has. rewrite Hl. cbn [mbind result_bind py_setitem].
    assert (encodable (JDict (dict_set "hooks" (JDict (dict_del t h)) settings)) = true)
      as Henc'.
    { apply encodable_dict_set; [exact Henc | reflexivity |].
      apply encodable_dict_del. exact (proj2 (encodable_dict_get _ _ _ Henc Hhooks)). }
    destruct (save_settings_writes io stamp now
                (JDict (dict_set "hooks" (JDict (dict_del t h)) settings)) true d
                Hbf Hsw Henc')
      as (d' & -> & Hfile & _).
    exists (dict_set "hooks" (JDict (dict_del t h)) settings), (dict_del t h), d'.
    split; [reflexivity|]. split; [exact Hfile|].
    split; [apply DeepMergeFacts.dict_get_set_eq|].
    split.
    { apply dict_get_del_eq. specialize (Hsub _ _ Hhooks).
      now apply DeepMergeFacts.wf_json_dict in Hsub as [Hh _]. }
    split; [intros t' Ht'; apply dict_get_del_ne; congruence|].
    intros k Hk. apply DeepMergeFacts.dict_get_set_ne. congruence.
Qed.


(** X10. [migrate_superclaude_data] returns [False] and writes nothing when
    the settings have none of the four fields.  Otherwise, where the file
    system refuses none of the backup and the two writes, and the settings
    and the metadata hold no string that UTF-8 cannot encode, it writes
    settings without the four fields and with every other key as it was,
    and metadata in which a migrated field holds the value of the settings
    (merged into the dict of the metadata when both are dicts) and every
    other key what the metadata held.  A second migration, run on the two
    files that the first one wrote, returns [False] and writes nothing,
    provided the parser reads back the settings that were written. *)
Theorem migration_moves_the_fields io stamp now i settings :
  load_settings json_loads (settings_disk i) = Ok (JDict settings) ->
  (forall k, In k superclaude_fields -> dict_get k settings = None) /\
  migrate_superclaude_data json_loads json_dumps partial_dump io stamp now i = (Ok false, i)
  \/
  (exists k, In k superclaude_fields /\ dict_get k settings <> None) /\
  forall meta,
    load_metadata json_loads (metadata_file i) = Ok (JDict meta) ->
    backup_fails io = false -> settings_write io = NoFault ->
    metadata_write io = NoFault ->
    encodable (JDict settings) = true -> encodable (JDict meta) = true ->
    exists clean merged d',
      clean_settings (JDict settings) = Ok (JDict clean) /\
      migrate_superclaude_data json_loads json_dumps partial_dump io stamp now i =
      (Ok true, {| settings_disk := d';
                   metadata_file := Some (json_dumps (JDict merged)) |}) /\
      settings_file d' = Some {| content := json_dumps (JDict clean); mtime := now |} /\
      (forall k, dict_get k clean =
                 if str_in k superclaude_fields then None else dict_get k settings) /\
      (forall k, dict_get k merged =
                 if str_in k superclaude_fields
                 then match dict_get k settings with
                      | Some v => Some (DeepMerge.merged_value (dict_get k meta) v)
                      | None => dict_get k meta
                      end
                 else dict_get k meta) /\
      (NoDup (dict_keys settings) ->
       reads_back json_loads json_dumps (JDict clean) ->
       forall io' stamp' now',
         migrate_superclaude_data json_loads json_dumps partial_dump io' stamp' now'
           {| settings_disk := d'; metadata_file := Some (json_dumps (JDict merged)) |}
         = (Ok false,
            {| settings_disk := d'; metadata_file := Some (json_dumps (JDict merged)) |})).
Proof.
  intros Hload. unfold migrate_superclaude_data. rewrite Hload.
  cbn [mbind result_bind].
  destruct (extract_fields_dict superclaude_fields settings []
              (NoDup_nil_2 : NoDup (dict_keys (@nil (string * json)))))
    as (data & Hdata & Hnd & Hget).
  rewrite Hdata. cbn [mbind result_bind].
  destruct data as [|item data'] eqn:Edata.
  - left. split; [|reflexivity]. intros k Hk. specialize (Hget k).
    rewrite (proj2 (HooksFormatFacts.str_in_In _ _) Hk) in Hget. cbn [dict_get] in Hget.
    now destruct (dict_get k settings).
  - right. rewrite <- Edata in *. split.
    { destruct item as [k v]. exists k.
      assert (dict_get k data = Some v) as Hk by (rewrite Edata; cbn; now rewrite String.eqb_refl).
      rewrite Hget in Hk. destruct (str_in k superclaude_fields) eqn:Ein; [|discriminate].
      split; [now apply HooksFormatFacts.str_in_In|].
      destruct (dict_get k settings); [discriminate | discriminate]. }
    intros meta Hmeta Hbf Hsw Hmw Henc Hencm. rewrite Hmeta. cbn [mbind result_bind].
    rewrite deep_merge_value_dict. cbn [clean_settings].
    set (clean := List.filter (fun kv => negb (str_in (fst kv) superclaude_fields)) settings).
    assert (encodable (JDict (DeepMerge._deep_merge meta data)) = true) as Hencd.
    { apply encodable_deep_merge; [exact Hencm|].
      exact (encodable_extract_fields superclaude_fields settings [] data
               eq_refl Henc eq_refl Hdata). }
    rewrite (save_metadata_writes io _ _ Hmw Hencd).
    destruct (save_settings_writes io stamp now (JDict clean) true (settings_disk i)
                Hbf Hsw (encodable_filter _ _ Henc))
      as (d' & -> & Hfile & _).
    assert (forall k, dict_get k clean =
                      if str_in k superclaude_fields then None else dict_get k settings)
      as Hclean.
    { intros k. unfold clean.
      rewrite (dict_get_filter (fun k => negb (str_in k superclaude_fields))).
      now destruct (str_in k superclaude_fields). }
    exists clean, (DeepMerge._deep_merge meta data), d'. split; [reflexivity|].
    split; [rewrite Edata; reflexivity|]. split; [exact Hfile|]. split; [exact Hclean|].
    split.
    + intros k. rewrite DeepMergeFacts.deep_merge_get by exact Hnd. rewrite Hget.
      cbn [dict_get]. destruct (str_in k superclaude_fields); [|reflexivity].
      now destruct (dict_get k settings).
    + intros Hnds Hback io' stamp' now'. unfold migrate_superclaude_data.
      cbn [settings_disk metadata_file].
      rewrite (load_settings_reads_back _ _ _ Hback Hfile).
      cbn [mbind result_bind sort_keys].
      destruct (extract_fields_dict superclaude_fields
                  (fold_right (fun kv sorted => insert_item (fst kv, sort_keys (snd kv)) sorted)
                              [] clean) []
                  (NoDup_nil_2 : NoDup (dict_keys (@nil (string * json)))))
        as (data2 & -> & _ & Hget2).
      assert (data2 = []) as ->; [|reflexivity].
      apply dict_get_nil_all. intros k. rewrite Hget2.
      rewrite dict_get_sort_keys by (now apply nodup_keys_filter). rewrite Hclean.
      now destruct (str_in k superclaude_fields).
Qed.





End FilesFacts.

(** *** The registry and the framework version *)

Section RegistryFacts.

Variable json_loads : string -> option json.
Variable json_dumps : json -> string.
Variable partial_dump : json -> string.

(** X13. Where the file system does not refuse the write and the metadata
    hold no string that UTF-8 cannot encode,
    [remove_component_registration] returns [True] exactly when the
    component is in the registry.  When it is not, nothing is written;
    when it is, the metadata that are written no longer have the
    component, and have every other component and every other key as they
    were. *)
Theorem remove_component_registration_removes io component_name m meta :
  load_metadata json_loads m = Ok (JDict meta) ->
  DeepMerge.wf_json (JDict meta) = true ->
  absent_or_dict (dict_get "components" meta) = true ->
  metadata_write io = NoFault -> encodable (JDict meta) = true ->
  if dict_has component_name (existing_components meta)
  then exists meta' components',
         remove_component_registration json_loads json_dumps partial_dump io
           component_name m
         = (Ok true, Some (json_dumps (JDict meta'))) /\
         dict_get "components" meta' = Some (JDict components') /\
         dict_get component_name components' = None /\
         (forall other, other <> component_name ->
            dict_get other components' = dict_get other (existing_components meta)) /\
         (forall k, k <> "components" -> dict_get k meta' = dict_get k meta)
  else remove_component_registration json_loads json_dumps partial_dump io
         component_name m = (Ok false, m).
Proof.
  intros Hload Hwf Habs Hmw Hem. unfold remove_component_registration. rewrite Hload.
  cbn [mbind result_bind]. unfold without_component, existing_components.
  cbn [py_contains mbind result_bind].
  assert (dict_has "components" meta
          = match dict_get "components" meta with Some _ => true | None => false end) as ->
    by reflexivity.
  destruct (dict_get "components" meta) as [[ | | | | | |c]|] eqn:Hc; try discriminate;
    [|reflexivity].
  cbn [py_getitem mbind result_bind]. rewrite Hc. cbn [py_contains mbind result_bind].
  destruct (dict_has component_name c) eqn:Hin; [|reflexivity].
  cbn [py_delitem mbind result_bind]. rewrite Hin. cbn [py_setitem mbind result_bind].
  assert (encodable (JDict (dict_set "components" (JDict (dict_del component_name c)) meta))
          = true) as Hem'.
  { apply encodable_dict_set; [exact Hem | reflexivity |].
    apply encodable_dict_del. exact (proj2 (encodable_dict_get _ _ _ Hem Hc)). }
  rewrite (save_metadata_writes json_dumps partial_dump io _ _ Hmw Hem').
  exists (dict_set "components" (JDict (dict_del component_name c)) meta),
         (dict_del component_name c).
  split; [reflexivity|]. split; [apply DeepMergeFacts.dict_get_set_eq|].
  pose proof (MergeHeapFacts.wf_dict_get _ _ _ Hwf Hc) as Hwc.
  apply DeepMergeFacts.wf_json_dict in Hwc as [Hnd _].
  split; [now apply dict_get_del_eq|].
  split.
  - intros other Hother. apply dict_get_del_ne. congruence.
  - intros k Hk. now apply DeepMergeFacts.dict_get_set_ne.
Qed.

Lemma with_framework_version_dict meta version now_iso :
  absent_or_dict (dict_get "framework" meta) = true ->
  with_framework_version (JDict meta) version now_iso =
  Ok (JDict (dict_set "framework"
               (JDict (dict_set "updated_at" (JStr now_iso)
                         (dict_set "version" (JStr version)
                            match dict_get "framework" meta with
                            | Some (JDict framework) => framework
                            | _ => []
                            end)))
               meta)).
Proof.
  intros Habs. unfold with_framework_version.
  cbn [py_contains mbind result_bind]. unfold dict_has.
  destruct (dict_get "framework" meta) as [[ | | | | | |fw]|] eqn:Hf; try discriminate.
  - cbn [py_getitem py_setitem mbind result_bind]. rewrite Hf.
    cbn [py_getitem py_setitem mbind result_bind].
    rewrite DeepMergeFacts.dict_get_set_eq. cbn [py_setitem mbind result_bind].
    now rewrite dict_set_set.
  - cbn [py_getitem py_setitem mbind result_bind].
    rewrite DeepMergeFacts.dict_get_set_eq. cbn [py_getitem py_setitem mbind result_bind].
    rewrite dict_set_set, DeepMergeFacts.dict_get_set_eq.
    cbn [py_setitem mbind result_bind]. now rewrite dict_set_set.
Qed.

(** X14. The version that [update_framework_version] stored,
    [get_framework_version] returns.  Where the file system does not
    refuse the write, and the metadata, the version and the time hold no
    string that UTF-8 cannot encode, the update sets [version] and
    [updated_at] in the dict under [framework], which it creates when
    there is none, and changes no other key of it or of the metadata;
    after it [get_framework_version] returns the version and
    [get_metadata_setting] finds the time under [framework.updated_at],
    provided the parser reads back what the serializer wrote. *)
Theorem framework_version_is_read_back io now_iso version m meta :
  load_metadata json_loads m = Ok (JDict meta) ->
  DeepMerge.wf_json (JDict meta) = true ->
  absent_or_dict (dict_get "framework" meta) = true ->
  metadata_write io = NoFault -> encodable (JDict meta) = true ->
  utf8_valid version = true -> utf8_valid now_iso = true ->
  exists meta' framework',
    with_framework_version (JDict meta) version now_iso = Ok (JDict meta') /\
    update_framework_version json_loads json_dumps partial_dump io now_iso version m
    = (Ok tt, Some (json_dumps (JDict meta'))) /\
    dict_get "framework" meta' = Some (JDict framework') /\
    (forall k, k <> "version" -> k <> "updated_at" ->
       dict_get k framework' =
       match dict_get "framework" meta with
       | Some (JDict framework) => dict_get k framework
       | _ => None
       end) /\
    (forall k, k <> "framework" -> dict_get k meta' = dict_get k meta) /\
    (reads_back json_loads json_dumps (JDict meta') ->
     get_framework_version json_loads (Some (json_dumps (JDict meta'))) = Ok (JStr version) /\
     forall default,
       get_metadata_setting json_loads "framework.updated_at" default
         (Some (json_dumps (JDict meta'))) = Ok (JStr now_iso)).
Proof.
  intros Hload Hwf Habs Hmw Hem Hev Het. unfold update_framework_version. rewrite Hload.
  cbn [mbind result_bind]. rewrite with_framework_version_dict by exact Habs.
  set (fw := match dict_get "framework" meta with
             | Some (JDict framework) => framework
             | _ => []
             end).
  set (fw' := dict_set "updated_at" (JStr now_iso) (dict_set "version" (JStr version) fw)).
  set (meta' := dict_set "framework" (JDict fw') meta).
  assert (DeepMerge.wf_json (JDict fw) = true) as Hwfw.
  { unfold fw. destruct (dict_get "framework" meta) as [[ | | | | | |f]|] eqn:Hf;
      try reflexivity. exact (MergeHeapFacts.wf_dict_get _ _ _ Hwf Hf). }
  assert (DeepMerge.wf_json (JDict fw') = true) as Hwfw'.
  { apply MergeHeapFacts.wf_dict_set; [|reflexivity].
    apply MergeHeapFacts.wf_dict_set; [exact Hwfw | reflexivity]. }
  assert (DeepMerge.wf_json (JDict meta') = true) as Hwm'
    by (apply MergeHeapFacts.wf_dict_set; assumption).
  assert (dict_get "framework" meta' = Some (JDict fw')) as Hfw'
    by apply DeepMergeFacts.dict_get_set_eq.
  assert (dict_get "version" fw' = Some (JStr version)) as Hversion.
  { unfold fw'. rewrite DeepMergeFacts.dict_get_set_ne by discriminate.
    apply DeepMergeFacts.dict_get_set_eq. }
  assert (dict_get "updated_at" fw' = Some (JStr now_iso)) as Hupdated
    by apply DeepMergeFacts.dict_get_set_eq.
  assert (encodable (JDict meta') = true) as Hem'.
  { apply encodable_dict_set; [exact Hem | reflexivity |].
    apply encodable_dict_set; [|reflexivity | exact Het].
    apply encodable_dict_set; [|reflexivity | exact Hev].
    unfold fw. destruct (dict_get "framework" meta) as [[ | | | | | |f]|] eqn:Hf;
      try reflexivity. exact (proj2 (encodable_dict_get _ _ _ Hem Hf)). }
  exists meta', fw'. split; [reflexivity|].
  split; [exact (save_metadata_writes json_dumps partial_dump io _ _ Hmw Hem')|].
  split; [exact Hfw'|].
  split.
  { intros k Hv Hu. unfold fw'. rewrite !DeepMergeFacts.dict_get_set_ne by congruence.
    unfold fw. now destruct (dict_get "framework" meta) as [[ | | | | | |f]|]. }
  split; [intros k Hk; now apply DeepMergeFacts.dict_get_set_ne|].
  intros Hback.
  pose proof (DeepMergeFacts.wf_json_dict _ Hwm') as [Hndm _].
  pose proof (DeepMergeFacts.wf_json_dict _ Hwfw') as [Hndf _].
  split.
  - unfold get_framework_version. rewrite (load_metadata_reads_back _ _ _ Hback).
    cbn [mbind result_bind sort_keys py_get]. rewrite dict_get_sort_keys by exact Hndm.
    rewrite Hfw'. cbn [option_map sort_keys mbind result_bind py_get].
    rewrite dict_get_sort_keys by exact Hndf. now rewrite Hversion.
  - intros default. unfold get_metadata_setting.
    rewrite (load_metadata_reads_back _ _ _ Hback). cbn [mbind result_bind].
    rewrite lookup_get_path, get_path_sort_keys by exact Hwm'.
    change (split_dot "framework.updated_at") with ["framework"; "updated_at"].
    cbn [DeepMerge.get_path]. rewrite Hfw'. cbn [DeepMerge.get_path].
    now rewrite Hupdated.
Qed.

End RegistryFacts.

(** *** Examples *)

Lemma get_setting_follows_path_example :
  get_setting example_loads "hooks.preToolUse" JNull example_disk =
  Ok (JList [hook_config "^Read$" "python3 /opt/hooks/read.py"]) /\
  get_setting example_loads "theme.colour" (JStr "none") example_disk = Ok (JStr "none").
Proof.
  split.
  - exact (get_setting_follows_path example_loads example_disk (JDict example_settings)
             "hooks.preToolUse" JNull eq_refl).
  - exact (get_setting_follows_path example_loads example_disk (JDict example_settings)
             "theme.colour" (JStr "none") eq_refl).
Defined.



Lemma settings_that_are_no_object_example :
  get_setting example_loads "hooks" (JDict []) example_array_disk = Ok (JDict []) /\
  set_setting example_loads example_dumps example_partial no_faults
    "20250101_000000" 200 "theme" (JStr "light") true example_array_disk
  = (Raise TypeError, example_array_disk).
Proof.
  destruct (settings_that_are_no_object example_loads example_dumps example_partial
              example_array_disk (JList [JStr "hooks"]) eq_refl eq_refl)
    as (Hget & Hset & _).
  split; [apply Hget | apply Hset].
Defined.

Lemma remove_setting_removes_example :
  (exists settings' d',
     remove_setting example_loads example_dumps example_partial no_faults
       "20250101_000000" 200 "components.core" true example_disk = (Ok true, d') /\
     DeepMerge.get_path ["components"; "core"] settings' = None /\
     settings_file d' = Some {| content := example_dumps settings'; mtime := 200 |}) /\
  remove_setting example_loads example_dumps example_partial no_faults
    "20250101_000000" 200 "components.extras" true example_disk
  = (Ok false, example_disk).
Proof.
  split.
  - pose proof (remove_setting_removes example_loads example_dumps example_partial
                  no_faults "20250101_000000" 200 "components.core" true example_disk
                  (JDict example_settings) eq_refl eq_refl eq_refl eq_refl eq_refl) as H.
    change (DeepMerge.get_path (split_dot "components.core") (JDict example_settings))
      with (Some (JDict [("version", JStr "3.0.0")])) in H.
    destruct H as (settings' & d' & Hrun & Hfile & Hgone & _).
    now exists settings', d'.
  - exact (remove_setting_removes example_loads example_dumps example_partial
             no_faults "20250101_000000" 200 "components.extras" true example_disk
             (JDict example_settings) eq_refl eq_refl eq_refl eq_refl eq_refl).
Defined.

Lemma add_hook_appends_example :
  exists hooks' d',
    add_hook example_loads example_dumps example_partial no_faults
      "20250101_000000" 200 "preToolUse" "^Write$" "python3 /opt/hooks/write.py"
      example_disk = (Ok tt, d') /\
    dict_get "preToolUse" hooks' =
      Some (JList [hook_config "^Read$" "python3 /opt/hooks/read.py";
                   hook_config "^Write$" "python3 /opt/hooks/write.py"]) /\
    HooksFormat._validate_hooks_config hooks' = true.
Proof.
  destruct (add_hook_appends example_loads example_dumps example_partial no_faults
              "20250101_000000" 200 "preToolUse" "^Write$" "python3 /opt/hooks/write.py"
              example_disk example_settings eq_refl eq_refl eq_refl
              eq_refl eq_refl eq_refl eq_refl eq_refl eq_refl)
    as (settings' & hooks' & d' & Hrun & _ & _ & _ & Hlist & _ & Hvalid).
  exists hooks', d'. split; [exact Hrun|]. split; [exact Hlist|]. now apply Hvalid.
Defined.

Lemma remove_hooks_removes_example :
  exists settings' d',
    remove_hooks example_loads example_dumps example_partial no_faults
      "20250101_000000" 200 (Some "") example_disk = (Ok true, d') /\
    settings_file d' = Some {| content := example_dumps (JDict settings'); mtime := 200 |} /\
    dict_get "hooks" settings' = None /\
    dict_get "theme" settings' = Some (JStr "dark").
Proof.
  destruct (remove_hooks_removes example_loads example_dumps example_partial no_faults
              "20250101_000000" 200 example_disk example_settings
              eq_refl eq_refl eq_refl eq_refl eq_refl) as (_ & Hall & _).
  destruct (Hall ltac:(discriminate) (Some "") ltac:(now right))
    as (settings' & d' & Hrun & Hfile & Hgone & Hother).
  exists settings', d'. split; [exact Hrun|]. split; [exact Hfile|]. split; [exact Hgone|].
  now rewrite Hother by discriminate.
Defined.


Lemma migration_moves_the_fields_example :
  exists clean merged d',
    migrate_superclaude_data example_loads example_dumps example_partial no_faults
      "20250101_000000" 200 {| settings_disk := example_disk; metadata_file := None |}
    = (Ok true, {| settings_disk := d';
                   metadata_file := Some (example_dumps (JDict merged)) |}) /\
    dict_get "components" clean = None /\
    dict_get "theme" clean = Some (JStr "dark") /\
    dict_get "components" merged = dict_get "components" example_settings /\
    migrate_superclaude_data example_loads example_dumps example_partial no_faults
      "20250102_000000" 300
      {| settings_disk := d'; metadata_file := Some (example_dumps (JDict merged)) |}
    = (Ok false,
       {| settings_disk := d'; metadata_file := Some (example_dumps (JDict merged)) |}).
Proof.
  destruct (migration_moves_the_fields example_loads example_dumps example_partial
              no_faults "20250101_000000" 200
              {| settings_disk := example_disk; metadata_file := None |} example_settings
              eq_refl) as [[Hnone _] | [_ Hmoves]].
  - specialize (Hnone "components" ltac:(now left)). discriminate.
  - destruct (Hmoves [] eq_refl eq_refl eq_refl eq_refl eq_refl eq_refl)
      as (clean & merged & d' & Hcs & Hrun & _ & Hclean & Hmerged & Hagain).
    injection Hcs as <-.
    eexists _, merged, d'. split; [exact Hrun|].
    split; [exact (Hclean "components")|]. split; [exact (Hclean "theme")|].
    split; [exact (Hmerged "components")|].
    apply Hagain.
    + apply (bool_decide_eq_true_1 _). reflexivity.
    + split; vm_compute; reflexivity.
Defined.


Lemma remove_component_registration_removes_example :
  (exists meta' components',
     remove_component_registration example_loads example_dumps example_partial no_faults
       "core" (Some "example settings") = (Ok true, Some (example_dumps (JDict meta'))) /\
     dict_get "components" meta' = Some (JDict components') /\
     dict_get "core" components' = None /\
     dict_get "theme" meta' = Some (JStr "dark")) /\
  remove_component_registration example_loads example_dumps example_partial no_faults
    "extras" (Some "example settings") = (Ok false, Some "example settings").
Proof.
  split.
  - pose proof (remove_component_registration_removes example_loads example_dumps
                  example_partial no_faults "core" (Some "example settings")
                  example_settings eq_refl eq_refl eq_refl eq_refl eq_refl) as H.
    change (dict_has "core" (existing_components example_settings)) with true in H.
    cbv iota in H.
    destruct H as (meta' & components' & Hrun & Hcomponents & Hgone & _ & Hkeys).
    exists meta', components'. split; [exact Hrun|]. split; [exact Hcomponents|].
    split; [exact Hgone|]. now rewrite Hkeys by discriminate.
  - exact (remove_component_registration_removes example_loads example_dumps
             example_partial no_faults "extras" (Some "example settings")
             example_settings eq_refl eq_refl eq_refl eq_refl eq_refl).
Defined.

Lemma framework_version_is_read_back_example :
  exists text,
    update_framework_version example_loads example_dumps example_partial no_faults
      "2025-01-01T00:00:00" "3.0.0" None = (Ok tt, Some text) /\
    get_framework_version example_loads (Some text) = Ok (JStr "3.0.0") /\
    get_metadata_setting example_loads "framework.updated_at" JNull (Some text)
    = Ok (JStr "2025-01-01T00:00:00").
Proof.
  destruct (framework_version_is_read_back example_loads example_dumps example_partial
              no_faults "2025-01-01T00:00:00" "3.0.0" None []
              eq_refl eq_refl eq_refl eq_refl eq_refl eq_refl eq_refl)
    as (meta' & framework' & Hwith & Hrun & _ & _ & _ & Hread).
  injection Hwith as <-.
  destruct Hread as [Hversion Htime]; [split; vm_compute; reflexivity|].
  eexists. split; [exact Hrun|]. split; [exact Hversion | apply Htime].
Defined.

End SettingsFacts.

(** ** The backups that a cleanup keeps *)

Module RetentionFacts.
Import Backups Retention.

(** *** What a cleanup removes *)

(** The loop that unlinks the old backups, entry by entry: a regular file
    whose name is among them is gone unless the file system refuses, every
    other entry stays. *)
Lemma unlink_all_lookup io (old : list (Z * string)) :
  forall (dir : gmap string entry) n,
  fold_left (fun dir '(_, name) => unlink_quietly io name dir) old dir !! n =
  match dir !! n with
  | Some (EFile f) =>
      if str_in n (map snd old) && negb (unlink_fails io n) then None else Some (EFile f)
  | x => x
  end.
Proof.
  induction old as [|[m name] rest IH]; intros dir n.
  - cbn. now destruct (dir !! n) as [[f|x]|].
  - cbn [fold_left map snd]. rewrite IH. unfold str_in. cbn [existsb].
    unfold unlink_quietly.
    destruct (String.eqb_spec n name) as [->|Hne]; cbn [orb].
    + destruct (dir !! name) as [[f|x]|] eqn:E.
      * destruct (unlink_fails io name); cbn [negb andb].
        -- rewrite E. now rewrite andb_false_r.
        -- now rewrite lookup_delete_eq.
      * now rewrite E.
      * now rewrite E.
    + destruct (dir !! name) as [[f|x]|] eqn:E; [destruct (unlink_fails io name)|..];
        [|rewrite lookup_delete_ne by congruence|..]; reflexivity.
Qed.

Lemma insert_sorted_perm a l : Permutation (insert_sorted a l) (a :: l).
Proof.
  induction l as [|b r IH]; cbn; [reflexivity|].
  destruct (newer a b); [reflexivity|]. rewrite IH. apply perm_swap.
Qed.

Lemma sort_newest_first_perm l : Permutation (sort_newest_first l) l.
Proof.
  induction l as [|a r IH]; cbn; [reflexivity|].
  rewrite insert_sorted_perm. now constructor.
Qed.

(** [_cleanup_old_backups] in terms of [backup_files]. *)
Lemma cleanup_eq io keep d :
  _cleanup_old_backups io keep d =
  {| settings_file := settings_file d;
     backup_dir :=
       fold_left (fun dir '(_, name) => unlink_quietly io name dir)
         (drop keep (sort_newest_first (backup_files (backup_dir d)))) (backup_dir d) |}.
Proof. reflexivity. Qed.

(** The elements of [backup_files]. *)
Lemma in_backup_files dir m name :
  In (m, name) (backup_files dir) <->
  is_backup_name name = true /\ exists e, dir !! name = Some e /\ m = entry_mtime e.
Proof.
  unfold backup_files. rewrite <- list_elem_of_In, list_elem_of_omap. split.
  - intros ([n e] & Hin & Heq). apply elem_of_map_to_list in Hin.
    destruct (is_backup_name n) eqn:En; [|discriminate]. injection Heq as <- <-.
    split; [exact En|]. now exists e.
  - intros (Hn & e & He & ->). exists (name, e). split; [now apply elem_of_map_to_list|].
    now rewrite Hn.
Qed.

(** A name among the old backups matches the glob. *)
Lemma old_is_backup keep dir n :
  str_in n (map snd (drop keep (sort_newest_first (backup_files dir)))) = true ->
  is_backup_name n = true.
Proof.
  intros H. apply HooksFormatFacts.str_in_In in H. apply in_map_iff in H as ([m n'] & E & Hin).
  cbn in E. subst n'.
  assert (In (m, n) (sort_newest_first (backup_files dir))) as Hin'.
  { rewrite <- (take_drop keep). apply in_or_app. now right. }
  clear Hin. rename Hin' into Hin.
  apply (Permutation_in _ (sort_newest_first_perm _)) in Hin.
  now apply in_backup_files in Hin as [Hn _].
Qed.

(** X15. [_cleanup_old_backups] leaves the settings file alone and removes
    nothing but regular files whose name matches [settings_*.json]: every
    other entry of the backup directory is after the cleanup what it was
    before, whatever the file system refuses to unlink. *)
Theorem cleanup_removes_only_backup_files io keep d :
  settings_file (_cleanup_old_backups io keep d) = settings_file d /\
  forall name,
    backup_dir (_cleanup_old_backups io keep d) !! name = backup_dir d !! name \/
    (backup_dir (_cleanup_old_backups io keep d) !! name = None /\
     is_backup_name name = true /\
     exists f, backup_dir d !! name = Some (EFile f)).
Proof.
  split; [reflexivity|]. intros name. rewrite cleanup_eq. cbn [backup_dir].
  rewrite unlink_all_lookup.
  destruct (backup_dir d !! name) as [[f|x]|] eqn:E; try (now left).
  destruct (str_in name _) eqn:Hin; [|now left].
  destruct (unlink_fails io name); [now left|]. cbn [negb andb].
  right. split; [reflexivity|]. split; [exact (old_is_backup _ _ _ Hin) | now exists f].
Qed.

Lemma backup_file_names_sublist (dir : gmap string entry) :
  sublist (backup_file_names dir) (map_to_list dir).*1.
Proof.
  unfold backup_file_names. induction (map_to_list dir) as [|[n e] r IH]; [constructor|].
  cbn. destruct (is_backup_name n && is_file e); cbn; now constructor.
Qed.

Lemma in_backup_file_names dir name :
  In name (backup_file_names dir) <->
  is_backup_name name = true /\ exists f, dir !! name = Some (EFile f).
Proof.
  unfold backup_file_names. rewrite <- list_elem_of_In, list_elem_of_omap. split.
  - intros ([n e] & Hin & Heq). apply elem_of_map_to_list in Hin.
    destruct (is_backup_name n) eqn:En; [|discriminate].
    destruct e as [f|x]; [|discriminate]. injection Heq as <-.
    split; [exact En|]. now exists f.
  - intros (Hn & f & Hf). exists (name, EFile f).
    split; [now apply elem_of_map_to_list|]. now rewrite Hn.
Qed.

(** The backup files that a cleanup leaves, and that the file system lets
    it unlink, are among the [keep_count] first of the sorted list. *)
Lemma kept_is_among_first io keep d name :
  unlink_fails io name = false ->
  In name (backup_file_names (backup_dir (_cleanup_old_backups io keep d))) ->
  exists f, backup_dir d !! name = Some (EFile f) /\
    In (mtime f, name) (take keep (sort_newest_first (backup_files (backup_dir d)))).
Proof.
  intros Hio Hin. apply in_backup_file_names in Hin as (Hn & f & Hf).
  rewrite cleanup_eq in Hf. cbn [backup_dir] in Hf. rewrite unlink_all_lookup in Hf.
  destruct (backup_dir d !! name) as [[f0|x]|] eqn:E; try discriminate.
  rewrite Hio in Hf. cbn [negb] in Hf. rewrite andb_true_r in Hf.
  destruct (str_in name _) eqn:Hold; [discriminate|]. injection Hf as ->.
  exists f. split; [reflexivity|].
  assert (In (mtime f, name) (sort_newest_first (backup_files (backup_dir d)))) as Hs.
  { apply (Permutation_in _ (Permutation_sym (sort_newest_first_perm _))).
    apply in_backup_files. split; [exact Hn|]. now exists (EFile f). }
  rewrite <- (take_drop keep) in Hs. apply in_app_or in Hs as [Hs|Hs]; [exact Hs|].
  exfalso. assert (str_in name
                     (map snd (drop keep (sort_newest_first (backup_files (backup_dir d)))))
                   = true) as Hyes; [|congruence].
  apply HooksFormatFacts.str_in_In. apply in_map_iff. now exists (mtime f, name).
Qed.

(** A backup file after a cleanup was one before it. *)
Lemma kept_was_there io keep d name :
  In name (backup_file_names (backup_dir (_cleanup_old_backups io keep d))) ->
  In name (backup_file_names (backup_dir d)).
Proof.
  intros Hin. apply in_backup_file_names in Hin as (Hn & f & Hf).
  apply in_backup_file_names. split; [exact Hn|].
  rewrite cleanup_eq in Hf. cbn [backup_dir] in Hf. rewrite unlink_all_lookup in Hf.
  destruct (backup_dir d !! name) as [[f0|x]|] eqn:E; try discriminate. now exists f0.
Qed.

(** X16. After [_cleanup_old_backups] the backup directory holds at most
    [keep_count] backup files, where the file system lets every backup
    file be unlinked. *)
Theorem cleanup_keeps_at_most io keep d :
  (forall name, In name (backup_file_names (backup_dir d)) -> unlink_fails io name = false) ->
  (length (backup_file_names (backup_dir (_cleanup_old_backups io keep d))) <= keep)%nat.
Proof.
  intros Hio.
  set (dir' := backup_dir (_cleanup_old_backups io keep d)).
  set (first := take keep (sort_newest_first (backup_files (backup_dir d)))).
  assert (backup_file_names dir' ⊆+ map snd first) as Hsub.
  { apply NoDup_submseteq.
    - eapply sublist_NoDup; [|apply backup_file_names_sublist].
      apply NoDup_fst_map_to_list.
    - intros name Hin. apply list_elem_of_In in Hin.
      pose proof (Hio name (kept_was_there io keep d name Hin)) as Hname.
      apply (kept_is_among_first io keep d name Hname) in Hin as (f & _ & Hin).
      apply list_elem_of_In, in_map_iff. now exists (mtime f, name). }
  apply submseteq_length in Hsub. rewrite length_map in Hsub.
  unfold first in Hsub. rewrite length_take in Hsub. lia.
Qed.

(** *** The order of the sort *)

Lemma string_ltb_lt a b : String.ltb a b = true <-> String_as_OT.lt a b.
Proof.
  rewrite <- String_as_OT.cmp_lt. unfold String.ltb, String_as_OT.cmp.
  destruct (String.compare a b); split; congruence.
Qed.

Lemma string_ltb_irrefl a : String.ltb a a = false.
Proof.
  destruct (String.ltb a a) eqn:E; [|reflexivity].
  apply string_ltb_lt in E. now destruct (String_as_OT.lt_not_eq _ _ E).
Qed.

Lemma string_ltb_trans a b c :
  String.ltb a b = true -> String.ltb b c = true -> String.ltb a c = true.
Proof. rewrite !string_ltb_lt. apply String_as_OT.lt_trans. Qed.

Lemma string_ltb_total a b :
  String.ltb a b = false -> String.ltb b a = false -> a = b.
Proof.
  unfold String.ltb. rewrite (String.compare_antisym b a).
  destruct (String.compare a b) eqn:E; cbn; try discriminate.
  intros _ _. now apply String.compare_eq_iff.
Qed.

Lemma newer_true a b :
  newer a b = true <->
  (fst b < fst a)%Z \/ (fst a = fst b /\ String.ltb (snd b) (snd a) = true).
Proof.
  unfold newer. rewrite orb_true_iff, andb_true_iff, Z.ltb_lt, Z.eqb_eq. reflexivity.
Qed.

Lemma newer_false a b :
  newer a b = false <->
  (fst a < fst b)%Z \/ (fst a = fst b /\ String.ltb (snd b) (snd a) = false).
Proof.
  unfold newer. rewrite orb_false_iff, andb_false_iff, Z.ltb_ge, Z.eqb_neq.
  split; [intros [H [H'|H']] | intros [H | [H H']]]; try lia; try tauto.
  - destruct (Z.eq_dec (fst a) (fst b)); [right | left]; [tauto | lia].
  - split; [lia | tauto].
Qed.

Lemma newer_irrefl a : newer a a = false.
Proof. apply newer_false. right. split; [reflexivity | apply string_ltb_irrefl]. Qed.

Lemma newer_asym a b : newer a b = true -> newer b a = false.
Proof.
  rewrite newer_true, newer_false. intros [H | [H H']]; [now left|].
  right. split; [congruence|].
  destruct (String.ltb (snd a) (snd b)) eqn:E; [|reflexivity].
  pose proof (string_ltb_trans _ _ _ E H') as Hc. now rewrite string_ltb_irrefl in Hc.
Qed.

Lemma newer_total a b : newer a b = false -> newer b a = false -> a = b.
Proof.
  rewrite !newer_false. destruct a as [m n], b as [m' n']. cbn.
  intros [H | [H H']] [G | [G G']]; try lia.
  subst. f_equal. now apply string_ltb_total.
Qed.

(** [b] is not newer than [a], and [c] is not newer than [b]: then [c] is
    not newer than [a]. *)
Lemma not_newer_trans a b c :
  newer b a = false -> newer c b = false -> newer c a = false.
Proof.
  rewrite !newer_false. destruct a as [ma na], b as [mb nb], c as [mc nc]. cbn.
  intros [H | [H H']] [G | [G G']]; try (left; lia). right. split; [congruence|].
  destruct (String.ltb na nc) eqn:E; [|reflexivity].
  destruct (String.ltb nb nc) eqn:E'; [congruence|].
  destruct (String.ltb nc nb) eqn:E''.
  - pose proof (string_ltb_trans _ _ _ E E''). congruence.
  - pose proof (string_ltb_total _ _ E' E''). subst. congruence.
Qed.

(** An insertion keeps the order: no entry comes before one that is newer. *)
Lemma insert_sorted_sorted a l :
  StronglySorted (fun x y => newer y x = false) l ->
  StronglySorted (fun x y => newer y x = false) (insert_sorted a l).
Proof.
  induction 1 as [|b r Hr IH Hb]; cbn; [repeat constructor|].
  destruct (newer a b) eqn:E.
  - constructor; [now constructor|]. constructor; [now apply newer_asym|].
    eapply Forall_impl; [exact Hb|]. intros x Hx. cbn in Hx.
    exact (not_newer_trans a b x (newer_asym _ _ E) Hx).
  - constructor; [exact IH|].
    apply Forall_forall. intros x Hx. apply list_elem_of_In in Hx.
    apply (Permutation_in _ (insert_sorted_perm a r)) in Hx as [<- | Hx]; [exact E|].
    rewrite Forall_forall in Hb. apply Hb. now apply list_elem_of_In.
Qed.

Lemma sort_newest_first_sorted l :
  StronglySorted (fun x y => newer y x = false) (sort_newest_first l).
Proof.
  induction l as [|a r IH]; cbn; [constructor | now apply insert_sorted_sorted].
Qed.

Lemma sorted_across {A} (R : A -> A -> Prop) l1 l2 x y :
  StronglySorted R (l1 ++ l2) -> In x l1 -> In y l2 -> R x y.
Proof.
  induction l1 as [|a r IH]; intros Hs Hx Hy; [destruct Hx|].
  cbn in Hs. apply StronglySorted_inv in Hs as [Hs Ha].
  destruct Hx as [-> | Hx]; [|now apply IH].
  rewrite Forall_forall in Ha. apply Ha, list_elem_of_In, in_or_app. now right.
Qed.

Lemma sorted_suffix {A} (R : A -> A -> Prop) l1 l2 :
  StronglySorted R (l1 ++ l2) -> StronglySorted R l2.
Proof.
  induction l1 as [|a r IH]; intros Hs; [exact Hs|].
  cbn in Hs. apply StronglySorted_inv in Hs as [Hs _]. now apply IH.
Qed.

(** A backup file that a cleanup removed was among the old ones. *)
Lemma removed_is_old io keep d name f :
  backup_dir d !! name = Some (EFile f) ->
  backup_dir (_cleanup_old_backups io keep d) !! name = None ->
  In (mtime f, name) (drop keep (sort_newest_first (backup_files (backup_dir d)))).
Proof.
  intros Hf Hgone. rewrite cleanup_eq in Hgone. cbn [backup_dir] in Hgone.
  rewrite unlink_all_lookup, Hf in Hgone.
  destruct (str_in name _) eqn:Hold; [|discriminate].
  apply HooksFormatFacts.str_in_In in Hold. apply in_map_iff in Hold as ([m n] & E & Hin).
  cbn in E. subst n.
  assert (In (m, name) (backup_files (backup_dir d))) as Hb.
  { apply (Permutation_in _ (sort_newest_first_perm _)).
    rewrite <- (take_drop keep). apply in_or_app. now right. }
  apply in_backup_files in Hb as (_ & e & He & ->). rewrite Hf in He. now injection He as <-.
Qed.

(** X17. The backups that [_cleanup_old_backups] removes are the oldest:
    every backup file that is left, and that the file system would have
    let it unlink, comes before every backup file that was removed in the
    order of the sort, which is by modification time and, for equal times,
    by path. *)
Theorem cleanup_keeps_the_newest io keep d removed f kept :
  backup_dir d !! removed = Some (EFile f) ->
  backup_dir (_cleanup_old_backups io keep d) !! removed = None ->
  In kept (backup_file_names (backup_dir (_cleanup_old_backups io keep d))) ->
  unlink_fails io kept = false ->
  exists f', backup_dir d !! kept = Some (EFile f') /\
    newer (mtime f', kept) (mtime f, removed) = true.
Proof.
  intros Hf Hgone Hkept Hio.
  pose proof (removed_is_old io keep d removed f Hf Hgone) as Hold.
  pose proof Hkept as Hkept'. apply in_backup_file_names in Hkept' as (_ & g & Hg).
  apply (kept_is_among_first io keep d kept Hio) in Hkept as (f' & Hf' & Hfirst).
  exists f'. split; [exact Hf'|].
  pose proof (sort_newest_first_sorted (backup_files (backup_dir d))) as Hs.
  rewrite <- (take_drop keep) in Hs.
  pose proof (sorted_across _ _ _ _ _ Hs Hfirst Hold) as Hnot. cbn beta in Hnot.
  destruct (newer (mtime f', kept) (mtime f, removed)) eqn:E; [reflexivity|].
  pose proof (newer_total _ _ E Hnot) as Heq. injection Heq as _ ->. congruence.
Qed.

(** An entry with [keep] newer entries before it is not among the [keep]
    first of the sorted list. *)
Lemma outnumbered_is_old keep (l newer_ones : list (Z * string)) x :
  In x l ->
  NoDup newer_ones ->
  (forall y, In y newer_ones -> In y l /\ newer y x = true) ->
  (keep <= length newer_ones)%nat ->
  In x (drop keep (sort_newest_first l)).
Proof.
  intros Hx Hnd Hnewer Hlen.
  pose proof (sort_newest_first_sorted l) as Hs.
  assert (In x (sort_newest_first l)) as Hxs
    by (apply (Permutation_in _ (Permutation_sym (sort_newest_first_perm l))), Hx).
  rewrite <- (take_drop keep) in Hxs, Hs.
  apply in_app_or in Hxs as [Hxs | Hxs]; [|exact Hxs]. exfalso.
  apply list_elem_of_In, list_elem_of_split in Hxs as (pre & post & Hsplit).
  assert (newer_ones ⊆+ pre) as Hsub.
  { apply NoDup_submseteq; [exact Hnd|]. intros y Hy. apply list_elem_of_In in Hy.
    destruct (Hnewer y Hy) as [Hyl Hyx].
    apply (Permutation_in _ (Permutation_sym (sort_newest_first_perm l))) in Hyl.
    rewrite <- (take_drop keep), Hsplit in Hyl.
    rewrite <- !app_assoc in Hyl. apply in_app_or in Hyl as [Hyl | Hyl];
      [now apply list_elem_of_In|].
    exfalso. destruct Hyl as [-> | Hyl]; [now rewrite newer_irrefl in Hyx|].
    rewrite Hsplit, <- app_assoc in Hs. apply sorted_suffix in Hs.
    apply StronglySorted_inv in Hs as [_ Hall]. rewrite Forall_forall in Hall.
    specialize (Hall y (proj2 (list_elem_of_In _ _) Hyl)). cbn beta in Hall. congruence. }
  apply submseteq_length in Hsub.
  assert (length (take keep (sort_newest_first l)) <= keep)%nat as Htake
    by (rewrite length_take; lia).
  rewrite Hsplit, length_app in Htake. cbn in Htake. lia.
Qed.

(** X18. Restoring a backup that ten newer backups outnumber loses it,
    where the file system refuses neither the backup of the settings nor
    the unlinking of the backup that was asked for.  [restore_backup]
    first backs up the current settings, and the cleanup of that backup
    removes the backup that was asked for when ten entries of the
    directory are newer; the copy then fails, [restore_backup] returns
    [False], the settings file is as it was, and the backup is gone. *)
Theorem restoring_the_oldest_backup_loses_it
  (json_loads : string -> option json) io stamp backup_name d s f v newer_ones :
  backup_fails io = false ->
  unlink_fails io backup_name = false ->
  settings_file d = Some s ->
  backup_dir d !! backup_name = Some (EFile f) ->
  backup_name <> backup_name_at stamp ->
  is_backup_name backup_name = true ->
  utf8_valid (content f) = true ->
  json_loads (content f) = Some v ->
  NoDup newer_ones ->
  (10 <= length newer_ones)%nat ->
  (forall y, In y newer_ones ->
     In y (backup_files (backup_dir (copy_settings stamp s d))) /\
     newer y (mtime f, backup_name) = true) ->
  exists d',
    restore_backup json_loads io stamp backup_name d = (Ok false, d') /\
    settings_file d' = Some s /\
    backup_dir d' !! backup_name = None.
Proof.
  intros Hbf Hio Hs Hf Hname Hbackup Hutf Hjson Hnd Hlen Hnewer.
  set (d1 := _cleanup_old_backups io 10 (copy_settings stamp s d)).
  assert (backup_dir (copy_settings stamp s d) !! backup_name = Some (EFile f)) as Hf1.
  { unfold copy_settings, copy_to_backup. cbn [backup_dir].
    destruct (backup_dir d !! backup_name_at stamp) as [[g|x]|]; [|exact Hf|];
      now rewrite lookup_insert_ne by congruence. }
  assert (backup_dir d1 !! backup_name = None) as Hgone.
  { unfold d1. rewrite cleanup_eq. cbn [backup_dir]. rewrite unlink_all_lookup, Hf1, Hio.
    cbn [negb]. rewrite andb_true_r.
    assert (str_in backup_name
              (map snd (drop 10 (sort_newest_first
                                   (backup_files (backup_dir (copy_settings stamp s d))))))
            = true) as ->; [|reflexivity].
    apply HooksFormatFacts.str_in_In, in_map_iff. exists (mtime f, backup_name).
    split; [reflexivity|].
    apply (outnumbered_is_old 10 _ newer_ones); try assumption.
    apply in_backup_files. split; [exact Hbackup|]. now exists (EFile f). }
  exists d1. split; [|split; [exact Hs | exact Hgone]].
  unfold restore_backup. rewrite Hf. unfold restore_try, read_text.
  rewrite Hutf, Hjson, Hs. unfold _create_settings_backup. rewrite Hs, Hbf.
  fold d1. now rewrite Hgone.
Qed.

(** *** Examples *)

Lemma cleanup_keeps_at_most_example :
  (length (backup_file_names (backup_dir (_cleanup_old_backups no_faults 9 example_full_disk)))
   <= 9)%nat.
Proof. apply (cleanup_keeps_at_most no_faults 9 example_full_disk). reflexivity. Defined.

Lemma cleanup_keeps_the_newest_example :
  exists f',
    backup_dir example_full_disk !! "settings_20250110_000000.json" = Some (EFile f') /\
    newer (mtime f', "settings_20250110_000000.json")
          (101, "settings_20250101_000000.json") = true.
Proof.
  apply (cleanup_keeps_the_newest no_faults 9 example_full_disk
           "settings_20250101_000000.json" {| content := "{}"; mtime := 101 |}
           "settings_20250110_000000.json").
  - vm_compute; reflexivity.
  - vm_compute; reflexivity.
  - apply (proj2 (in_backup_file_names _ _)). split.
    + vm_compute; reflexivity.
    + eexists. vm_compute; reflexivity.
  - reflexivity.
Defined.

Lemma restoring_the_oldest_backup_loses_it_example :
  exists d',
    restore_backup (fun _ => Some (JDict [])) no_faults "20250111_000000"
      "settings_20250101_000000.json" example_full_disk = (Ok false, d') /\
    settings_file d' = settings_file example_full_disk /\
    backup_dir d' !! "settings_20250101_000000.json" = None.
Proof.
  apply (restoring_the_oldest_backup_loses_it (fun _ => Some (JDict [])) no_faults
           "20250111_000000" "settings_20250101_000000.json" example_full_disk
           {| content := "{}"; mtime := 200 |} {| content := "{}"; mtime := 101 |}
           (JDict [])
           [(102, "settings_20250102_000000.json"); (103, "settings_20250103_000000.json");
            (104, "settings_20250104_000000.json"); (105, "settings_20250105_000000.json");
            (106, "settings_20250106_000000.json"); (107, "settings_20250107_000000.json");
            (108, "settings_20250108_000000.json"); (109, "settings_20250109_000000.json");
            (110, "settings_20250110_000000.json"); (200, "settings_20250111_000000.json")]).
  - reflexivity.
  - reflexivity.
  - reflexivity.
  - vm_compute; reflexivity.
  - discriminate.
  - vm_compute; reflexivity.
  - vm_compute; reflexivity.
  - reflexivity.
  - apply (bool_decide_eq_true_1 _). vm_compute; reflexivity.
  - vm_compute. lia.
  - intros y Hy. simpl In in Hy.
    repeat (destruct Hy as [<- | Hy];
            [split;
             [apply (proj2 (in_backup_files _ _ _)); split;
              [vm_compute; reflexivity | eexists; split; vm_compute; reflexivity]
             | vm_compute; reflexivity]|]).
    destruct Hy.
Defined.

End RetentionFacts.

(** ** The backup that a save makes *)

Module SavedBackupsFacts.
Import Backups Retention Settings RetentionFacts.









(** *** Examples *)



End SavedBackupsFacts.

(** ** The routing of a call *)

Module RoutingFacts.
Import Interceptor InterceptorFacts Routing.

(** *** The two ways through [process_tool_call] *)

(** The safety override looks at the directory-tree tool only. *)
Lemma safe_tree_other env s tool_input st :
  s <> directory_tree_tool ->
  should_use_safe_directory_tree env (JStr s) tool_input st = (Return false, st).
Proof.
  intros Hs. unfold should_use_safe_directory_tree. cbv [mbind M_bind lift mret M_ret].
  cbn [py_in_keys]. unfold MORPH_TOOLS_WITH_FALLBACK, dict_keys. cbn [map fst str_in existsb].
  destruct (String.eqb_spec s "mcp__filesystem-with-morph__directory_tree") as [E|E];
    [now destruct Hs|]. reflexivity.
Qed.

(** A computation that is quiet leaves the counters as they are. *)
Lemma quiet_run {A} (m : M A) st :
  quiet m -> session_stats (snd (m st)) = session_stats st.
Proof.
  intros H. specialize (H st). unfold wp in H. destruct (m st) as [r st']. apply H.
Qed.

(** The last three lines of [process_tool_call]: a call for which
    [should_intercept] answers [False]. *)
Lemma process_not_intercepted env s tool_input st :
  log_fails env = false ->
  s <> directory_tree_tool ->
  fst (should_intercept env (JStr s) tool_input (parse_flags env) (counted_total st))
  = Return false ->
  exists st',
    process_tool_call env (JStr s) tool_input st = (Return native_response, st') /\
    allowed_native st st' native_response.
Proof.
  intros Hlogs Hs Hi. unfold process_tool_call.
  cbv [mbind M_bind incr_total get_stats set_stats].
  fold (counted_total st). rewrite (safe_tree_other env s tool_input _ Hs).
  pose proof (quiet_run _ (counted_total st)
                (should_intercept_quiet env (JStr s) tool_input (parse_flags env))) as Hq.
  destruct (should_intercept env (JStr s) tool_input (parse_flags env) (counted_total st))
    as [r st2]. cbn [fst snd] in *. subst r.
  run_ops. eexists. split; [reflexivity|]. split; [reflexivity|].
  cbn. rewrite Hq. reflexivity.
Qed.

(** The branch of [process_tool_call] for a call that [should_intercept]
    accepts, with and without the backend. *)
Lemma process_intercepted env s m tool_input mapped st :
  log_fails env = false ->
  s <> directory_tree_tool ->
  fst (should_intercept env (JStr s) tool_input (parse_flags env) (counted_total st))
  = Return true ->
  dict_get s TOOL_MAPPING = Some m ->
  map_tool_parameters (JStr s) tool_input = Ok mapped ->
  exists d st',
    process_tool_call env (JStr s) tool_input st = (Return d, st') /\
    routed env (JStr s) tool_input (JStr m) mapped st st' d.
Proof.
  intros Hlogs Hs Hi Hm Hmap. unfold process_tool_call.
  cbv [mbind M_bind incr_total get_stats set_stats].
  fold (counted_total st). rewrite (safe_tree_other env s tool_input _ Hs).
  pose proof (quiet_run _ (counted_total st)
                (should_intercept_quiet env (JStr s) tool_input (parse_flags env))) as Hq.
  destruct (should_intercept env (JStr s) tool_input (parse_flags env) (counted_total st))
    as [r st2]. cbn [fst snd] in *. subst r.
  rewrite validate_morph_server_returns. unfold routed.
  destruct (server_available env); cbn [negb].
  - unfold create_morph_tool_call. cbn [mapped_tool_name]. rewrite Hm, Hmap.
    cbn [mbind result_bind]. run_ops.
    eexists _, _. split; [reflexivity|].
    split; [eexists; split; [reflexivity|]; split; reflexivity|].
    split; [reflexivity|]. split; [reflexivity|]. cbn. rewrite Hq. reflexivity.
  - run_ops. eexists _, _. split; [reflexivity|]. split; [reflexivity|].
    cbn. rewrite Hq. reflexivity.
Qed.

Lemma str_in_keys {V} k (d : list (string * V)) : str_in k (dict_keys d) = dict_has k d.
Proof.
  unfold dict_has, dict_keys, str_in. induction d as [|[k' v] r IH]; [reflexivity|].
  cbn. destruct (String.eqb k k'); [reflexivity | exact IH].
Qed.

Lemma str_in_false s xs : ~ In s xs -> str_in s xs = false.
Proof.
  intros H. destruct (str_in s xs) eqn:E; [|reflexivity].
  apply HooksFormatFacts.str_in_In in E. now destruct H.
Qed.

Lemma str_in_true s xs : In s xs -> str_in s xs = true.
Proof. apply HooksFormatFacts.str_in_In. Qed.

(** X21. Where the interception log can be written, with [--no-morph]
    among the flags, a call of any tool but the directory-tree tool is
    left to the native tool: the decision is the bare [allow], and the
    call goes to [native_operations]. *)
Theorem no_morph_flag_allows env s tool_input st :
  log_fails env = false ->
  In "--no-morph" (parse_flags env) ->
  s <> directory_tree_tool ->
  exists d st',
    process_tool_call env (JStr s) tool_input st = (Return d, st') /\
    allowed_native st st' d.
Proof.
  intros Hlogs Hflag Hs.
  destruct (process_not_intercepted env s tool_input st Hlogs Hs) as (st' & Hrun & Hnat).
  - unfold should_intercept. now rewrite (str_in_true _ _ Hflag).
  - now exists native_response, st'.
Qed.

(** [should_intercept] answers [False] for a tool that is not mapped,
    under every flag. *)
Lemma should_intercept_unmapped env s tool_input flags st :
  dict_get s TOOL_MAPPING = None ->
  fst (should_intercept env (JStr s) tool_input flags st) = Return false.
Proof.
  intros Hmap. unfold should_intercept, should_auto_activate. cbn [py_in_keys].
  rewrite str_in_keys. unfold dict_has. rewrite Hmap.
  destruct (str_in "--no-morph" flags); [reflexivity|].
  destruct (str_in "--morph-only" flags); [reflexivity|].
  destruct (str_in "--morph" flags || str_in "--morphllm" flags); reflexivity.
Qed.

(** X22. Where the interception log can be written, a call of a tool that
    [TOOL_MAPPING] does not map, and that is not the directory-tree tool,
    is left to the native tool whatever the flags and the counters are. *)
Theorem unmapped_tool_is_allowed env s tool_input st :
  log_fails env = false ->
  dict_get s TOOL_MAPPING = None ->
  s <> directory_tree_tool ->
  exists d st',
    process_tool_call env (JStr s) tool_input st = (Return d, st') /\
    allowed_native st st' d.
Proof.
  intros Hlogs Hmap Hs.
  destruct (process_not_intercepted env s tool_input st Hlogs Hs) as (st' & Hrun & Hnat).
  - now apply should_intercept_unmapped.
  - now exists native_response, st'.
Qed.

(** [should_intercept] answers [True] for a mapped tool under a flag that
    asks for the backend, from the operations threshold on, and for
    [LS]. *)
Lemma should_intercept_mapped env s m tool_input flags st :
  dict_get s TOOL_MAPPING = Some m ->
  ~ In "--no-morph" flags ->
  explicit_flag flags \/
  (threshold_filesystem_operations <= total_operations (session_stats st))%Z \/
  s = "LS" ->
  fst (should_intercept env (JStr s) tool_input flags st) = Return true.
Proof.
  intros Hm Hno Hcase. unfold should_intercept, should_auto_activate. cbn [py_in_keys].
  rewrite str_in_keys. unfold dict_has. rewrite Hm. rewrite (str_in_false _ _ Hno).
  destruct (str_in "--morph-only" flags) eqn:Eonly; [reflexivity|].
  destruct (str_in "--morph" flags || str_in "--morphllm" flags) eqn:Emorph; [reflexivity|].
  cbv [mbind M_bind lift mret M_ret get_stats]. cbn [negb].
  destruct (threshold_filesystem_operations <=? total_operations (session_stats st))%Z eqn:Et;
    [reflexivity|].
  destruct Hcase as [Hex | [Ht | ->]].
  - exfalso. apply orb_false_iff in Emorph as [E1 E2].
    destruct Hex as [H | [H | H]]; apply str_in_true in H; congruence.
  - apply Z.leb_gt in Et. lia.
  - reflexivity.
Qed.

(** X23. Where the interception log can be written, with [--morph],
    [--morphllm] or [--morph-only] among the flags and without
    [--no-morph], a call of a mapped tool other than [MultiEdit] is
    intercepted whatever its input is: with the backend
    available the decision is a [block] whose alternative is the mapped
    tool on the unchanged input, and the call goes to [morph_operations];
    without it the decision is the fallback response, and the call goes to
    [fallback_operations]. *)
Theorem explicit_flag_routes env s m tool_input st :
  log_fails env = false ->
  explicit_flag (parse_flags env) ->
  ~ In "--no-morph" (parse_flags env) ->
  dict_get s TOOL_MAPPING = Some m ->
  s <> "MultiEdit" ->
  exists d st',
    process_tool_call env (JStr s) tool_input st = (Return d, st') /\
    routed env (JStr s) tool_input (JStr m) tool_input st st' d.
Proof.
  intros Hlogs Hex Hno Hm Hs.
  apply process_intercepted.
  - exact Hlogs.
  - intros ->. discriminate.
  - apply (should_intercept_mapped env s m); [exact Hm | exact Hno | now left].
  - exact Hm.
  - unfold map_tool_parameters. cbn [py_in_list py_eq_str].
    destruct (str_in s ["Read"; "Write"; "Edit"; "LS"; "Glob"]); [reflexivity|].
    destruct (String.eqb_spec s "MultiEdit"); [contradiction | reflexivity].
Qed.

(** X24. Where the interception log can be written, without [--no-morph]
    every [LS] call is intercepted, with no flag set and from the first
    call of a session on: [is_large_directory_operation] is true of every
    input. *)
Theorem list_directory_is_routed env tool_input st :
  log_fails env = false ->
  ~ In "--no-morph" (parse_flags env) ->
  exists d st',
    process_tool_call env (JStr "LS") tool_input st = (Return d, st') /\
    routed env (JStr "LS") tool_input (JStr list_directory_tool) tool_input st st' d.
Proof.
  intros Hlogs Hno. apply process_intercepted.
  - exact Hlogs.
  - discriminate.
  - apply (should_intercept_mapped env "LS" list_directory_tool);
      [reflexivity | exact Hno | now right; right].
  - reflexivity.
  - reflexivity.
Qed.

(** X25. Where the interception log can be written, on an interceptor
    that has processed four calls or more, every call of a mapped tool
    whose parameters can be mapped is intercepted unless [--no-morph] is
    set: [total_operations] counts the call itself when it is compared
    with the threshold of 5. *)
Theorem operations_threshold_routes env s m tool_input mapped st :
  log_fails env = false ->
  (threshold_filesystem_operations <= total_operations (session_stats st) + 1)%Z ->
  ~ In "--no-morph" (parse_flags env) ->
  dict_get s TOOL_MAPPING = Some m ->
  map_tool_parameters (JStr s) tool_input = Ok mapped ->
  exists d st',
    process_tool_call env (JStr s) tool_input st = (Return d, st') /\
    routed env (JStr s) tool_input (JStr m) mapped st st' d.
Proof.
  intros Hlogs Ht Hno Hm Hmap. apply process_intercepted.
  - exact Hlogs.
  - intros ->. discriminate.
  - apply (should_intercept_mapped env s m); [exact Hm | exact Hno | right; left; exact Ht].
  - exact Hm.
  - exact Hmap.
Qed.

(** X26. Where the interception log can be written, a [MultiEdit] call
    with a list of edits, with no flag that asks for the backend and
    before the operations threshold, is intercepted exactly when the
    number of edits reaches 3, or 2 under [--morph-fast];
    the alternative is [edit_file] on the file path, the edits and the two
    batch markers.  Below that number it is left to the native tool. *)
Theorem multiedit_threshold env items edits st :
  log_fails env = false ->
  dict_get "edits" items = Some (JList edits) ->
  ~ In "--no-morph" (parse_flags env) ->
  ~ explicit_flag (parse_flags env) ->
  (total_operations (session_stats st) + 1 < threshold_filesystem_operations)%Z ->
  exists d st',
    process_tool_call env (JStr "MultiEdit") (JDict items) st = (Return d, st') /\
    if (batch_threshold (parse_flags env) <=? Z.of_nat (length edits))%Z
    then routed env (JStr "MultiEdit") (JDict items) (JStr edit_file_tool)
           (multiedit_input items edits) st st' d
    else allowed_native st st' d.
Proof.
  intros Hlogs Hedits Hno Hex Htotal.
  assert (fst (should_intercept env (JStr "MultiEdit") (JDict items) (parse_flags env)
                 (counted_total st))
          = Return (batch_threshold (parse_flags env) <=? Z.of_nat (length edits))%Z) as Hi.
  { unfold should_intercept, should_auto_activate, batch_threshold.
    rewrite (str_in_false _ _ Hno).
    assert (str_in "--morph-only" (parse_flags env) = false) as ->.
    { apply str_in_false. intros H. apply Hex. now left. }
    assert (str_in "--morph" (parse_flags env) = false) as ->.
    { apply str_in_false. intros H. apply Hex. right. now left. }
    assert (str_in "--morphllm" (parse_flags env) = false) as ->.
    { apply str_in_false. intros H. apply Hex. right. now right. }
    cbn [orb]. cbv [mbind M_bind lift mret M_ret get_stats].
    change (py_in_keys (JStr "MultiEdit") (dict_keys TOOL_MAPPING)) with (Ok true).
    cbn [negb counted_total session_stats total_operations].
    apply Z.leb_gt in Htotal. rewrite Htotal.
    change (py_eq_str (JStr "MultiEdit") "MultiEdit") with true. cbv iota.
    unfold is_batch_operation. cbn [py_contains py_get mbind result_bind].
    unfold dict_has. rewrite Hedits. cbn [py_len]. cbv [mbind result_bind].
    destruct (threshold_batch_edits <=? Z.of_nat (length edits))%Z eqn:E3.
    - cbn. apply Z.leb_le in E3. unfold threshold_batch_edits in *.
      destruct (str_in "--morph-fast" (parse_flags env)); symmetry;
        [f_equal; apply Z.leb_le; lia | f_equal; apply Z.leb_le; lia].
    - change (py_eq_str (JStr "MultiEdit") "LS") with false. cbn [andb].
      destruct (str_in "--morph-fast" (parse_flags env)); [|now rewrite E3].
      unfold is_performance_critical_operation.
      cbn [py_in_list str_in existsb String.eqb Ascii.eqb Bool.eqb orb mbind result_bind].
      change (py_eq_str (JStr "MultiEdit") "MultiEdit") with true. cbv iota.
      cbn [py_get]. rewrite Hedits. cbn [py_len mbind result_bind].
      replace (2 <=? Z.of_nat (length edits))%Z with (1 <? Z.of_nat (length edits))%Z.
      + destruct (1 <? Z.of_nat (length edits))%Z; reflexivity.
      + destruct (1 <? Z.of_nat (length edits))%Z eqn:E1; symmetry.
        * apply Z.ltb_lt in E1. apply Z.leb_le. lia.
        * apply Z.ltb_ge in E1. apply Z.leb_gt. lia. }
  destruct (batch_threshold (parse_flags env) <=? Z.of_nat (length edits))%Z.
  - apply process_intercepted; [exact Hlogs | discriminate | exact Hi | reflexivity |].
    unfold map_tool_parameters, map_multiedit_parameters, multiedit_input.
    cbn [py_in_list py_eq_str py_get mbind result_bind].
    change (str_in "MultiEdit" ["Read"; "Write"; "Edit"; "LS"; "Glob"]) with false.
    change ("MultiEdit" =? "MultiEdit")%string with true. cbv iota.
    now rewrite Hedits.
  - destruct (process_not_intercepted env "MultiEdit" (JDict items) st) as (st' & Hrun & Hnat);
      [exact Hlogs | discriminate | exact Hi |]. now exists native_response, st'.
Qed.

(** X27. Where the interception log can be written, under [--morph-fast],
    with no flag that asks for the backend and before the operations
    threshold, a [Read], [Write] or [Edit] call on a string path is
    intercepted exactly when the path exists and its size is above 1048576
    bytes; a file of exactly that size is left to the native tool. *)
Theorem large_file_threshold env s m items p st :
  log_fails env = false ->
  In s ["Read"; "Write"; "Edit"] ->
  dict_get s TOOL_MAPPING = Some m ->
  dict_get "file_path" items = Some (JStr p) ->
  In "--morph-fast" (parse_flags env) ->
  ~ In "--no-morph" (parse_flags env) ->
  ~ explicit_flag (parse_flags env) ->
  (total_operations (session_stats st) + 1 < threshold_filesystem_operations)%Z ->
  exists d st',
    process_tool_call env (JStr s) (JDict items) st = (Return d, st') /\
    if larger_than_1MB (stat env (PathStr p))
    then routed env (JStr s) (JDict items) (JStr m) (JDict items) st st' d
    else allowed_native st st' d.
Proof.
  intros Hlogs Hs Hm Hpath Hfast Hno Hex Htotal.
  assert (s <> directory_tree_tool) as Hne.
  { intros ->. destruct Hs as [E|[E|[E|[]]]]; discriminate. }
  assert (fst (should_intercept env (JStr s) (JDict items) (parse_flags env)
                 (counted_total st))
          = Return (larger_than_1MB (stat env (PathStr p)))) as Hi.
  { unfold should_intercept, should_auto_activate.
    rewrite (str_in_false _ _ Hno), (str_in_true _ _ Hfast).
    assert (str_in "--morph-only" (parse_flags env) = false) as ->.
    { apply str_in_false. intros H. apply Hex. now left. }
    assert (str_in "--morph" (parse_flags env) = false) as ->.
    { apply str_in_false. intros H. apply Hex. right. now left. }
    assert (str_in "--morphllm" (parse_flags env) = false) as ->.
    { apply str_in_false. intros H. apply Hex. right. now right. }
    cbn [orb py_in_keys]. rewrite str_in_keys. unfold dict_has. rewrite Hm.
    cbv [mbind M_bind lift mret M_ret get_stats].
    cbn [negb counted_total session_stats total_operations].
    apply Z.leb_gt in Htotal. rewrite Htotal.
    unfold is_performance_critical_operation, large_file_test, os_path_exists,
      os_path_getsize, larger_than_1MB.
    destruct Hs as [<-|[<-|[<-|[]]]];
      cbn [py_eq_str py_in_list str_in existsb String.eqb Ascii.eqb Bool.eqb orb andb
           py_contains py_getitem mbind result_bind to_pathlike];
      unfold dict_has; rewrite Hpath; cbn [mbind result_bind to_pathlike];
      destruct (stat env (PathStr p)) as [[size|size entries]|];
      cbn [mbind result_bind caught_OSError_KeyError];
      try destruct (1024 * 1024 <? size)%Z; reflexivity. }
  destruct (larger_than_1MB (stat env (PathStr p))).
  - apply process_intercepted; [exact Hlogs | exact Hne | exact Hi | exact Hm |].
    unfold map_tool_parameters.
    destruct Hs as [<-|[<-|[<-|[]]]]; reflexivity.
  - destruct (process_not_intercepted env s (JDict items) st) as (st' & Hrun & Hnat);
      [exact Hlogs | exact Hne | exact Hi |]. now exists native_response, st'.
Qed.

(** What [detect_token_overflow_risk] answers for a string path, as a
    function of the directory. *)
Lemma safe_directory_tree_value env items p st :
  dict_get "path" items = Some (JStr p) ->
  fst (should_use_safe_directory_tree env (JStr directory_tree_tool) (JDict items) st)
  = Return (overflow_risk (stat env (PathStr p))).
Proof.
  intros Hpath.
  unfold should_use_safe_directory_tree, detect_token_overflow_risk, overflow_risk_test,
    try_except, overflow_risk.
  cbv [mbind M_bind lift mret M_ret].
  cbn [py_in_keys py_eq_str py_get to_pathlike]. rewrite Hpath.
  change (str_in directory_tree_tool (dict_keys MORPH_TOOLS_WITH_FALLBACK)) with true.
  change (directory_tree_tool =? "mcp__filesystem-with-morph__directory_tree")%string with true.
  cbn [negb]. unfold os_path_exists, os_path_isdir, os_listdir.
  cbn [to_pathlike mbind result_bind].
  destruct (stat env (PathStr p)) as [[size|size [entries|]]|]; try reflexivity.
  assert (count_subdirs (JStr p) entries = Ok (Z.of_nat (length (List.filter snd entries))))
    as ->.
  { destruct entries; reflexivity. }
  destruct (8 <=? Z.of_nat (length (List.filter snd entries)))%Z; [reflexivity|].
  destruct (existsb _ problematic_subdirs); [reflexivity|].
  destruct (15 <=? Z.of_nat (length entries))%Z; reflexivity.
Qed.

(** X28. Where the interception log can be written, the decision for a
    directory-tree call on a string path depends on the directory alone,
    not on the flags: it is a [block] with
    [list_directory] on the same path as the alternative when the path is
    a directory that cannot be listed or that has 8 subdirectories or more,
    a child with one of the nine names, or 15 entries or more; otherwise
    the call is left to the native tool. *)
Theorem directory_tree_decision env items p st :
  log_fails env = false ->
  dict_get "path" items = Some (JStr p) ->
  exists d st',
    process_tool_call env (JStr directory_tree_tool) (JDict items) st = (Return d, st') /\
    if overflow_risk (stat env (PathStr p))
    then decision_block d /\
         py_get d "alternative_tool" JNull = Ok (JStr list_directory_tool) /\
         py_get d "alternative_input" JNull = Ok (JDict [("path", JStr p)]) /\
         counters (session_stats st') =
         (morph_operations (session_stats st) + 1, native_operations (session_stats st),
          fallback_operations (session_stats st))
    else allowed_native st st' d.
Proof.
  intros Hlogs Hpath. unfold process_tool_call.
  cbv [mbind M_bind incr_total get_stats set_stats]. fold (counted_total st).
  pose proof (safe_directory_tree_value env items p (counted_total st) Hpath) as Hsafe.
  pose proof (quiet_run _ (counted_total st)
                (should_use_safe_directory_tree_quiet env (JStr directory_tree_tool)
                   (JDict items))) as Hq.
  destruct (should_use_safe_directory_tree env (JStr directory_tree_tool) (JDict items)
              (counted_total st)) as [r st2]. cbn [fst snd] in *. subst r.
  destruct (overflow_risk (stat env (PathStr p))).
  - run_ops. cbn [py_get]. rewrite Hpath. run_ops.
    unfold create_chunked_directory_sequence. cbn [py_get mbind result_bind]. rewrite Hpath.
    eexists _, _. split; [reflexivity|].
    split; [eexists; split; [reflexivity|]; split; reflexivity|].
    split; [reflexivity|]. split; [reflexivity|]. cbn. rewrite Hq. reflexivity.
  - pose proof (should_intercept_unmapped env directory_tree_tool (JDict items)
                  (parse_flags env) st2 eq_refl) as Hi.
    pose proof (quiet_run _ st2
                  (should_intercept_quiet env (JStr directory_tree_tool) (JDict items)
                     (parse_flags env))) as Hq2.
    destruct (should_intercept env (JStr directory_tree_tool) (JDict items) (parse_flags env)
                st2) as [r st3]. cbn [fst snd] in *. subst r.
    run_ops. eexists _, _. split; [reflexivity|]. split; [reflexivity|].
    cbn. rewrite Hq2, Hq. reflexivity.
Qed.

(** A call returns only where it could write its entry. *)
Lemma returning_call_has_logged env tool_name tool_input st d st' :
  process_tool_call env tool_name tool_input st = (Return d, st') ->
  log_fails env = false.
Proof.
  destruct (log_fails env) eqn:Hfail; [|reflexivity]. intros Hrun. exfalso. revert Hrun.
  unfold process_tool_call.
  cbv [mbind M_bind incr_total get_stats set_stats].
  destruct (should_use_safe_directory_tree env tool_name tool_input _)
    as [[safe|e|n] st2]; try discriminate.
  destruct safe.
  - run_ops. destruct (py_get tool_input "path" (JStr "")) as [path|e]; run_ops; discriminate.
  - destruct (should_intercept env tool_name tool_input (parse_flags env) st2)
      as [[intercept|e|n] st3]; try discriminate.
    destruct intercept; [|run_ops; discriminate].
    rewrite validate_morph_server_returns.
    destruct (server_available env); cbn [negb]; [|run_ops; discriminate].
    destruct (create_morph_tool_call env tool_name tool_input) as [mc|e]; run_ops;
      [|discriminate].
    destruct (py_getitem mc "tool") as [tool|e]; run_ops; discriminate.
Qed.

(** X29. A call that returns appends exactly one entry to the
    interception log, with the tool name, the time and the counters.  The
    entry counts the call in [total_operations]; the entry of an allowed
    call counts it in [native_operations] too, but the entry of an
    intercepted call is written before the call goes to
    [morph_operations] or [fallback_operations], so it does not count it
    there. *)
Theorem call_writes_one_log_entry env tool_name tool_input st d st' :
  process_tool_call env tool_name tool_input st = (Return d, st') ->
  exists e,
    log_file st' = (log_file st ++ [e])%list /\
    entry_tool_name e = tool_name /\
    entry_timestamp e = now_isoformat env /\
    total_operations (entry_session_stats e) = total_operations (session_stats st) + 1 /\
    ((entry_action e = "allow" /\ decision_allow d /\
      entry_session_stats e = session_stats st') \/
     (In (entry_action e) ["intercept"; "safe_intercept"] /\ decision_block d /\
      logged_before_counting e st' /\
      morph_operations (session_stats st') = morph_operations (entry_session_stats e) + 1 /\
      fallback_operations (session_stats st') = fallback_operations (entry_session_stats e)) \/
     (entry_action e = "fallback" /\ decision_allow d /\
      logged_before_counting e st' /\
      morph_operations (session_stats st') = morph_operations (entry_session_stats e) /\
      fallback_operations (session_stats st') =
      fallback_operations (entry_session_stats e) + 1)).
Proof.
  intros Hrun. pose proof (returning_call_has_logged _ _ _ _ _ _ Hrun) as Hlogs.
  revert Hrun. unfold process_tool_call.
  cbv [mbind M_bind incr_total get_stats set_stats]. fold (counted_total st).
  pose proof (should_use_safe_directory_tree_quiet env tool_name tool_input (counted_total st))
    as H1. unfold wp in H1.
  destruct (should_use_safe_directory_tree env tool_name tool_input (counted_total st))
    as [[safe|e|n] st2]; destruct H1 as (Hs1 & Hl1 & _ & _ & _); try discriminate.
  cbn [counted_total session_stats log_file] in Hs1, Hl1.
  destruct safe.
  - run_ops. destruct (py_get tool_input "path" (JStr "")) as [path|e]; [|discriminate].
    run_ops.
    destruct (create_chunked_directory_sequence tool_input) as [cc|e]; run_ops;
      [|discriminate].
    destruct (safe_block_response tool_name path cc) as [d'|e] eqn:Ed; run_ops;
      [|discriminate].
    intros [= <- <-]. eexists. split; [cbn; rewrite Hl1; reflexivity|].
    cbn. rewrite Hs1. cbn. repeat split.
    right. left. split; [now right; left|].
    split; [exact (safe_block_response_shape _ _ _ _ Ed)|]. now repeat split.
  - pose proof (should_intercept_quiet env tool_name tool_input (parse_flags env) st2) as H2.
    unfold wp in H2.
    destruct (should_intercept env tool_name tool_input (parse_flags env) st2)
      as [[intercept|e|n] st3]; destruct H2 as (Hs2 & Hl2 & _ & _ & _); try discriminate.
    destruct intercept.
    + rewrite validate_morph_server_returns.
      destruct (server_available env); cbn [negb].
      * destruct (create_morph_tool_call env tool_name tool_input) as [mc|e]; run_ops;
          [|discriminate].
        destruct (py_getitem mc "tool") as [tool|e]; run_ops; [|discriminate].
        destruct (morph_block_response tool_name mc) as [d'|e] eqn:Ed; run_ops;
          [|discriminate].
        intros [= <- <-]. eexists. split; [cbn; rewrite Hl2, Hl1; reflexivity|].
        cbn. rewrite Hs2, Hs1. cbn. repeat split.
        right. left. split; [now left|].
        split; [exact (morph_block_response_shape _ _ _ Ed)|]. now repeat split.
      * run_ops. intros [= <- <-]. eexists. split; [cbn; rewrite Hl2, Hl1; reflexivity|].
        cbn. rewrite Hs2, Hs1. cbn. repeat split.
        right. right. split; [reflexivity|].
        split; [apply fallback_response_shape|]. now repeat split.
    + run_ops. intros [= <- <-]. eexists. split; [cbn; rewrite Hl2, Hl1; reflexivity|].
      cbn. rewrite Hs2, Hs1. cbn. repeat split.
      left. split; [reflexivity|]. split; [apply native_response_shape | reflexivity].
Qed.


(** *** Examples *)

Lemma no_morph_flag_allows_example :
  exists st',
    process_tool_call example_no_morph_env (JStr "Read") (JDict [("file_path", JStr "a.py")])
      (start example_no_morph_env) = (Return native_response, st') /\
    native_operations (session_stats st') = 1.
Proof.
  destruct (no_morph_flag_allows example_no_morph_env "Read"
              (JDict [("file_path", JStr "a.py")]) (start example_no_morph_env))
    as (d & st' & Hrun & -> & Hc).
  - reflexivity.
  - cbn. now left.
  - discriminate.
  - exists st'. split; [exact Hrun|]. now injection Hc.
Defined.

Lemma unmapped_tool_is_allowed_example :
  exists st',
    process_tool_call example_morph_env (JStr "Bash") (JDict [("command", JStr "ls")])
      (start example_morph_env) = (Return native_response, st').
Proof.
  destruct (unmapped_tool_is_allowed example_morph_env "Bash"
              (JDict [("command", JStr "ls")]) (start example_morph_env))
    as (d & st' & Hrun & -> & Hc).
  - reflexivity.
  - reflexivity.
  - discriminate.
  - now exists st'.
Defined.

Lemma explicit_flag_routes_example :
  exists d st',
    process_tool_call example_morph_env (JStr "Read") (JDict [("file_path", JStr "a.py")])
      (start example_morph_env) = (Return d, st') /\
    decision_block d /\
    py_get d "alternative_tool" JNull = Ok (JStr "mcp__filesystem-with-morph__read_file") /\
    py_get d "alternative_input" JNull = Ok (JDict [("file_path", JStr "a.py")]).
Proof.
  destruct (explicit_flag_routes example_morph_env "Read"
              "mcp__filesystem-with-morph__read_file"
              (JDict [("file_path", JStr "a.py")]) (start example_morph_env))
    as (d & st' & Hrun & Hrouted).
  - reflexivity.
  - right. left. cbn. now left.
  - cbn. intros [E|[]]. discriminate.
  - reflexivity.
  - discriminate.
  - exists d, st'. split; [exact Hrun|].
    unfold routed in Hrouted.
    change (server_available example_morph_env) with true in Hrouted.
    cbv iota in Hrouted. tauto.
Defined.

Lemma list_directory_is_routed_example :
  exists d st',
    process_tool_call example_backend_env (JStr "LS") (JDict [("path", JStr "/repo")])
      (start example_backend_env) = (Return d, st') /\
    decision_block d /\
    py_get d "alternative_tool" JNull = Ok (JStr list_directory_tool).
Proof.
  destruct (list_directory_is_routed example_backend_env (JDict [("path", JStr "/repo")])
              (start example_backend_env))
    as (d & st' & Hrun & Hrouted).
  - reflexivity.
  - cbn. tauto.
  - exists d, st'. split; [exact Hrun|]. unfold routed in Hrouted.
    change (server_available example_backend_env) with true in Hrouted.
    cbv iota in Hrouted. tauto.
Defined.

Lemma operations_threshold_routes_example :
  exists d st',
    process_tool_call example_backend_env (JStr "Read") (JDict [("file_path", JStr "a.py")])
      example_busy_state = (Return d, st') /\
    decision_block d /\
    total_operations (session_stats st') = 5.
Proof.
  destruct (operations_threshold_routes example_backend_env "Read"
              "mcp__filesystem-with-morph__read_file"
              (JDict [("file_path", JStr "a.py")]) (JDict [("file_path", JStr "a.py")])
              example_busy_state)
    as (d & st' & Hrun & Hrouted).
  - reflexivity.
  - cbn. unfold threshold_filesystem_operations. lia.
  - cbn. tauto.
  - reflexivity.
  - reflexivity.
  - exists d, st'. split; [exact Hrun|]. unfold routed in Hrouted.
    change (server_available example_backend_env) with true in Hrouted.
    cbv iota in Hrouted. split; [tauto|].
    pose proof (process_tool_call_post example_backend_env (JStr "Read")
                  (JDict [("file_path", JStr "a.py")]) example_busy_state) as Hpost.
    unfold wp in Hpost. rewrite Hrun in Hpost. destruct Hpost as (Ht & _). exact Ht.
Defined.

Lemma multiedit_threshold_example :
  exists d st',
    process_tool_call example_fast_env (JStr "MultiEdit")
      (JDict [("file_path", JStr "a.py");
              ("edits", JList [JDict [("old_string", JStr "a"); ("new_string", JStr "b")];
                               JDict [("old_string", JStr "c"); ("new_string", JStr "d")]])])
      (start example_fast_env) = (Return d, st') /\
    decision_block d /\
    py_get d "alternative_tool" JNull = Ok (JStr edit_file_tool).
Proof.
  destruct (multiedit_threshold example_fast_env
              [("file_path", JStr "a.py");
               ("edits", JList [JDict [("old_string", JStr "a"); ("new_string", JStr "b")];
                                JDict [("old_string", JStr "c"); ("new_string", JStr "d")]])]
              [JDict [("old_string", JStr "a"); ("new_string", JStr "b")];
               JDict [("old_string", JStr "c"); ("new_string", JStr "d")]]
              (start example_fast_env))
    as (d & st' & Hrun & Hrouted).
  - reflexivity.
  - reflexivity.
  - cbn. intros [E|[]]. discriminate.
  - cbn. intros [[E|[]] | [[E|[]] | [E|[]]]]; discriminate.
  - cbn. unfold threshold_filesystem_operations. lia.
  - exists d, st'. split; [exact Hrun|].
    match type of Hrouted with
    | (if ?c then _ else _) => change c with true in Hrouted
    end.
    cbv iota in Hrouted. unfold routed in Hrouted.
    change (server_available example_fast_env) with true in Hrouted.
    cbv iota in Hrouted. tauto.
Defined.

Lemma large_file_threshold_example :
  (exists d st',
     process_tool_call example_fast_env (JStr "Read")
       (JDict [("file_path", JStr "/data/big.bin")]) (start example_fast_env)
     = (Return d, st') /\ decision_block d) /\
  (exists st',
     process_tool_call example_fast_env (JStr "Read")
       (JDict [("file_path", JStr "/data/limit.bin")]) (start example_fast_env)
     = (Return native_response, st')).
Proof.
  split.
  - destruct (large_file_threshold example_fast_env "Read"
                "mcp__filesystem-with-morph__read_file"
                [("file_path", JStr "/data/big.bin")] "/data/big.bin" (start example_fast_env))
      as (d & st' & Hrun & Hrouted).
    + reflexivity.
    + cbn. tauto.
    + reflexivity.
    + reflexivity.
    + cbn. tauto.
    + cbn. intros [E|[]]. discriminate.
    + cbn. intros [[E|[]] | [[E|[]] | [E|[]]]]; discriminate.
    + cbn. unfold threshold_filesystem_operations. lia.
    + exists d, st'. split; [exact Hrun|].
      change (larger_than_1MB (stat example_fast_env (PathStr "/data/big.bin"))) with true
        in Hrouted.
      unfold routed in Hrouted.
      change (server_available example_fast_env) with true in Hrouted.
      cbv iota in Hrouted. tauto.
  - destruct (large_file_threshold example_fast_env "Read"
                "mcp__filesystem-with-morph__read_file"
                [("file_path", JStr "/data/limit.bin")] "/data/limit.bin"
                (start example_fast_env))
      as (d & st' & Hrun & Hnative).
    + reflexivity.
    + cbn. tauto.
    + reflexivity.
    + reflexivity.
    + cbn. tauto.
    + cbn. intros [E|[]]. discriminate.
    + cbn. intros [[E|[]] | [[E|[]] | [E|[]]]]; discriminate.
    + cbn. unfold threshold_filesystem_operations. lia.
    + change (larger_than_1MB (stat example_fast_env (PathStr "/data/limit.bin"))) with false
        in Hnative.
      cbv iota in Hnative. destruct Hnative as [-> _]. now exists st'.
Defined.

Lemma directory_tree_decision_example :
  (exists d st',
     process_tool_call example_no_morph_env (JStr directory_tree_tool)
       (JDict [("path", JStr "/repo")]) (start example_no_morph_env) = (Return d, st') /\
     decision_block d /\
     py_get d "alternative_tool" JNull = Ok (JStr list_directory_tool) /\
     py_get d "alternative_input" JNull = Ok (JDict [("path", JStr "/repo")])) /\
  (exists st',
     process_tool_call example_no_morph_env (JStr directory_tree_tool)
       (JDict [("path", JStr "/missing")]) (start example_no_morph_env)
     = (Return native_response, st')).
Proof.
  split.
  - destruct (directory_tree_decision example_no_morph_env [("path", JStr "/repo")]
                "/repo" (start example_no_morph_env))
      as (d & st' & Hrun & Hd).
    + reflexivity.
    + reflexivity.
    + exists d, st'. split; [exact Hrun|].
      change (overflow_risk (stat example_no_morph_env (PathStr "/repo"))) with true in Hd.
      cbv iota in Hd. tauto.
  - destruct (directory_tree_decision example_no_morph_env [("path", JStr "/missing")]
                "/missing" (start example_no_morph_env))
      as (d & st' & Hrun & Hd).
    + reflexivity.
    + reflexivity.
    + change (overflow_risk (stat example_no_morph_env (PathStr "/missing"))) with false
        in Hd.
      cbv iota in Hd. destruct Hd as [-> _]. now exists st'.
Defined.

Lemma call_writes_one_log_entry_example :
  exists e,
    log_file (snd (process_tool_call example_backend_env (JStr "LS")
                     (JDict [("path", JStr "/repo")]) (start example_backend_env))) = [e] /\
    entry_tool_name e = JStr "LS" /\
    total_operations (entry_session_stats e) = 1.
Proof.
  destruct (process_tool_call example_backend_env (JStr "LS")
              (JDict [("path", JStr "/repo")]) (start example_backend_env))
    as [[d|x|n] st'] eqn:Hrun; try (vm_compute in Hrun; discriminate).
  destruct (call_writes_one_log_entry example_backend_env (JStr "LS")
              (JDict [("path", JStr "/repo")]) (start example_backend_env) d st' Hrun)
    as (e & Hlog & Htool & _ & Htotal & _).
  exists e. cbn [snd]. rewrite Hlog. repeat split; assumption.
Defined.

End RoutingFacts.
